(** * Global Online Survey Market: the cap / eligibility engine, registration,
      referral and one-time-passcode logic of the React front end, embedded
      as pure state-passing functions.

    Every React component is a record of its [useState] cells; every handler
    is a function from the cells it reads (and from the values the outside
    world hands it: the clock, [Math.random()], the text provider's answers,
    the answer to a [confirm] dialog) to the cells it writes.

    Numbers are the integers the application computes with ([Z]); strings are
    [string]; an optional field [f?: T] is [option T]; [null] is [None]. *)

From Stdlib Require Import ZArith QArith Qround String Ascii List Bool Lia.
From stdpp Require Import base option list strings pretty gmap.
Import ListNotations.

Local Open Scope string_scope.
Local Open Scope list_scope.
Local Open Scope Z_scope.

(** ** The JavaScript operators and library calls the handlers use *)
Module Js.

(** [x || d] where [x : number | undefined]: [undefined] and [0] are falsy. *)
Definition num_or (x : option Z) (d : Z) : Z :=
  match x with
  | Some v => if v =? 0 then d else v
  | None => d
  end.

(** [x ?? d]: only [undefined] is replaced. *)
Definition nullish {A : Type} (x : option A) (d : A) : A :=
  match x with
  | Some v => v
  | None => d
  end.

(** [x || d] where [x] is an object, an array or [undefined]: objects and
    arrays are always truthy. *)
Definition obj_or {A : Type} (x : option A) (d : A) : A := nullish x d.

(** Truthiness of a string: only the empty string is falsy. *)
Definition truthy (s : string) : bool := negb (String.eqb s "").

(** [a !== b] for [a : string | undefined] and [b : string]. *)
Definition differs (a : option string) (b : string) : bool :=
  match a with
  | Some v => negb (String.eqb v b)
  | None => true
  end.

Definition is_upper (c : ascii) : bool :=
  let n := nat_of_ascii c in ((65 <=? n) && (n <=? 90))%nat.

Definition is_lower (c : ascii) : bool :=
  let n := nat_of_ascii c in ((97 <=? n) && (n <=? 122))%nat.

Definition is_digit (c : ascii) : bool :=
  let n := nat_of_ascii c in ((48 <=? n) && (n <=? 57))%nat.

(** White space removed by [String.prototype.trim], on the ASCII range:
    tab, line feed, vertical tab, form feed, carriage return, space. *)
Definition is_space (c : ascii) : bool :=
  let n := nat_of_ascii c in (((9 <=? n) && (n <=? 13)) || (n =? 32))%nat.

Definition lower_char (c : ascii) : ascii :=
  if is_upper c then ascii_of_nat (nat_of_ascii c + 32) else c.

(** [s.toLowerCase()], on the ASCII range. *)
Fixpoint toLowerCase (s : string) : string :=
  match s with
  | EmptyString => EmptyString
  | String c r => String (lower_char c) (toLowerCase r)
  end.

Fixpoint trimStart (s : string) : string :=
  match s with
  | EmptyString => EmptyString
  | String c r => if is_space c then trimStart r else s
  end.

Fixpoint trimEnd (s : string) : string :=
  match s with
  | EmptyString => EmptyString
  | String c r =>
      match trimEnd r with
      | EmptyString => if is_space c then EmptyString else String c EmptyString
      | r' => String c r'
      end
  end.

(** [s.trim()]. *)
Definition trim (s : string) : string := trimEnd (trimStart s).

(** [s.length], as an integer. *)
Definition length (s : string) : Z := Z.of_nat (String.length s).

Fixpoint some_char (p : ascii -> bool) (s : string) : bool :=
  match s with
  | EmptyString => false
  | String c r => p c || some_char p r
  end.

Fixpoint every_char (p : ascii -> bool) (s : string) : bool :=
  match s with
  | EmptyString => true
  | String c r => p c && every_char p r
  end.

(** Every character is in the ASCII range. On such strings [toLowerCase],
    [trim] and [length] above are the engine's; beyond them the engine also
    folds letters outside A-Z, strips blanks outside ASCII, and counts UTF-16
    units where [length] counts bytes. *)
Definition is_ascii (s : string) : bool :=
  every_char (fun c => (nat_of_ascii c <? 128)%nat) s.

(** [s.includes(c)] for a one-character needle. *)
Definition includes_char (c : ascii) (s : string) : bool :=
  some_char (Ascii.eqb c) s.

(** [/^[A-Za-z0-9]{10}$/.test(s)]. *)
Definition is_alnum10 (s : string) : bool :=
  (length s =? 10) && every_char (fun c => is_upper c || is_lower c || is_digit c) s.

(** [parts.join('')]. *)
Definition join (parts : list string) : string :=
  fold_right String.append "" parts.

(** [arr.findIndex(p)]; [None] stands for [-1]. *)
Fixpoint findIndex {A : Type} (p : A -> bool) (l : list A) : option nat :=
  match l with
  | [] => None
  | x :: r => if p x then Some O else option_map S (findIndex p r)
  end.

(** [Math.floor(r * n)] for a draw [r] of [Math.random()]; the draw is a
    rational of the unit interval and the product is taken exactly (it is
    exact in binary floating point when [n] is a power of two). *)
Definition floor_scaled (r : Q) (n : Z) : Z := Qfloor (r * inject_Z n).

End Js.

(** ** App.tsx: the registered-user collection and the session *)
Module App.

Record UserStats := {
  earnings : Z;
  performance : Z;
  eligibility : Z;
  surveysCompleted : Z;
  dailyCount : option Z;
  lastSurveyDate : option string;
  dailyEarnings : option Z;
  dailyLimit : option Z
}.

Record EarningEntry := {
  id : Z;
  date : string;
  amount : Z;
  title : string
}.

Record Notifications := {
  email : bool;
  sms : bool;
  marketing : bool
}.

Record UserSettings := {
  notifications : Notifications;
  language : string
}.

(** [profile?: any]: the profile form stores an object of string fields. *)
Definition Profile : Type := list (string * string).

Record UserData := {
  username : string;
  password : option string;
  mpesaCode : option string;
  profile : option Profile;
  stats : option UserStats;
  earningsHistory : option (list EarningEntry);
  settings : option UserSettings
}.

(** [Partial<UserData>]: a key is absent ([None]) or present with a value of
    the field's type (for an optional field that value may be [undefined]). *)
Record PartialUserData := {
  p_username : option string;
  p_password : option (option string);
  p_mpesaCode : option (option string);
  p_profile : option (option Profile);
  p_stats : option (option UserStats);
  p_earningsHistory : option (option (list EarningEntry));
  p_settings : option (option UserSettings)
}.

Definition no_update : PartialUserData :=
  {| p_username := None; p_password := None; p_mpesaCode := None;
     p_profile := None; p_stats := None; p_earningsHistory := None;
     p_settings := None |}.

(** What the handlers read off [new Date()] and [Date.now()]. *)
Record Clock := {
  toDateString : string;
  now : Z;
  toLocaleDateString : string
}.

Inductive View := login | register | dashboard.

Record State := {
  registeredUsers : list UserData;
  currentUser : option UserData;
  referralCode : option string;
  currentView : View
}.

Definition setRegisteredUsers (l : list UserData) (st : State) : State :=
  {| registeredUsers := l; currentUser := currentUser st;
     referralCode := referralCode st; currentView := currentView st |}.

Definition setCurrentUser (u : option UserData) (st : State) : State :=
  {| registeredUsers := registeredUsers st; currentUser := u;
     referralCode := referralCode st; currentView := currentView st |}.

Definition setCurrentView (v : View) (st : State) : State :=
  {| registeredUsers := registeredUsers st; currentUser := currentUser st;
     referralCode := referralCode st; currentView := v |}.


Definition handleLogout (st : State) : State :=
  setCurrentView login (setCurrentUser None st).

(** The stats literal written for a record that has none. *)
Definition defaultStats (today : string) : UserStats :=
  {| earnings := 0; performance := 65; eligibility := 40;
     surveysCompleted := 0; dailyCount := Some 0;
     lastSurveyDate := Some today; dailyEarnings := Some 0;
     dailyLimit := Some 250 |}.

Definition defaultSettings : UserSettings :=
  {| notifications := {| email := true; sms := true; marketing := false |};
     language := "en" |}.

(** [{ ...newUser, stats: {...}, earningsHistory: [], settings: {...} }] *)
Definition userWithDefaults (clk : Clock) (newUser : UserData) : UserData :=
  {| username := username newUser;
     password := password newUser;
     mpesaCode := mpesaCode newUser;
     profile := profile newUser;
     stats := Some (defaultStats (toDateString clk));
     earningsHistory := Some [];
     settings := Some defaultSettings |}.

Definition bonus : Z := 50.

(** [{ ...currentStats, earnings: currentStats.earnings + bonus }] *)
Definition creditStats (currentStats : UserStats) : UserStats :=
  {| earnings := earnings currentStats + bonus;
     performance := performance currentStats;
     eligibility := eligibility currentStats;
     surveysCompleted := surveysCompleted currentStats;
     dailyCount := dailyCount currentStats;
     lastSurveyDate := lastSurveyDate currentStats;
     dailyEarnings := dailyEarnings currentStats;
     dailyLimit := dailyLimit currentStats |}.

Definition referralEntry (clk : Clock) (newUser : UserData) : EarningEntry :=
  {| id := now clk;
     date := toLocaleDateString clk;
     amount := bonus;
     title := "Referral Bonus: " +:+ username newUser |}.

(** The referrer's record after the credit:
    [{ ...referrer, stats: newStats, earningsHistory: [newEntry, ...old] }]. *)
Definition creditReferrer (clk : Clock) (newUser referrer : UserData) : UserData :=
  let currentStats := Js.obj_or (stats referrer) (defaultStats (toDateString clk)) in
  {| username := username referrer;
     password := password referrer;
     mpesaCode := mpesaCode referrer;
     profile := profile referrer;
     stats := Some (creditStats currentStats);
     earningsHistory :=
       Some (referralEntry clk newUser :: Js.obj_or (earningsHistory referrer) []);
     settings := settings referrer |}.

(** [handleRegisterSuccess] of the version that captures [?ref=]. The list
    is built first, the referrer's slot is then overwritten in place, and the
    three setters run last; the session set inside the referral branch is
    overwritten by the final [setCurrentUser(userWithDefaults)]. *)
Definition handleRegisterSuccess (clk : Clock) (newUser : UserData) (st : State) : State :=
  let fresh := userWithDefaults clk newUser in
  let updatedUserList := registeredUsers st ++ [fresh] in
  let '(updatedUserList, st) :=
    match referralCode st with
    | Some code =>
        if Js.truthy code && negb (String.eqb code (username newUser)) then
          match Js.findIndex (fun u => String.eqb (username u) code) updatedUserList with
          | Some referrerIndex =>
              match updatedUserList !! referrerIndex with
              | Some referrer =>
                  let credited := creditReferrer clk newUser referrer in
                  let updatedUserList := <[referrerIndex := credited]> updatedUserList in
                  let sameSession :=
                    match currentUser st with
                    | Some cu => String.eqb (username cu) code
                    | None => false
                    end in
                  (updatedUserList,
                   if sameSession then setCurrentUser (Some credited) st else st)
              | None => (updatedUserList, st)
              end
          | None => (updatedUserList, st)
          end
        else (updatedUserList, st)
    | None => (updatedUserList, st)
    end in
  setCurrentView dashboard
    (setCurrentUser (Some fresh) (setRegisteredUsers updatedUserList st)).

(** [handleRegisterSuccess] of the version of App.tsx that captures no
    referral code: the new record is appended and becomes the session. *)
Definition handleRegisterSuccessPlain (clk : Clock) (newUser : UserData) (st : State) : State :=
  let fresh := userWithDefaults clk newUser in
  setCurrentView dashboard
    (setCurrentUser (Some fresh) (setRegisteredUsers (registeredUsers st ++ [fresh]) st)).

(** One key of [{ ...currentUser, ...updatedData }]. *)
Definition spread {A : Type} (cur : A) (upd : option A) : A :=
  match upd with
  | Some v => v
  | None => cur
  end.

(** [{ ...currentUser, ...updatedData }] *)
Definition merge (cur : UserData) (upd : PartialUserData) : UserData :=
  {| username := spread (username cur) (p_username upd);
     password := spread (password cur) (p_password upd);
     mpesaCode := spread (mpesaCode cur) (p_mpesaCode upd);
     profile := spread (profile cur) (p_profile upd);
     stats := spread (stats cur) (p_stats upd);
     earningsHistory := spread (earningsHistory cur) (p_earningsHistory upd);
     settings := spread (settings cur) (p_settings upd) |}.

Definition handleUpdateUser (updatedData : PartialUserData) (st : State) : State :=
  match currentUser st with
  | None => st
  | Some cu =>
      let updatedUser := merge cu updatedData in
      let st := setCurrentUser (Some updatedUser) st in
      setRegisteredUsers
        (map (fun u => if String.eqb (username u) (username cu) then updatedUser else u)
             (registeredUsers st))
        st
  end.

(** [{ ...user, password: newPass }] *)
Definition withPassword (newPass : string) (user : UserData) : UserData :=
  {| username := username user;
     password := Some newPass;
     mpesaCode := mpesaCode user;
     profile := profile user;
     stats := stats user;
     earningsHistory := earningsHistory user;
     settings := settings user |}.

Definition handlePasswordReset (name newPass : string) (st : State) : State :=
  setRegisteredUsers
    (map (fun user =>
            if String.eqb (Js.toLowerCase (username user)) (Js.toLowerCase name)
            then withPassword newPass user else user)
         (registeredUsers st))
    st.

End App.

(** ** RegisterForm.tsx: details, one-time passcode, confirmation *)
Module RegisterForm.

Inductive Step := StepDetails | StepOtp | StepConfirmation.

Record FormData := {
  username : string;
  password : string;
  mpesaCode : string
}.

Record Notification := {
  title : string;
  message : string;
  code : string
}.

Record State := {
  step : Step;
  formData : FormData;
  errors : gmap string string;
  isLoading : bool;
  otp : list string;
  generatedOtp : string;
  notification : option Notification
}.

Definition initial : State :=
  {| step := StepDetails;
     formData := {| username := ""; password := ""; mpesaCode := "" |};
     errors := ∅;
     isLoading := false;
     otp := [""; ""; ""; ""; ""];
     generatedOtp := "";
     notification := None |}.

Definition setStep (v : Step) (st : State) : State :=
  {| step := v; formData := formData st; errors := errors st;
     isLoading := isLoading st; otp := otp st;
     generatedOtp := generatedOtp st; notification := notification st |}.

Definition setFormData (v : FormData) (st : State) : State :=
  {| step := step st; formData := v; errors := errors st;
     isLoading := isLoading st; otp := otp st;
     generatedOtp := generatedOtp st; notification := notification st |}.

Definition setErrors (v : gmap string string) (st : State) : State :=
  {| step := step st; formData := formData st; errors := v;
     isLoading := isLoading st; otp := otp st;
     generatedOtp := generatedOtp st; notification := notification st |}.

Definition setIsLoading (v : bool) (st : State) : State :=
  {| step := step st; formData := formData st; errors := errors st;
     isLoading := v; otp := otp st;
     generatedOtp := generatedOtp st; notification := notification st |}.

Definition setOtp (v : list string) (st : State) : State :=
  {| step := step st; formData := formData st; errors := errors st;
     isLoading := isLoading st; otp := v;
     generatedOtp := generatedOtp st; notification := notification st |}.

Definition setGeneratedOtp (v : string) (st : State) : State :=
  {| step := step st; formData := formData st; errors := errors st;
     isLoading := isLoading st; otp := otp st;
     generatedOtp := v; notification := notification st |}.

Definition setNotification (v : option Notification) (st : State) : State :=
  {| step := step st; formData := formData st; errors := errors st;
     isLoading := isLoading st; otp := otp st;
     generatedOtp := generatedOtp st; notification := v |}.

Definition validatePassword (pwd : string) : option string :=
  if Js.length pwd <? 8 then Some "Password must be at least 8 characters."
  else if Js.includes_char "_" pwd then Some "Password cannot contain underscores."
  else if negb (Js.some_char Js.is_upper pwd)
    then Some "Password must contain an uppercase letter."
  else if negb (Js.some_char Js.is_lower pwd)
    then Some "Password must contain a lowercase letter."
  else None.

(** [message || `Your verification code is ${otpCode}`] *)
Definition messageOr (message : option string) (otpCode : string) : string :=
  match message with
  | Some m => if Js.truthy m then m else "Your verification code is " +:+ otpCode
  | None => "Your verification code is " +:+ otpCode
  end.

Definition showOtpNotification (channelName message code : string) (st : State) : State :=
  setNotification
    (Some {| title := "New " +:+ channelName; message := message; code := code |}) st.

Definition channelName (name : string) : string :=
  if Js.includes_char "@" name then "Email" else "Message".

(** The duplicate check of [handleDetailsSubmit]:
    [registeredUsers.some(u => u.username.toLowerCase() === cleanUsername.toLowerCase())]. *)
Definition exists_ (registeredUsers : list App.UserData) (cleanUsername : string) : bool :=
  existsb
    (fun u => String.eqb (Js.toLowerCase (App.username u)) (Js.toLowerCase cleanUsername))
    registeredUsers.

(** [handleDetailsSubmit]; [otpCode] and [message] are what the two awaited
    provider calls resolve to (they are only used when validation passes). *)
Definition handleDetailsSubmit (registeredUsers : list App.UserData)
    (otpCode : string) (message : option string) (st : State) : State :=
  let st := setNotification None (setIsLoading true (setErrors ∅ st)) in
  let cleanUsername := Js.trim (username (formData st)) in
  if exists_ registeredUsers cleanUsername then
    setIsLoading false (setErrors {[ "username" := "Account already exists." ]} st)
  else
    match validatePassword (password (formData st)) with
    | Some pwdError => setIsLoading false (setErrors {[ "password" := pwdError ]} st)
    | None =>
        if negb (Js.truthy (mpesaCode (formData st)))
           || negb (Js.is_alnum10 (mpesaCode (formData st)))
        then
          setIsLoading false
            (setErrors
               {[ "mpesaCode" :=
                  "Transaction code must be exactly 10 alphanumeric characters." ]} st)
        else
          let st := setGeneratedOtp otpCode st in
          let st :=
            showOtpNotification (channelName cleanUsername)
              (messageOr message otpCode) otpCode st in
          setStep StepOtp (setIsLoading false st)
    end.

(** [handleOtpChange]: the five inputs call it with [index] in [0..4]. *)
Definition handleOtpChange (index : nat) (value : string) (st : State) : State :=
  if negb (Js.every_char Js.is_digit value) then st
  else setOtp (<[index := value]> (otp st)) st.

Definition enteredOtp (st : State) : string := Js.join (otp st).

Definition handleOtpSubmit (st : State) : State :=
  let st := setIsLoading true st in
  if String.eqb (enteredOtp st) (generatedOtp st) then
    setStep StepConfirmation (setIsLoading false st)
  else
    setIsLoading false (setErrors {[ "otp" := "Invalid OTP. Please try again." ]} st).

Definition handleResendOtp (otpCode : string) (message : option string) (st : State) : State :=
  let st := setGeneratedOtp otpCode (setIsLoading true st) in
  let st :=
    showOtpNotification (channelName (username (formData st)))
      (messageOr message otpCode) otpCode st in
  setIsLoading false st.

(** The record handed to [onRegisterSuccess] by the confirmation button. *)
Definition candidate (st : State) : App.UserData :=
  {| App.username := username (formData st);
     App.password := Some (password (formData st));
     App.mpesaCode := Some (mpesaCode (formData st));
     App.profile := None;
     App.stats := None;
     App.earningsHistory := None;
     App.settings := None |}.

End RegisterForm.

(** ** LoginForm.tsx: credentials, one-time passcode, password reset *)
Module LoginForm.

Inductive Step :=
  StepCredentials | StepOtp | StepForgotRequest | StepForgotVerify | StepForgotReset.

Record FormData := {
  username : string;
  password : string
}.

Record State := {
  step : Step;
  formData : FormData;
  agreed : bool;
  isLoading : bool;
  error : string;
  otp : list string;
  generatedOtp : string;
  matchedUser : option App.UserData;
  forgotUsername : string;
  newPassword : string;
  confirmPassword : string;
  notification : option RegisterForm.Notification
}.

Definition initial : State :=
  {| step := StepCredentials;
     formData := {| username := ""; password := "" |};
     agreed := false;
     isLoading := false;
     error := "";
     otp := [""; ""; ""; ""; ""];
     generatedOtp := "";
     matchedUser := None;
     forgotUsername := "";
     newPassword := "";
     confirmPassword := "";
     notification := None |}.

Definition setStep (v : Step) (st : State) : State :=
  {| step := v; formData := formData st; agreed := agreed st;
     isLoading := isLoading st; error := error st; otp := otp st;
     generatedOtp := generatedOtp st; matchedUser := matchedUser st;
     forgotUsername := forgotUsername st; newPassword := newPassword st;
     confirmPassword := confirmPassword st; notification := notification st |}.

Definition setFormData (v : FormData) (st : State) : State :=
  {| step := step st; formData := v; agreed := agreed st;
     isLoading := isLoading st; error := error st; otp := otp st;
     generatedOtp := generatedOtp st; matchedUser := matchedUser st;
     forgotUsername := forgotUsername st; newPassword := newPassword st;
     confirmPassword := confirmPassword st; notification := notification st |}.

Definition setAgreed (v : bool) (st : State) : State :=
  {| step := step st; formData := formData st; agreed := v;
     isLoading := isLoading st; error := error st; otp := otp st;
     generatedOtp := generatedOtp st; matchedUser := matchedUser st;
     forgotUsername := forgotUsername st; newPassword := newPassword st;
     confirmPassword := confirmPassword st; notification := notification st |}.

Definition setIsLoading (v : bool) (st : State) : State :=
  {| step := step st; formData := formData st; agreed := agreed st;
     isLoading := v; error := error st; otp := otp st;
     generatedOtp := generatedOtp st; matchedUser := matchedUser st;
     forgotUsername := forgotUsername st; newPassword := newPassword st;
     confirmPassword := confirmPassword st; notification := notification st |}.

Definition setError (v : string) (st : State) : State :=
  {| step := step st; formData := formData st; agreed := agreed st;
     isLoading := isLoading st; error := v; otp := otp st;
     generatedOtp := generatedOtp st; matchedUser := matchedUser st;
     forgotUsername := forgotUsername st; newPassword := newPassword st;
     confirmPassword := confirmPassword st; notification := notification st |}.

Definition setOtp (v : list string) (st : State) : State :=
  {| step := step st; formData := formData st; agreed := agreed st;
     isLoading := isLoading st; error := error st; otp := v;
     generatedOtp := generatedOtp st; matchedUser := matchedUser st;
     forgotUsername := forgotUsername st; newPassword := newPassword st;
     confirmPassword := confirmPassword st; notification := notification st |}.

Definition setGeneratedOtp (v : string) (st : State) : State :=
  {| step := step st; formData := formData st; agreed := agreed st;
     isLoading := isLoading st; error := error st; otp := otp st;
     generatedOtp := v; matchedUser := matchedUser st;
     forgotUsername := forgotUsername st; newPassword := newPassword st;
     confirmPassword := confirmPassword st; notification := notification st |}.

Definition setMatchedUser (v : option App.UserData) (st : State) : State :=
  {| step := step st; formData := formData st; agreed := agreed st;
     isLoading := isLoading st; error := error st; otp := otp st;
     generatedOtp := generatedOtp st; matchedUser := v;
     forgotUsername := forgotUsername st; newPassword := newPassword st;
     confirmPassword := confirmPassword st; notification := notification st |}.

Definition setForgotUsername (v : string) (st : State) : State :=
  {| step := step st; formData := formData st; agreed := agreed st;
     isLoading := isLoading st; error := error st; otp := otp st;
     generatedOtp := generatedOtp st; matchedUser := matchedUser st;
     forgotUsername := v; newPassword := newPassword st;
     confirmPassword := confirmPassword st; notification := notification st |}.

Definition setNewPassword (v : string) (st : State) : State :=
  {| step := step st; formData := formData st; agreed := agreed st;
     isLoading := isLoading st; error := error st; otp := otp st;
     generatedOtp := generatedOtp st; matchedUser := matchedUser st;
     forgotUsername := forgotUsername st; newPassword := v;
     confirmPassword := confirmPassword st; notification := notification st |}.

Definition setConfirmPassword (v : string) (st : State) : State :=
  {| step := step st; formData := formData st; agreed := agreed st;
     isLoading := isLoading st; error := error st; otp := otp st;
     generatedOtp := generatedOtp st; matchedUser := matchedUser st;
     forgotUsername := forgotUsername st; newPassword := newPassword st;
     confirmPassword := v; notification := notification st |}.

Definition setNotification (v : option RegisterForm.Notification) (st : State) : State :=
  {| step := step st; formData := formData st; agreed := agreed st;
     isLoading := isLoading st; error := error st; otp := otp st;
     generatedOtp := generatedOtp st; matchedUser := matchedUser st;
     forgotUsername := forgotUsername st; newPassword := newPassword st;
     confirmPassword := confirmPassword st; notification := v |}.

Definition emptyOtp : list string := [""; ""; ""; ""; ""].

Definition showOtpNotification (channelName message code : string) (st : State) : State :=
  setNotification
    (Some {| RegisterForm.title := "New " +:+ channelName;
             RegisterForm.message := message;
             RegisterForm.code := code |}) st.

(** [registeredUsers.find(u => u.username.toLowerCase() === name.toLowerCase())] *)
Definition findUser (registeredUsers : list App.UserData) (name : string)
    : option App.UserData :=
  List.find
    (fun u => String.eqb (Js.toLowerCase (App.username u)) (Js.toLowerCase name))
    registeredUsers.

(** [message || fallback] *)
Definition messageOr (message : option string) (fallback : string) : string :=
  match message with
  | Some m => if Js.truthy m then m else fallback
  | None => fallback
  end.

Definition handleCredentialsSubmit (registeredUsers : list App.UserData)
    (otpCode : string) (message : option string) (st : State) : State :=
  if negb (agreed st) then st
  else
    let st := setNotification None (setError "" (setIsLoading true st)) in
    match findUser registeredUsers (username (formData st)) with
    | None =>
        setError "Account not found. Please register first." (setIsLoading false st)
    | Some user =>
        if Js.differs (App.password user) (password (formData st)) then
          setError "Invalid password." (setIsLoading false st)
        else
          let st := setGeneratedOtp otpCode (setMatchedUser (Some user) st) in
          let channelName :=
            if Js.includes_char "@" (App.username user) then "Email" else "Message" in
          let st :=
            showOtpNotification channelName
              (messageOr message ("Your verification code is " +:+ otpCode)) otpCode st in
          setStep StepOtp (setIsLoading false st)
    end.

Definition handleForgotRequestSubmit (registeredUsers : list App.UserData)
    (otpCode : string) (message : option string) (st : State) : State :=
  let st := setNotification None (setError "" (setIsLoading true st)) in
  match findUser registeredUsers (forgotUsername st) with
  | None => setError "Account not found." (setIsLoading false st)
  | Some user =>
      let st := setGeneratedOtp otpCode (setMatchedUser (Some user) st) in
      let channel := if Js.includes_char "@" (App.username user) then "Email" else "SMS" in
      let st :=
        showOtpNotification channel
          (messageOr message ("Reset code: " +:+ otpCode)) otpCode st in
      setOtp emptyOtp (setStep StepForgotVerify (setIsLoading false st))
  end.

Definition enteredOtp (st : State) : string := Js.join (otp st).

Definition handleForgotVerifySubmit (st : State) : State :=
  if String.eqb (enteredOtp st) (generatedOtp st) then setStep StepForgotReset st
  else setError "Invalid OTP code." st.

(** [handlePasswordResetSubmit]; the second component is the call of
    [onPasswordReset(forgotUsername, newPassword)], when it is made. *)
Definition handlePasswordResetSubmit (st : State) : State * option (string * string) :=
  let st := setError "" st in
  match RegisterForm.validatePassword (newPassword st) with
  | Some pwdError => (setError pwdError st, None)
  | None =>
      if negb (String.eqb (newPassword st) (confirmPassword st)) then
        (setError "Passwords do not match." st, None)
      else
        let call := (forgotUsername st, newPassword st) in
        let st := setStep StepCredentials st in
        let st :=
          setFormData {| username := forgotUsername st; password := "" |} st in
        (setOtp emptyOtp
           (setConfirmPassword "" (setNewPassword "" (setForgotUsername "" st))),
         Some call)
  end.

Definition handleOtpChange (index : nat) (value : string) (st : State) : State :=
  if negb (Js.every_char Js.is_digit value) then st
  else setOtp (<[index := value]> (otp st)) st.

(** [handleOtpSubmit]; the second component is the argument of
    [onLoginSuccess], when it is called. *)
Definition handleOtpSubmit (st : State) : State * option App.UserData :=
  let st := setError "" (setIsLoading true st) in
  let invalid :=
    setError "Invalid verification code. Please try again." (setIsLoading false st) in
  if String.eqb (enteredOtp st) (generatedOtp st) then
    match matchedUser st with
    | Some user => (st, Some user)
    | None => (invalid, None)
    end
  else (invalid, None).

Definition handleResendOtp (otpCode : string) (message : option string) (st : State) : State :=
  let st := setGeneratedOtp otpCode (setIsLoading true st) in
  let channelName :=
    if Js.includes_char "@" (username (formData st)) then "Email" else "Message" in
  let st :=
    showOtpNotification channelName
      (messageOr message ("Your verification code is " +:+ otpCode)) otpCode st in
  setIsLoading false st.

(** The buttons that only move between steps. *)
Definition handleCancel (st : State) : State :=
  setNotification None (setError "" (setOtp emptyOtp (setStep StepCredentials st))).

Definition handleBackToLogin (st : State) : State := setStep StepCredentials st.

Definition handleForgotClick (st : State) : State := setStep StepForgotRequest st.

(** [handleChange]: [{ ...prev, [name]: value }] on the two credential inputs. *)
Definition handleChange (name value : string) (st : State) : State :=
  let fd := formData st in
  let fd :=
    if String.eqb name "username" then {| username := value; password := password fd |}
    else if String.eqb name "password" then {| username := username fd; password := value |}
    else fd in
  setError "" (setFormData fd st).

(** Everything the user or the provider can make the form do. *)
Inductive Event :=
| Change (name value : string)
| Agree (checked : bool)
| TypeForgotUsername (value : string)
| TypeNewPassword (value : string)
| TypeConfirmPassword (value : string)
| TypeOtp (index : nat) (value : string)
| SubmitCredentials (otpCode : string) (message : option string)
| SubmitForgotRequest (otpCode : string) (message : option string)
| SubmitForgotVerify
| SubmitPasswordReset
| SubmitOtp
| Resend (otpCode : string) (message : option string)
| Cancel
| BackToLogin
| ForgotClick.

Definition handle (registeredUsers : list App.UserData) (e : Event) (st : State) : State :=
  match e with
  | Change name value => handleChange name value st
  | Agree checked => setAgreed checked st
  | TypeForgotUsername value => setForgotUsername value st
  | TypeNewPassword value => setNewPassword value st
  | TypeConfirmPassword value => setConfirmPassword value st
  | TypeOtp index value => handleOtpChange index value st
  | SubmitCredentials otpCode message =>
      handleCredentialsSubmit registeredUsers otpCode message st
  | SubmitForgotRequest otpCode message =>
      handleForgotRequestSubmit registeredUsers otpCode message st
  | SubmitForgotVerify => handleForgotVerifySubmit st
  | SubmitPasswordReset => fst (handlePasswordResetSubmit st)
  | SubmitOtp => fst (handleOtpSubmit st)
  | Resend otpCode message => handleResendOtp otpCode message st
  | Cancel => handleCancel st
  | BackToLogin => handleBackToLogin st
  | ForgotClick => handleForgotClick st
  end.

Definition run (registeredUsers : list App.UserData) (es : list Event) (st : State) : State :=
  fold_left (fun s e => handle registeredUsers e s) es st.

(** The states the login form can be in; the collection it is handed may
    differ from one event to the next (a password reset rewrites it). *)
Inductive reachable : State -> Prop :=
| reach_initial : reachable initial
| reach_handle (registeredUsers : list App.UserData) (e : Event) (st : State) :
    reachable st -> reachable (handle registeredUsers e st).

(** The invariant of the login form: the passcode step is only ever
    entered by [handleCredentialsSubmit], which records the matched user
    first, and nothing clears that record. *)
Definition otp_step_has_user (st : State) : Prop :=
  step st = StepOtp -> matchedUser st <> None.

End LoginForm.

(** ** Dashboard.tsx: daily caps, eligibility gates and reward processing *)
Module Dashboard.

Inductive ViewState :=
| home | profile | settings | help | history
| survey | survey_list | upgrade_limit | invite.

Record SurveyQuestion := {
  q_id : Z;
  q_text : string;
  q_options : list string
}.

Record SurveyOption := {
  id : string;
  title : string;
  category : string;
  timeMinutes : Z;
  reward : Z;
  description : string
}.

Record GlobalStats := {
  date : string;
  count : Z
}.

Definition GLOBAL_DAILY_CAP : Z := 100000.

Record State := {
  view : ViewState;
  globalStats : GlobalStats;
  stats : App.UserStats;
  earningsHistory : list App.EarningEntry;
  isSurveying : bool;
  lastEarned : option Z;
  activeQuestions : list SurveyQuestion;
  selectedSurvey : option SurveyOption
}.

Definition setView (v : ViewState) (st : State) : State :=
  {| view := v; globalStats := globalStats st; stats := stats st;
     earningsHistory := earningsHistory st; isSurveying := isSurveying st;
     lastEarned := lastEarned st; activeQuestions := activeQuestions st;
     selectedSurvey := selectedSurvey st |}.

Definition setGlobalStats (v : GlobalStats) (st : State) : State :=
  {| view := view st; globalStats := v; stats := stats st;
     earningsHistory := earningsHistory st; isSurveying := isSurveying st;
     lastEarned := lastEarned st; activeQuestions := activeQuestions st;
     selectedSurvey := selectedSurvey st |}.

Definition setStats (v : App.UserStats) (st : State) : State :=
  {| view := view st; globalStats := globalStats st; stats := v;
     earningsHistory := earningsHistory st; isSurveying := isSurveying st;
     lastEarned := lastEarned st; activeQuestions := activeQuestions st;
     selectedSurvey := selectedSurvey st |}.

Definition setEarningsHistory (v : list App.EarningEntry) (st : State) : State :=
  {| view := view st; globalStats := globalStats st; stats := stats st;
     earningsHistory := v; isSurveying := isSurveying st;
     lastEarned := lastEarned st; activeQuestions := activeQuestions st;
     selectedSurvey := selectedSurvey st |}.

Definition setIsSurveying (v : bool) (st : State) : State :=
  {| view := view st; globalStats := globalStats st; stats := stats st;
     earningsHistory := earningsHistory st; isSurveying := v;
     lastEarned := lastEarned st; activeQuestions := activeQuestions st;
     selectedSurvey := selectedSurvey st |}.

Definition setLastEarned (v : option Z) (st : State) : State :=
  {| view := view st; globalStats := globalStats st; stats := stats st;
     earningsHistory := earningsHistory st; isSurveying := isSurveying st;
     lastEarned := v; activeQuestions := activeQuestions st;
     selectedSurvey := selectedSurvey st |}.

Definition setActiveQuestions (v : list SurveyQuestion) (st : State) : State :=
  {| view := view st; globalStats := globalStats st; stats := stats st;
     earningsHistory := earningsHistory st; isSurveying := isSurveying st;
     lastEarned := lastEarned st; activeQuestions := v;
     selectedSurvey := selectedSurvey st |}.

Definition setSelectedSurvey (v : option SurveyOption) (st : State) : State :=
  {| view := view st; globalStats := globalStats st; stats := stats st;
     earningsHistory := earningsHistory st; isSurveying := isSurveying st;
     lastEarned := lastEarned st; activeQuestions := activeQuestions st;
     selectedSurvey := v |}.

(** The [globalStats] initializer; [saved] is the parsed content of the
    [global_survey_market_daily] key, when there is one. *)
Definition initGlobalStats (today : string) (saved : option GlobalStats) : GlobalStats :=
  match saved with
  | Some parsed =>
      if negb (String.eqb (date parsed) today) then {| date := today; count := 0 |}
      else parsed
  | None => {| date := today; count := 0 |}
  end.

(** The [stats] initializer: the daily counters of a record last touched on
    another day are reset; fields missing from old records are filled in. *)
Definition initStats (today : string) (currentUser : App.UserData) : App.UserStats :=
  let current := Js.obj_or (App.stats currentUser) (App.defaultStats today) in
  if Js.differs (App.lastSurveyDate current) today then
    {| App.earnings := App.earnings current;
       App.performance := App.performance current;
       App.eligibility := App.eligibility current;
       App.surveysCompleted := App.surveysCompleted current;
       App.dailyCount := Some 0;
       App.lastSurveyDate := Some today;
       App.dailyEarnings := Some 0;
       App.dailyLimit := Some (Js.num_or (App.dailyLimit current) 250) |}
  else
    {| App.earnings := App.earnings current;
       App.performance := App.performance current;
       App.eligibility := App.eligibility current;
       App.surveysCompleted := App.surveysCompleted current;
       App.dailyCount := Some (Js.nullish (App.dailyCount current) 0);
       App.lastSurveyDate := Some today;
       App.dailyEarnings := Some (Js.nullish (App.dailyEarnings current) 0);
       App.dailyLimit := Some (Js.num_or (App.dailyLimit current) 250) |}.

Definition initial (today : string) (saved : option GlobalStats)
    (currentUser : App.UserData) : State :=
  {| view := home;
     globalStats := initGlobalStats today saved;
     stats := initStats today currentUser;
     earningsHistory := Js.obj_or (App.earningsHistory currentUser) [];
     isSurveying := false;
     lastEarned := None;
     activeQuestions := [];
     selectedSurvey := None |}.

(** [const currentDailyCap = stats.dailyLimit || 250] *)
Definition currentDailyCap (s : App.UserStats) : Z := Js.num_or (App.dailyLimit s) 250.

(** [stats.dailyEarnings || 0] *)
Definition currentDaily (s : App.UserStats) : Z := Js.num_or (App.dailyEarnings s) 0.

(** [stats.dailyCount || 0] *)
Definition currentCount (s : App.UserStats) : Z := Js.num_or (App.dailyCount s) 0.

Definition isHighPerformer (s : App.UserStats) : bool := 75 <=? App.performance s.

Definition DAILY_LIMIT (s : App.UserStats) : Z := if isHighPerformer s then 7 else 3.


(** How a call of [handleSurveySelect] ends before any question is asked. *)
Inductive SelectOutcome :=
| Ignored            (* a selection is already in flight *)
| BlockedGlobal      (* alert: global daily survey limit reached *)
| BlockedEarnings    (* confirm: daily earnings limit reached, upgrade? *)
| BlockedCount       (* alert: daily survey limit reached *)
| Started.

(** The synchronous part of [handleSurveySelect], up to the optimistic
    increment of the global counter; [upgrade] is the answer given to the
    [confirm] dialog of the earnings gate, when that dialog is shown. *)
Definition handleSurveySelect (upgrade : bool) (survey : SurveyOption) (st : State)
    : SelectOutcome * State :=
  if isSurveying st then (Ignored, st)
  else if GLOBAL_DAILY_CAP <=? count (globalStats st) then (BlockedGlobal, st)
  else if currentDailyCap (stats st) <=? currentDaily (stats st) then
    (BlockedEarnings, if upgrade then setView upgrade_limit st else st)
  else if DAILY_LIMIT (stats st) <=? currentCount (stats st) then (BlockedCount, st)
  else
    let st := setLastEarned None (setIsSurveying true (setSelectedSurvey (Some survey) st)) in
    (Started,
     setGlobalStats
       {| date := date (globalStats st); count := count (globalStats st) + 1 |} st).

Definition fallbackQuestions : list SurveyQuestion :=
  [ {| q_id := 1; q_text := "How often do you use this service?";
       q_options := ["Daily"; "Weekly"; "Monthly"; "Rarely"] |};
    {| q_id := 2; q_text := "How satisfied are you with current options?";
       q_options := ["Very Satisfied"; "Satisfied"; "Neutral"; "Dissatisfied"] |};
    {| q_id := 3; q_text := "What factor matters most to you?";
       q_options := ["Price"; "Quality"; "Convenience"; "Brand"] |};
    {| q_id := 4; q_text := "Would you recommend this to a friend?";
       q_options := ["Definitely"; "Probably"; "Unlikely"; "Never"] |};
    {| q_id := 5; q_text := "How much do you spend on this monthly?";
       q_options := ["< KES 1000"; "KES 1000-5000"; "KES 5000+"; "Prefer not to say"] |} ].

(** The rest of [handleSurveySelect], once the provider has answered;
    [generated] is the parsed array, [None] when the call or the parse threw. *)
Definition finishSurveySelect (generated : option (list SurveyQuestion)) (st : State) : State :=
  let questions :=
    match generated with
    | Some (q :: qs) => q :: qs
    | _ => fallbackQuestions
    end in
  setIsSurveying false (setView survey (setActiveQuestions questions st)).

(** [Math.floor(Math.random() * 16) - 5] *)
Definition variance (r : Q) : Z := Js.floor_scaled r 16 - 5.

(** The amount [handleProcessRewards] awards: base reward plus variance,
    at least 10, then cut so that the day's total stays within the limit. *)
Definition earnedAmount (r : Q) (st : State) : Z :=
  let baseReward :=
    match selectedSurvey st with
    | Some s => reward s
    | None => 50
    end in
  let earnedAmount := Z.max 10 (baseReward + variance r) in
  let currentDaily := currentDaily (stats st) in
  let effectiveLimit := Js.num_or (App.dailyLimit (stats st)) 250 in
  if effectiveLimit <? currentDaily + earnedAmount
  then Z.max 0 (effectiveLimit - currentDaily)
  else earnedAmount.

(** [handleProcessRewards]; [r], [rp] and [re] are the three draws of
    [Math.random()], in the order they are made. The result is the amount
    returned, the new state and the record handed to [onUpdateUser]. *)
Definition handleProcessRewards (clk : App.Clock) (r rp re : Q) (st : State)
    : Z * State * App.PartialUserData :=
  let today := App.toDateString clk in
  let earned := earnedAmount r st in
  let perfBoost := Js.floor_scaled rp 8 + 2 in
  let eligBoost := Js.floor_scaled re 12 + 5 in
  let newStats :=
    {| App.earnings := App.earnings (stats st) + earned;
       App.performance := Z.min 100 (App.performance (stats st) + perfBoost);
       App.eligibility := Z.min 100 (App.eligibility (stats st) + eligBoost);
       App.surveysCompleted := App.surveysCompleted (stats st) + 1;
       App.dailyCount := Some (currentCount (stats st) + 1);
       App.dailyEarnings := Some (currentDaily (stats st) + earned);
       App.lastSurveyDate := Some today;
       App.dailyLimit := Some (Js.num_or (App.dailyLimit (stats st)) 250) |} in
  let newEntry :=
    {| App.id := App.now clk;
       App.date := App.toLocaleDateString clk;
       App.amount := earned;
       App.title :=
         match selectedSurvey st with
         | Some s => title s
         | None => "Premium Survey #" +:+ pretty (App.surveysCompleted newStats)
         end |} in
  let newHistory := newEntry :: earningsHistory st in
  let st := setLastEarned (Some earned) (setEarningsHistory newHistory (setStats newStats st)) in
  (earned, st,
   {| App.p_username := None; App.p_password := None; App.p_mpesaCode := None;
      App.p_profile := None; App.p_stats := Some (Some newStats);
      App.p_earningsHistory := Some (Some newHistory); App.p_settings := None |}).

(** [{ ...stats, dailyLimit: newLimit }] *)
Definition withDailyLimit (newLimit : Z) (s : App.UserStats) : App.UserStats :=
  {| App.earnings := App.earnings s;
     App.performance := App.performance s;
     App.eligibility := App.eligibility s;
     App.surveysCompleted := App.surveysCompleted s;
     App.dailyCount := App.dailyCount s;
     App.lastSurveyDate := App.lastSurveyDate s;
     App.dailyEarnings := App.dailyEarnings s;
     App.dailyLimit := Some newLimit |}.

Definition handleUpgradeLimit (newLimit : Z) (st : State) : State * App.PartialUserData :=
  let newStats := withDailyLimit newLimit (stats st) in
  (setView home (setStats newStats st),
   {| App.p_username := None; App.p_password := None; App.p_mpesaCode := None;
      App.p_profile := None; App.p_stats := Some (Some newStats);
      App.p_earningsHistory := None; App.p_settings := None |}).

(** [LimitUpgradeView]: the tiers offered are those above the current limit,
    and [handleUpgradeSubmit] calls [onUpgrade] with the tier selected among
    them. *)
Definition upgradeOptions (currentLimit : Z) : list Z :=
  List.filter (fun limit => currentLimit <? limit) [800; 1000].

(** The stats every handler of the dashboard leaves behind: a non-zero limit
    and the day's earnings are stored. *)
Definition normalised (s : App.UserStats) : Prop :=
  exists L E : Z,
    App.dailyLimit s = Some L /\ L <> 0 /\ App.dailyEarnings s = Some E.

(** The home view's block state. *)
Definition remainingSurveys (st : State) : Z :=
  Z.max 0 (DAILY_LIMIT (stats st) - currentCount (stats st)).

Definition remainingGlobal (st : State) : Z :=
  Z.max 0 (GLOBAL_DAILY_CAP - count (globalStats st)).

Definition remainingEarnings (st : State) : Z :=
  Z.max 0 (currentDailyCap (stats st) - currentDaily (stats st)).

Definition isGlobalLimitReached (st : State) : bool := remainingGlobal st =? 0.

Definition isUserLimitReached (st : State) : bool := remainingSurveys st =? 0.

Definition isEarningsLimitReached (st : State) : bool := remainingEarnings st <? 10.

Definition isBlocked (st : State) : bool :=
  isGlobalLimitReached st || isUserLimitReached st || isEarningsLimitReached st.

Definition blockReason (st : State) : string :=
  if isGlobalLimitReached st then "Global 100k Limit Reached"
  else if isUserLimitReached st then "Daily Survey Limit Reached"
  else if isEarningsLimitReached st then "Daily Earnings Cap Reached"
  else "".


(** The [onClick] of the start-survey button. *)
Definition handleStartClick (st : State) : State :=
  if isEarningsLimitReached st && (currentDailyCap (stats st) <? 1000)
  then setView upgrade_limit st
  else if isBlocked st then st
  else setView survey_list st.

End Dashboard.

(** ** The registration screen as App.tsx mounts it: [RegisterForm] receives
       [registeredUsers] and calls back [handleRegisterSuccess] *)
Module Site.

Record State := {
  app : App.State;
  form : RegisterForm.State
}.

(** Opening the registration screen mounts a fresh form. *)
Definition openRegister (a : App.State) : State :=
  {| app := App.setCurrentView App.register a; form := RegisterForm.initial |}.

Definition fill (data : RegisterForm.FormData) (s : State) : State :=
  {| app := app s; form := RegisterForm.setFormData data (form s) |}.

Definition submitDetails (otpCode : string) (message : option string) (s : State) : State :=
  {| app := app s;
     form :=
       RegisterForm.handleDetailsSubmit (App.registeredUsers (app s))
         otpCode message (form s) |}.

Fixpoint typeDigits (index : nat) (digits : list string) (f : RegisterForm.State)
    : RegisterForm.State :=
  match digits with
  | [] => f
  | d :: ds => typeDigits (S index) ds (RegisterForm.handleOtpChange index d f)
  end.

(** The five digit boxes are only shown on the passcode step. *)
Definition typeOtp (digits : list string) (s : State) : State :=
  match RegisterForm.step (form s) with
  | RegisterForm.StepOtp => {| app := app s; form := typeDigits 0 digits (form s) |}
  | _ => s
  end.

Definition submitOtp (s : State) : State :=
  match RegisterForm.step (form s) with
  | RegisterForm.StepOtp => {| app := app s; form := RegisterForm.handleOtpSubmit (form s) |}
  | _ => s
  end.

(** The confirmation button exists on the confirmation step only. *)
Definition confirm (clk : App.Clock) (s : State) : State :=
  match RegisterForm.step (form s) with
  | RegisterForm.StepConfirmation =>
      {| app := App.handleRegisterSuccess clk (RegisterForm.candidate (form s)) (app s);
         form := form s |}
  | _ => s
  end.

(** One registration attempt, from opening the screen to the confirmation
    button: the visitor types [data], submits, types [digits], submits and
    confirms; each step after a rejected one finds nothing to act on. *)
Definition attempt (clk : App.Clock) (data : RegisterForm.FormData)
    (otpCode : string) (message : option string) (digits : list string)
    (a : App.State) : State :=
  confirm clk
    (submitOtp
       (typeOtp digits
          (submitDetails otpCode message (fill data (openRegister a))))).

End Site.

(** ** Concrete records used by the examples below *)
Module Sample.

Definition today : string := "Mon Nov 02 2026".
Definition yesterday : string := "Sun Nov 01 2026".

Definition clock : App.Clock :=
  {| App.toDateString := today; App.now := 1793620800000;
     App.toLocaleDateString := "2 Nov, 10:00" |}.

Definition mkStats (perf cnt earned limit : Z) (day : string) : App.UserStats :=
  {| App.earnings := 1200; App.performance := perf; App.eligibility := 40;
     App.surveysCompleted := 12; App.dailyCount := Some cnt;
     App.lastSurveyDate := Some day; App.dailyEarnings := Some earned;
     App.dailyLimit := Some limit |}.

(** A record written before [dailyLimit] existed, last used yesterday. *)
Definition legacyStats : App.UserStats :=
  {| App.earnings := 1200; App.performance := 80; App.eligibility := 55;
     App.surveysCompleted := 12; App.dailyCount := Some 3;
     App.lastSurveyDate := Some yesterday; App.dailyEarnings := Some 180;
     App.dailyLimit := None |}.

(** The same record with a stored limit of zero. *)
Definition zeroLimitStats : App.UserStats :=
  {| App.earnings := 1200; App.performance := 80; App.eligibility := 55;
     App.surveysCompleted := 12; App.dailyCount := Some 3;
     App.lastSurveyDate := Some yesterday; App.dailyEarnings := Some 180;
     App.dailyLimit := Some 0 |}.

Definition mkUser (name : string) (s : option App.UserStats) : App.UserData :=
  {| App.username := name; App.password := Some "Passw0rdX";
     App.mpesaCode := Some "QK54ABCDE1"; App.profile := None;
     App.stats := s; App.earningsHistory := Some [];
     App.settings := Some App.defaultSettings |}.

Definition techTrends : Dashboard.SurveyOption :=
  {| Dashboard.id := "tech-trends"; Dashboard.title := "Digital Trends 2025";
     Dashboard.category := "Technology"; Dashboard.timeMinutes := 5;
     Dashboard.reward := 75;
     Dashboard.description :=
       "Share your thoughts on AI, smart devices, and the future of tech." |}.

Definition board (globalCount : Z) (s : App.UserStats) : Dashboard.State :=
  {| Dashboard.view := Dashboard.home;
     Dashboard.globalStats := {| Dashboard.date := today; Dashboard.count := globalCount |};
     Dashboard.stats := s;
     Dashboard.earningsHistory := [];
     Dashboard.isSurveying := false;
     Dashboard.lastEarned := None;
     Dashboard.activeQuestions := [];
     Dashboard.selectedSurvey := Some techTrends |}.

Definition emptyApp : App.State :=
  {| App.registeredUsers := []; App.currentUser := None;
     App.referralCode := None; App.currentView := App.login |}.

(** A visitor who types a leading space before the name. *)
Definition paddedBob : RegisterForm.FormData :=
  {| RegisterForm.username := " bob"; RegisterForm.password := "Passw0rdX";
     RegisterForm.mpesaCode := "QK54ABCDE1" |}.

Definition digits : list string := ["4"; "8"; "2"; "1"; "3"].

(** The registration form after the details were accepted, the provider
    answered "48213" and the visitor typed those digits. *)
Definition awaitingOtp : RegisterForm.State :=
  Site.form
    (Site.typeOtp digits
       (Site.submitDetails "48213" None (Site.fill paddedBob (Site.openRegister emptyApp)))).

(** The login form after "alice" passed the password check, the provider
    answered "48213" and she typed those digits. *)
Definition loginEvents : list LoginForm.Event :=
  [ LoginForm.Agree true;
    LoginForm.Change "username" "alice";
    LoginForm.Change "password" "Passw0rdX";
    LoginForm.SubmitCredentials "48213" None;
    LoginForm.TypeOtp 0 "4"; LoginForm.TypeOtp 1 "8"; LoginForm.TypeOtp 2 "2";
    LoginForm.TypeOtp 3 "1"; LoginForm.TypeOtp 4 "3" ].

Definition loginUsers : list App.UserData := [mkUser "alice" None].

End Sample.

(** ** Dashboard.tsx, HistoryView: the total shown above the history list *)
Module HistoryView.

(** [history.reduce((sum, item) => sum + item.amount, 0)] *)
Definition totalEarned (history : list App.EarningEntry) : Z :=
  fold_left (fun sum item => sum + App.amount item) history 0.

(** A record whose cumulative earnings are the sum of its history; a record
    without stats counts as having earned nothing, one without history as
    having an empty one (the defaults every reader applies). *)
Definition balanced (u : App.UserData) : Prop :=
  match App.stats u with
  | Some s => App.earnings s
  | None => 0
  end = totalEarned (Js.obj_or (App.earningsHistory u) []).

End HistoryView.

(** ** Dashboard.tsx, LimitUpgradeView: choosing and paying for a tier *)
Module LimitUpgradeView.

Record Tier := {
  limit : Z;
  cost : Z;
  label : string
}.

Definition tiers : list Tier :=
  [ {| limit := 800; cost := 100; label := "Plus Tier" |};
    {| limit := 1000; cost := 200; label := "Pro Tier" |} ].

(** [[...].filter(opt => opt.limit > currentLimit)] *)
Definition options (currentLimit : Z) : list Tier :=
  List.filter (fun opt => currentLimit <? limit opt) tiers.

Record State := {
  selectedTier : option Z;
  mpesaCode : string;
  isProcessing : bool
}.

Definition initial : State :=
  {| selectedTier := None; mpesaCode := ""; isProcessing := false |}.

(** [options.find(o => o.limit === selectedTier)] *)
Definition selectedOption (currentLimit : Z) (st : State) : option Tier :=
  match selectedTier st with
  | Some t => List.find (fun o => limit o =? t) (options currentLimit)
  | None => None
  end.

Definition isValidMpesa (st : State) : bool := Js.is_alnum10 (mpesaCode st).

(** The tier buttons: one per offered option. *)
Definition handleSelect (currentLimit : Z) (t : Z) (st : State) : State :=
  if existsb (fun o => limit o =? t) (options currentLimit)
  then {| selectedTier := Some t; mpesaCode := mpesaCode st; isProcessing := isProcessing st |}
  else st.

Definition setMpesaCode (v : string) (st : State) : State :=
  {| selectedTier := selectedTier st; mpesaCode := v; isProcessing := isProcessing st |}.

(** [handleUpgradeSubmit] together with its two-second timer: the state once
    the timer has fired and the call [onUpgrade(selectedTier)] it makes. *)
Definition handleUpgradeSubmit (st : State) : State * option Z :=
  match selectedTier st with
  | Some t =>
      if t =? 0 then (st, None)
      else
        ({| selectedTier := selectedTier st; mpesaCode := mpesaCode st;
            isProcessing := false |}, Some t)
  | None => (st, None)
  end.

(** The payment form is rendered only for a selected offered tier, and its
    submit button is disabled while processing or while the code is not ten
    alphanumeric characters. *)
Definition submit (currentLimit : Z) (st : State) : State * option Z :=
  match selectedOption currentLimit st with
  | Some _ =>
      if isProcessing st || negb (isValidMpesa st) then (st, None)
      else handleUpgradeSubmit st
  | None => (st, None)
  end.

End LimitUpgradeView.

(** ** Dashboard.tsx, ActiveSurveyView: one question at a time, with a
       45-second countdown per question *)
Module ActiveSurveyView.

Record State := {
  currentIndex : nat;
  answers : gmap Z string;
  isSubmitting : bool;
  earnedAmount : option Z;
  timeLeft : Z;
  isPaused : bool
}.

Definition initial : State :=
  {| currentIndex := 0; answers := ∅; isSubmitting := false;
     earnedAmount := None; timeLeft := 45; isPaused := false |}.

Definition setCurrentIndex (v : nat) (st : State) : State :=
  {| currentIndex := v; answers := answers st; isSubmitting := isSubmitting st;
     earnedAmount := earnedAmount st; timeLeft := timeLeft st; isPaused := isPaused st |}.

Definition setAnswers (v : gmap Z string) (st : State) : State :=
  {| currentIndex := currentIndex st; answers := v; isSubmitting := isSubmitting st;
     earnedAmount := earnedAmount st; timeLeft := timeLeft st; isPaused := isPaused st |}.

Definition setIsSubmitting (v : bool) (st : State) : State :=
  {| currentIndex := currentIndex st; answers := answers st; isSubmitting := v;
     earnedAmount := earnedAmount st; timeLeft := timeLeft st; isPaused := isPaused st |}.

Definition setEarnedAmount (v : option Z) (st : State) : State :=
  {| currentIndex := currentIndex st; answers := answers st; isSubmitting := isSubmitting st;
     earnedAmount := v; timeLeft := timeLeft st; isPaused := isPaused st |}.

Definition setTimeLeft (v : Z) (st : State) : State :=
  {| currentIndex := currentIndex st; answers := answers st; isSubmitting := isSubmitting st;
     earnedAmount := earnedAmount st; timeLeft := v; isPaused := isPaused st |}.

Definition setIsPaused (v : bool) (st : State) : State :=
  {| currentIndex := currentIndex st; answers := answers st; isSubmitting := isSubmitting st;
     earnedAmount := earnedAmount st; timeLeft := timeLeft st; isPaused := v |}.

(** [questions[currentIndex]]; the component reads [question.id] while it
    renders, so it only lives while the index is inside the list. *)
Definition question (questions : list Dashboard.SurveyQuestion) (st : State)
    : option Dashboard.SurveyQuestion :=
  questions !! currentIndex st.

(** [!!answers[question.id]]: an answer is recorded and is not the empty
    string. *)
Definition hasAnswered (questions : list Dashboard.SurveyQuestion) (st : State) : bool :=
  match question questions st with
  | Some q =>
      match answers st !! Dashboard.q_id q with
      | Some a => Js.truthy a
      | None => false
      end
  | None => false
  end.

(** [earnedAmount !== null]: the reward screen is shown. *)
Definition finished (st : State) : bool :=
  match earnedAmount st with
  | Some _ => true
  | None => false
  end.

(** The countdown is stopped while submitting, once the reward is shown, and
    while paused. *)
Definition stopped (st : State) : bool :=
  isSubmitting st || finished st || isPaused st.

(** The body of the countdown effect, run after every change of its
    dependencies: at zero it pauses, otherwise it arms the one-second
    interval. *)
Definition timerEffect (st : State) : State :=
  if stopped st then st
  else if timeLeft st =? 0 then setIsPaused true st
  else st.

(** One firing of the armed interval, [setTimeLeft(prev => prev - 1)],
    followed by the effect it triggers; nothing is armed while the countdown
    is stopped or at zero. *)
Definition tick (st : State) : State :=
  if stopped st || (timeLeft st =? 0) then st
  else timerEffect (setTimeLeft (timeLeft st - 1) st).

Definition handleResume (st : State) : State :=
  setIsPaused false (setTimeLeft 45 st).

(** [setAnswers(prev => ({ ...prev, [question.id]: option }))] *)
Definition handleOptionSelect (questions : list Dashboard.SurveyQuestion)
    (option : string) (st : State) : State :=
  match question questions st with
  | Some q => setAnswers (<[Dashboard.q_id q := option]> (answers st)) st
  | None => st
  end.

Definition handleSubmit (st : State) : State := setIsSubmitting true st.

(** [handleNext]; moving to the next question triggers the effect that
    restarts the countdown. *)
Definition handleNext (questions : list Dashboard.SurveyQuestion) (st : State) : State :=
  if Z.of_nat (currentIndex st) <? Z.of_nat (length questions) - 1 then
    setIsPaused false (setTimeLeft 45 (setCurrentIndex (S (currentIndex st)) st))
  else handleSubmit st.

(** The timer of [handleSubmit] firing: [amount] is what [onReward()]
    returned. *)
Definition submitted (amount : Z) (st : State) : State :=
  setIsSubmitting false (setEarnedAmount (Some amount) st).

(** What can happen to the view, each guarded by what the view renders: the
    question, its option buttons and the next button (disabled until the
    question has an answer) are shown while neither submitting nor done; the
    resume button while paused. *)
Inductive Event :=
| Tick
| Resume
| Choose (option : string)
| Next
| Submitted (amount : Z).

Definition answering (st : State) : bool :=
  negb (isSubmitting st) && negb (finished st).

Definition handle (questions : list Dashboard.SurveyQuestion) (e : Event) (st : State) : State :=
  match e with
  | Tick => tick st
  | Resume =>
      if isPaused st && negb (finished st) then handleResume st else st
  | Choose option =>
      if answering st
         && match question questions st with
            | Some q => existsb (String.eqb option) (Dashboard.q_options q)
            | None => false
            end
      then handleOptionSelect questions option st else st
  | Next =>
      if answering st && hasAnswered questions st then handleNext questions st else st
  | Submitted amount =>
      if isSubmitting st then submitted amount st else st
  end.

Definition run (questions : list Dashboard.SurveyQuestion) (es : list Event) (st : State)
    : State :=
  fold_left (fun s e => handle questions e s) es st.

(** Question [i] has a recorded, non-empty answer. *)
Definition answered (questions : list Dashboard.SurveyQuestion) (st : State) (i : nat) : Prop :=
  exists q a,
    questions !! i = Some q /\ answers st !! Dashboard.q_id q = Some a /\ a <> "".

(** What the view keeps true from its mount on: the index names a question,
    the countdown is within its 45 seconds and the pause overlay is up
    exactly at zero, every question passed has an answer, and once the
    answers are being submitted (or the reward is shown) all of them have. *)
Definition invariant (questions : list Dashboard.SurveyQuestion) (st : State) : Prop :=
  (currentIndex st < length questions)%nat
  /\ 0 <= timeLeft st <= 45
  /\ (isPaused st = true <-> timeLeft st = 0)
  /\ (forall i, (i < currentIndex st)%nat -> answered questions st i)
  /\ (isSubmitting st = true \/ finished st = true ->
      forall i, (i < length questions)%nat -> answered questions st i).

End ActiveSurveyView.

(** ** SettingsView.tsx: notification toggles, language, password change *)
Module SettingsView.

Record State := {
  notifications : App.Notifications;
  language : string
}.

(** [currentUser.settings?.notifications || {...}] and
    [currentUser.settings?.language || 'en'] *)
Definition initial (currentUser : App.UserData) : State :=
  {| notifications :=
       match App.settings currentUser with
       | Some s => App.notifications s
       | None => {| App.email := true; App.sms := true; App.marketing := false |}
       end;
     language :=
       match App.settings currentUser with
       | Some s => if Js.truthy (App.language s) then App.language s else "en"
       | None => "en"
       end |}.

Inductive Key := email | sms | marketing.

(** [{ ...notifications, [key]: value }] *)
Definition withKey (key : Key) (value : bool) (n : App.Notifications) : App.Notifications :=
  match key with
  | email => {| App.email := value; App.sms := App.sms n; App.marketing := App.marketing n |}
  | sms => {| App.email := App.email n; App.sms := value; App.marketing := App.marketing n |}
  | marketing => {| App.email := App.email n; App.sms := App.sms n; App.marketing := value |}
  end.

(** The record [updateSettings] hands to [onUpdateUser]. *)
Definition updateSettings (newNotifs : App.Notifications) (newLang : string)
    : App.PartialUserData :=
  {| App.p_username := None; App.p_password := None; App.p_mpesaCode := None;
     App.p_profile := None; App.p_stats := None; App.p_earningsHistory := None;
     App.p_settings :=
       Some (Some {| App.notifications := newNotifs; App.language := newLang |}) |}.

Definition handleNotificationChange (key : Key) (value : bool) (st : State)
    : State * App.PartialUserData :=
  let newNotifs := withKey key value (notifications st) in
  ({| notifications := newNotifs; language := language st |},
   updateSettings newNotifs (language st)).

Definition handleLanguageChange (newLang : string) (st : State)
    : State * App.PartialUserData :=
  ({| notifications := notifications st; language := newLang |},
   updateSettings (notifications st) newLang).

End SettingsView.

Module ChangePasswordView.

Record FormData := {
  currentPassword : string;
  newPassword : string;
  confirmPassword : string
}.

Record State := {
  formData : FormData;
  error : string;
  success : bool
}.

Definition fail (msg : string) (st : State) : State * option App.PartialUserData :=
  ({| formData := formData st; error := msg; success := success st |}, None).

(** [handleSubmit]; the second component is the record handed to
    [onUpdateUser], when the call is made. *)
Definition handleSubmit (currentUser : App.UserData) (st : State)
    : State * option App.PartialUserData :=
  let st := {| formData := formData st; error := ""; success := success st |} in
  let fd := formData st in
  if Js.differs (App.password currentUser) (currentPassword fd) then
    fail "Current password is incorrect." st
  else
    match RegisterForm.validatePassword (newPassword fd) with
    | Some pwdError => fail pwdError st
    | None =>
        if negb (String.eqb (newPassword fd) (confirmPassword fd)) then
          fail "New passwords do not match." st
        else if String.eqb (newPassword fd) (currentPassword fd) then
          fail "New password cannot be the same as the old one." st
        else
          ({| formData := fd; error := error st; success := true |},
           Some {| App.p_username := None; App.p_password := Some (Some (newPassword fd));
                   App.p_mpesaCode := None; App.p_profile := None; App.p_stats := None;
                   App.p_earningsHistory := None; App.p_settings := None |})
    end.

End ChangePasswordView.

(** ** The dashboard driven by a sequence of its handlers *)
(** Each handler is applied to the state the previous one left, as when every
    call is made from the closures of the latest render. *)
Module DashboardRun.

Inductive Event :=
| Select (upgrade : bool) (survey : Dashboard.SurveyOption)
| Finish (generated : option (list Dashboard.SurveyQuestion))
| Reward (clk : App.Clock) (r rp re : Q)
| Upgrade (newLimit : Z)
| StartClick
| Go (v : Dashboard.ViewState).

Definition handle (e : Event) (st : Dashboard.State) : Dashboard.State :=
  match e with
  | Select upgrade survey => snd (Dashboard.handleSurveySelect upgrade survey st)
  | Finish generated => Dashboard.finishSurveySelect generated st
  | Reward clk r rp re => snd (fst (Dashboard.handleProcessRewards clk r rp re st))
  | Upgrade newLimit => fst (Dashboard.handleUpgradeLimit newLimit st)
  | StartClick => Dashboard.handleStartClick st
  | Go v => Dashboard.setView v st
  end.

Definition run (es : list Event) (st : Dashboard.State) : Dashboard.State :=
  fold_left (fun s e => handle e s) es st.

End DashboardRun.

(** ** The stats an account can come to hold *)
Module Lifetime.



End Lifetime.

(** ** The login form as it is rendered: each control exists on one step *)
Module LoginScreen.

(** The credentials form is shown on the credentials step; the five digit
    boxes, resend and cancel on the two passcode steps, whose form submits to
    [handleOtpSubmit] or to [handleForgotVerifySubmit] according to the step;
    the username box of the reset request on its step; the two password
    boxes on the last step. *)
Definition enabled (s : LoginForm.Step) (e : LoginForm.Event) : bool :=
  match e, s with
  | LoginForm.Change _ _, LoginForm.StepCredentials => true
  | LoginForm.Agree _, LoginForm.StepCredentials => true
  | LoginForm.SubmitCredentials _ _, LoginForm.StepCredentials => true
  | LoginForm.ForgotClick, LoginForm.StepCredentials => true
  | LoginForm.TypeOtp _ _, (LoginForm.StepOtp | LoginForm.StepForgotVerify) => true
  | LoginForm.Resend _ _, (LoginForm.StepOtp | LoginForm.StepForgotVerify) => true
  | LoginForm.Cancel, (LoginForm.StepOtp | LoginForm.StepForgotVerify) => true
  | LoginForm.SubmitOtp, LoginForm.StepOtp => true
  | LoginForm.SubmitForgotVerify, LoginForm.StepForgotVerify => true
  | LoginForm.TypeForgotUsername _, LoginForm.StepForgotRequest => true
  | LoginForm.SubmitForgotRequest _ _, LoginForm.StepForgotRequest => true
  | LoginForm.BackToLogin, LoginForm.StepForgotRequest => true
  | LoginForm.TypeNewPassword _, LoginForm.StepForgotReset => true
  | LoginForm.TypeConfirmPassword _, LoginForm.StepForgotReset => true
  | LoginForm.SubmitPasswordReset, LoginForm.StepForgotReset => true
  | _, _ => false
  end.

Definition handle (registeredUsers : list App.UserData) (e : LoginForm.Event)
    (st : LoginForm.State) : LoginForm.State :=
  if enabled (LoginForm.step st) e then LoginForm.handle registeredUsers e st else st.

(** The calls the form makes to its parent while handling an event. *)
Definition loginCall (e : LoginForm.Event) (st : LoginForm.State) : option App.UserData :=
  match e with
  | LoginForm.SubmitOtp =>
      if enabled (LoginForm.step st) e then snd (LoginForm.handleOtpSubmit st) else None
  | _ => None
  end.

Definition resetCall (e : LoginForm.Event) (st : LoginForm.State) : option (string * string) :=
  match e with
  | LoginForm.SubmitPasswordReset =>
      if enabled (LoginForm.step st) e then snd (LoginForm.handlePasswordResetSubmit st)
      else None
  | _ => None
  end.

(** The visitor types [digits] into the boxes, one per box, from box
    [index] on. *)
Fixpoint typeDigits (registeredUsers : list App.UserData) (index : nat)
    (digits : list string) (st : LoginForm.State) : LoginForm.State :=
  match digits with
  | [] => st
  | d :: ds =>
      typeDigits registeredUsers (S index) ds
        (handle registeredUsers (LoginForm.TypeOtp index d) st)
  end.

End LoginScreen.

(** ** RegisterForm.tsx and LoginForm.tsx, [generateOtpWithAi]: the code
       comes from the provider when its answer holds five digits, and from
       [Math.random()] otherwise *)
Module OtpProvider.

(** [s.replace(/\D/g, '')] *)
Fixpoint digitsOnly (s : string) : string :=
  match s with
  | EmptyString => EmptyString
  | String c r => if Js.is_digit c then String c (digitsOnly r) else digitsOnly r
  end.

(** [Math.floor(10000 + Math.random() * 90000).toString()] *)
Definition fallback (r : Q) : string :=
  pretty (Qfloor (inject_Z 10000 + r * inject_Z 90000)).

(** [generateOtpWithAi]; [response] is [None] when the call threw or lost
    the race against the timeout, and [Some None] when the response carries
    no text; [r] is the draw of [Math.random()] the fallback makes. *)
Definition generateOtpWithAi (response : option (option string)) (r : Q) : string :=
  match response with
  | Some (Some t) =>
      let text := String.substring 0 5 (digitsOnly (Js.trim t)) in
      if Js.truthy text && (Js.length text =? 5) then text else fallback r
  | _ => fallback r
  end.

(** A code typed into the boxes, one character per box. *)
Fixpoint boxes (code : string) : list string :=
  match code with
  | EmptyString => []
  | String c r => String c EmptyString :: boxes r
  end.

(** The [disabled] attribute of the verify button of the registration form. *)
Definition verifyDisabled (st : RegisterForm.State) : bool :=
  negb (Js.length (Js.join (RegisterForm.otp st)) =? 5) || RegisterForm.isLoading st.

End OtpProvider.

(** ** The string functions the handlers take from the engine *)
Module Engine.

(** [String.prototype.toLowerCase], [String.prototype.trim] and [.length]
    belong to the engine, not to the application: the handlers below take
    them as given, and what is proved of them holds whatever these three
    functions are. *)
Record t := {
  toLowerCase : string -> string;
  trim : string -> string;
  length : string -> Z
}.

(** The three functions on ASCII strings. *)
Definition ascii : t :=
  {| toLowerCase := Js.toLowerCase; trim := Js.trim; length := Js.length |}.

End Engine.

(** ** LoginForm.tsx, await by await: the asynchronous handlers are split at
       their awaits, and whatever the form still accepts can happen in
       between *)
Module LoginFlow.

(** What an asynchronous handler still has to do once the call it awaits
    resolves, with the values its closure holds. *)
Inductive Task :=
| CredentialsOtp (user : App.UserData)
| CredentialsMessage (user : App.UserData) (otpCode : string)
| ForgotOtp (user : App.UserData)
| ForgotMessage (user : App.UserData) (otpCode : string)
| ResendOtp (username : string)
| ResendMessage (username : string) (otpCode : string).

Record State := {
  form : LoginForm.State;
  tasks : list Task
}.

Definition initial : State := {| form := LoginForm.initial; tasks := [] |}.

(** [registeredUsers.find(u => u.username.toLowerCase() === name.toLowerCase())] *)
Definition findUser (E : Engine.t) (registeredUsers : list App.UserData) (name : string)
    : option App.UserData :=
  List.find
    (fun u => String.eqb (Engine.toLowerCase E (App.username u)) (Engine.toLowerCase E name))
    registeredUsers.

Definition validatePassword (E : Engine.t) (pwd : string) : option string :=
  if Engine.length E pwd <? 8 then Some "Password must be at least 8 characters."
  else if Js.includes_char "_" pwd then Some "Password cannot contain underscores."
  else if negb (Js.some_char Js.is_upper pwd)
    then Some "Password must contain an uppercase letter."
  else if negb (Js.some_char Js.is_lower pwd)
    then Some "Password must contain a lowercase letter."
  else None.

(** [handleCredentialsSubmit] up to its first await. *)
Definition credentialsStart (E : Engine.t) (registeredUsers : list App.UserData)
    (st : State) : State :=
  if negb (LoginForm.agreed (form st)) then st
  else
    let f :=
      LoginForm.setNotification None
        (LoginForm.setError "" (LoginForm.setIsLoading true (form st))) in
    match findUser E registeredUsers (LoginForm.username (LoginForm.formData f)) with
    | None =>
        {| form :=
             LoginForm.setError "Account not found. Please register first."
               (LoginForm.setIsLoading false f);
           tasks := tasks st |}
    | Some user =>
        if Js.differs (App.password user) (LoginForm.password (LoginForm.formData f)) then
          {| form := LoginForm.setError "Invalid password." (LoginForm.setIsLoading false f);
             tasks := tasks st |}
        else
          {| form := LoginForm.setMatchedUser (Some user) f;
             tasks := tasks st ++ [CredentialsOtp user] |}
    end.

(** [handleForgotRequestSubmit] up to its first await. *)
Definition forgotStart (E : Engine.t) (registeredUsers : list App.UserData)
    (st : State) : State :=
  let f :=
    LoginForm.setNotification None
      (LoginForm.setError "" (LoginForm.setIsLoading true (form st))) in
  match findUser E registeredUsers (LoginForm.forgotUsername f) with
  | None =>
      {| form := LoginForm.setError "Account not found." (LoginForm.setIsLoading false f);
         tasks := tasks st |}
  | Some user =>
      {| form := LoginForm.setMatchedUser (Some user) f;
         tasks := tasks st ++ [ForgotOtp user] |}
  end.

(** [handleResendOtp] up to its first await; its closure holds the name typed. *)
Definition resendStart (st : State) : State :=
  {| form := LoginForm.setIsLoading true (form st);
     tasks :=
       tasks st ++ [ResendOtp (LoginForm.username (LoginForm.formData (form st)))] |}.

(** [await generateOtpWithAi()] resolves with [code]: the handler stores it
    and goes on to await the message. *)
Definition otpResolved (code : string) (t : Task) (f : LoginForm.State)
    : LoginForm.State * option Task :=
  match t with
  | CredentialsOtp user =>
      (LoginForm.setGeneratedOtp code f, Some (CredentialsMessage user code))
  | ForgotOtp user => (LoginForm.setGeneratedOtp code f, Some (ForgotMessage user code))
  | ResendOtp name => (LoginForm.setGeneratedOtp code f, Some (ResendMessage name code))
  | _ => (f, Some t)
  end.

(** [await generateMessageContent(..)] resolves with [message]: the handler
    runs to its end. *)
Definition messageResolved (message : option string) (t : Task) (f : LoginForm.State)
    : LoginForm.State * option Task :=
  match t with
  | CredentialsMessage user otpCode =>
      let channelName :=
        if Js.includes_char "@" (App.username user) then "Email" else "Message" in
      let f :=
        LoginForm.showOtpNotification channelName
          (LoginForm.messageOr message ("Your verification code is " +:+ otpCode))
          otpCode f in
      (LoginForm.setStep LoginForm.StepOtp (LoginForm.setIsLoading false f), None)
  | ForgotMessage user otpCode =>
      let channel := if Js.includes_char "@" (App.username user) then "Email" else "SMS" in
      let f :=
        LoginForm.showOtpNotification channel
          (LoginForm.messageOr message ("Reset code: " +:+ otpCode)) otpCode f in
      (LoginForm.setOtp LoginForm.emptyOtp
         (LoginForm.setStep LoginForm.StepForgotVerify (LoginForm.setIsLoading false f)),
       None)
  | ResendMessage name otpCode =>
      let channelName := if Js.includes_char "@" name then "Email" else "Message" in
      let f :=
        LoginForm.showOtpNotification channelName
          (LoginForm.messageOr message ("Your verification code is " +:+ otpCode))
          otpCode f in
      (LoginForm.setIsLoading false f, None)
  | _ => (f, Some t)
  end.

(** The [i]-th pending handler goes on. *)
Definition resume (step : Task -> LoginForm.State -> LoginForm.State * option Task)
    (i : nat) (st : State) : State :=
  match tasks st !! i with
  | Some t =>
      match step t (form st) with
      | (f, Some t') => {| form := f; tasks := <[i := t']> (tasks st) |}
      | (f, None) => {| form := f; tasks := delete i (tasks st) |}
      end
  | None => st
  end.

(** [handlePasswordResetSubmit]; the second component is the call of
    [onPasswordReset(forgotUsername, newPassword)], when it is made. *)
Definition handlePasswordResetSubmit (E : Engine.t) (f : LoginForm.State)
    : LoginForm.State * option (string * string) :=
  let f := LoginForm.setError "" f in
  match validatePassword E (LoginForm.newPassword f) with
  | Some pwdError => (LoginForm.setError pwdError f, None)
  | None =>
      if negb (String.eqb (LoginForm.newPassword f) (LoginForm.confirmPassword f)) then
        (LoginForm.setError "Passwords do not match." f, None)
      else
        let call := (LoginForm.forgotUsername f, LoginForm.newPassword f) in
        let f := LoginForm.setStep LoginForm.StepCredentials f in
        let f :=
          LoginForm.setFormData
            {| LoginForm.username := LoginForm.forgotUsername f;
               LoginForm.password := "" |} f in
        (LoginForm.setOtp LoginForm.emptyOtp
           (LoginForm.setConfirmPassword ""
              (LoginForm.setNewPassword "" (LoginForm.setForgotUsername "" f))),
         Some call)
  end.

(** What can happen to the form: what the user does with the controls of the
    step shown, and the two provider calls of a pending handler resolving. *)
Inductive Event :=
| Change (name value : string)
| Agree (checked : bool)
| ForgotClick
| SubmitCredentials (registeredUsers : list App.UserData)
| TypeOtp (index : nat) (value : string)
| DismissNotification
| SubmitOtp
| SubmitForgotVerify
| Resend
| Cancel
| TypeForgotUsername (value : string)
| SubmitForgotRequest (registeredUsers : list App.UserData)
| BackToLogin
| TypeNewPassword (value : string)
| TypeConfirmPassword (value : string)
| SubmitPasswordReset
| OtpAnswer (i : nat) (code : string)
| MessageAnswer (i : nat) (message : option string).

(** [otp.join('').length !== 5 || isLoading], negated. *)
Definition verifyEnabled (E : Engine.t) (f : LoginForm.State) : bool :=
  (Engine.length E (LoginForm.enteredOtp f) =? 5) && negb (LoginForm.isLoading f).

(** The controls each step renders and the [disabled] attribute of its
    buttons; a pending call can resolve at any time. *)
Definition enabled (E : Engine.t) (f : LoginForm.State) (e : Event) : bool :=
  match e, LoginForm.step f with
  | (Change _ _ | Agree _ | ForgotClick), LoginForm.StepCredentials => true
  | SubmitCredentials _, LoginForm.StepCredentials =>
      negb (LoginForm.isLoading f || negb (LoginForm.agreed f))
  | (TypeOtp _ _ | DismissNotification | Cancel),
    (LoginForm.StepOtp | LoginForm.StepForgotVerify) => true
  | Resend, (LoginForm.StepOtp | LoginForm.StepForgotVerify) => negb (LoginForm.isLoading f)
  | SubmitOtp, LoginForm.StepOtp => verifyEnabled E f
  | SubmitForgotVerify, LoginForm.StepForgotVerify => verifyEnabled E f
  | (TypeForgotUsername _ | BackToLogin), LoginForm.StepForgotRequest => true
  | SubmitForgotRequest _, LoginForm.StepForgotRequest =>
      negb (LoginForm.isLoading f || negb (Js.truthy (LoginForm.forgotUsername f)))
  | (TypeNewPassword _ | TypeConfirmPassword _ | SubmitPasswordReset),
    LoginForm.StepForgotReset => true
  | (OtpAnswer _ _ | MessageAnswer _ _), _ => true
  | _, _ => false
  end.

Definition onForm (g : LoginForm.State -> LoginForm.State) (st : State) : State :=
  {| form := g (form st); tasks := tasks st |}.

Definition handle (E : Engine.t) (e : Event) (st : State) : State :=
  if enabled E (form st) e then
    match e with
    | Change name value => onForm (LoginForm.handleChange name value) st
    | Agree checked => onForm (LoginForm.setAgreed checked) st
    | ForgotClick => onForm LoginForm.handleForgotClick st
    | SubmitCredentials registeredUsers => credentialsStart E registeredUsers st
    | TypeOtp index value => onForm (LoginForm.handleOtpChange index value) st
    | DismissNotification => onForm (LoginForm.setNotification None) st
    | SubmitOtp => onForm (fun f => fst (LoginForm.handleOtpSubmit f)) st
    | SubmitForgotVerify => onForm LoginForm.handleForgotVerifySubmit st
    | Resend => resendStart st
    | Cancel => onForm LoginForm.handleCancel st
    | TypeForgotUsername value => onForm (LoginForm.setForgotUsername value) st
    | SubmitForgotRequest registeredUsers => forgotStart E registeredUsers st
    | BackToLogin => onForm LoginForm.handleBackToLogin st
    | TypeNewPassword value => onForm (LoginForm.setNewPassword value) st
    | TypeConfirmPassword value => onForm (LoginForm.setConfirmPassword value) st
    | SubmitPasswordReset => onForm (fun f => fst (handlePasswordResetSubmit E f)) st
    | OtpAnswer i code => resume (otpResolved code) i st
    | MessageAnswer i message => resume (messageResolved message) i st
    end
  else st.

(** The calls the form makes to its parent while handling an event. *)
Definition loginCall (E : Engine.t) (e : Event) (st : State) : option App.UserData :=
  match e with
  | SubmitOtp =>
      if enabled E (form st) e then snd (LoginForm.handleOtpSubmit (form st)) else None
  | _ => None
  end.

Definition resetCall (E : Engine.t) (e : Event) (st : State) : option (string * string) :=
  match e with
  | SubmitPasswordReset =>
      if enabled E (form st) e then snd (handlePasswordResetSubmit E (form st)) else None
  | _ => None
  end.

Definition run (E : Engine.t) (es : list Event) (st : State) : State :=
  fold_left (fun s e => handle E e s) es st.

(** Among the events [es] that led to the form's state there is a submission
    of the credentials form, made with the box ticked, that found [u] under
    the name typed then and found the password typed then to be the one
    stored in [u]. *)
Definition checked (E : Engine.t) (es : list Event) (u : App.UserData) : Prop :=
  exists (es1 es2 : list Event) (registeredUsers : list App.UserData),
    es = es1 ++ SubmitCredentials registeredUsers :: es2
    /\ let f := form (run E es1 initial) in
       LoginForm.step f = LoginForm.StepCredentials
       /\ LoginForm.agreed f = true
       /\ findUser E registeredUsers (LoginForm.username (LoginForm.formData f)) = Some u
       /\ App.password u = Some (LoginForm.password (LoginForm.formData f)).

(** Among the events [es] there is a request for a reset code that found an
    account under the name typed then. *)
Definition requested (E : Engine.t) (es : list Event) : Prop :=
  exists (es1 es2 : list Event) (registeredUsers : list App.UserData) (u : App.UserData),
    es = es1 ++ SubmitForgotRequest registeredUsers :: es2
    /\ let f := form (run E es1 initial) in
       LoginForm.step f = LoginForm.StepForgotRequest
       /\ findUser E registeredUsers (LoginForm.forgotUsername f) = Some u.

(** Among the events [es] there is a submission, on the reset passcode step,
    of digits equal to the code stored then. *)
Definition verified (E : Engine.t) (es : list Event) : Prop :=
  exists es1 es2 : list Event,
    es = es1 ++ SubmitForgotVerify :: es2
    /\ let f := form (run E es1 initial) in
       LoginForm.step f = LoginForm.StepForgotVerify
       /\ LoginForm.enteredOtp f = LoginForm.generatedOtp f.

(** What holds of the state reached by [es]: at most one handler is pending,
    and the form is loading while one is; the record a pending credentials
    handler holds, and the record matched on the passcode step, passed the
    password check; the reset steps are only reached after a request, and the
    last of them after the code was entered. *)
Definition invariant (E : Engine.t) (es : list Event) (st : State) : Prop :=
  (tasks st = [] \/ exists t, tasks st = [t] /\ LoginForm.isLoading (form st) = true)
  /\ (forall u, (tasks st = [CredentialsOtp u]
                 \/ exists c, tasks st = [CredentialsMessage u c]) ->
        LoginForm.matchedUser (form st) = Some u /\ checked E es u)
  /\ (LoginForm.step (form st) = LoginForm.StepOtp ->
      exists u, LoginForm.matchedUser (form st) = Some u /\ checked E es u)
  /\ ((exists u, tasks st = [ForgotOtp u] \/ exists c, tasks st = [ForgotMessage u c]) ->
      requested E es)
  /\ (LoginForm.step (form st) = LoginForm.StepForgotVerify
      \/ LoginForm.step (form st) = LoginForm.StepForgotReset -> requested E es)
  /\ (LoginForm.step (form st) = LoginForm.StepForgotReset -> verified E es).

End LoginFlow.

(** ** RegisterForm.tsx, await by await *)
Module RegisterFlow.

Inductive Task :=
| DetailsOtp (cleanUsername : string)
| DetailsMessage (cleanUsername : string) (otpCode : string)
| ResendOtp (username : string)
| ResendMessage (username : string) (otpCode : string).

Record State := {
  form : RegisterForm.State;
  tasks : list Task
}.

Definition initial : State := {| form := RegisterForm.initial; tasks := [] |}.

(** The three inputs of the details form. *)
Inductive Field := username | password | mpesaCode.

Definition key (name : Field) : string :=
  match name with
  | username => "username"
  | password => "password"
  | mpesaCode => "mpesaCode"
  end.

(** [handleInputChange]: [{ ...prev, [name]: value }], and the field's error,
    when one is shown, is blanked. *)
Definition handleInputChange (name : Field) (value : string) (f : RegisterForm.State)
    : RegisterForm.State :=
  let fd := RegisterForm.formData f in
  let fd :=
    match name with
    | username =>
        {| RegisterForm.username := value;
           RegisterForm.password := RegisterForm.password fd;
           RegisterForm.mpesaCode := RegisterForm.mpesaCode fd |}
    | password =>
        {| RegisterForm.username := RegisterForm.username fd;
           RegisterForm.password := value;
           RegisterForm.mpesaCode := RegisterForm.mpesaCode fd |}
    | mpesaCode =>
        {| RegisterForm.username := RegisterForm.username fd;
           RegisterForm.password := RegisterForm.password fd;
           RegisterForm.mpesaCode := value |}
    end in
  let shown :=
    match RegisterForm.errors f !! key name with
    | Some m => Js.truthy m
    | None => false
    end in
  let f' := RegisterForm.setFormData fd f in
  if shown then RegisterForm.setErrors (<[key name := ""]> (RegisterForm.errors f)) f'
  else f'.

(** [registeredUsers.some(u => u.username.toLowerCase() === cleanUsername.toLowerCase())] *)
Definition exists_ (E : Engine.t) (registeredUsers : list App.UserData)
    (cleanUsername : string) : bool :=
  existsb
    (fun u =>
       String.eqb (Engine.toLowerCase E (App.username u))
         (Engine.toLowerCase E cleanUsername))
    registeredUsers.

Definition validatePassword (E : Engine.t) (pwd : string) : option string :=
  if Engine.length E pwd <? 8 then Some "Password must be at least 8 characters."
  else if Js.includes_char "_" pwd then Some "Password cannot contain underscores."
  else if negb (Js.some_char Js.is_upper pwd)
    then Some "Password must contain an uppercase letter."
  else if negb (Js.some_char Js.is_lower pwd)
    then Some "Password must contain a lowercase letter."
  else None.

(** The three checks of [handleDetailsSubmit] on the data the form holds. *)
Definition passes (E : Engine.t) (registeredUsers : list App.UserData)
    (fd : RegisterForm.FormData) : bool :=
  negb (exists_ E registeredUsers (Engine.trim E (RegisterForm.username fd)))
  && match validatePassword E (RegisterForm.password fd) with
     | Some _ => false
     | None => true
     end
  && Js.truthy (RegisterForm.mpesaCode fd)
  && Js.is_alnum10 (RegisterForm.mpesaCode fd).

(** [handleDetailsSubmit] up to its first await. *)
Definition detailsStart (E : Engine.t) (registeredUsers : list App.UserData)
    (st : State) : State :=
  let f :=
    RegisterForm.setNotification None
      (RegisterForm.setIsLoading true (RegisterForm.setErrors ∅ (form st))) in
  let fd := RegisterForm.formData f in
  let cleanUsername := Engine.trim E (RegisterForm.username fd) in
  let refuse (errors : gmap string string) :=
    {| form := RegisterForm.setIsLoading false (RegisterForm.setErrors errors f);
       tasks := tasks st |} in
  if exists_ E registeredUsers cleanUsername then
    refuse {[ "username" := "Account already exists." ]}
  else
    match validatePassword E (RegisterForm.password fd) with
    | Some pwdError => refuse {[ "password" := pwdError ]}
    | None =>
        if negb (Js.truthy (RegisterForm.mpesaCode fd))
           || negb (Js.is_alnum10 (RegisterForm.mpesaCode fd))
        then
          refuse
            {[ "mpesaCode" :=
               "Transaction code must be exactly 10 alphanumeric characters." ]}
        else {| form := f; tasks := tasks st ++ [DetailsOtp cleanUsername] |}
    end.

(** [handleResendOtp] up to its first await. *)
Definition resendStart (st : State) : State :=
  {| form := RegisterForm.setIsLoading true (form st);
     tasks :=
       tasks st
       ++ [ResendOtp (RegisterForm.username (RegisterForm.formData (form st)))] |}.

Definition otpResolved (code : string) (t : Task) (f : RegisterForm.State)
    : RegisterForm.State * option Task :=
  match t with
  | DetailsOtp name => (RegisterForm.setGeneratedOtp code f, Some (DetailsMessage name code))
  | ResendOtp name => (RegisterForm.setGeneratedOtp code f, Some (ResendMessage name code))
  | _ => (f, Some t)
  end.

Definition messageResolved (message : option string) (t : Task) (f : RegisterForm.State)
    : RegisterForm.State * option Task :=
  match t with
  | DetailsMessage name otpCode =>
      let f :=
        RegisterForm.showOtpNotification (RegisterForm.channelName name)
          (RegisterForm.messageOr message otpCode) otpCode f in
      (RegisterForm.setStep RegisterForm.StepOtp (RegisterForm.setIsLoading false f), None)
  | ResendMessage name otpCode =>
      let f :=
        RegisterForm.showOtpNotification (RegisterForm.channelName name)
          (RegisterForm.messageOr message otpCode) otpCode f in
      (RegisterForm.setIsLoading false f, None)
  | _ => (f, Some t)
  end.

Definition resume (step : Task -> RegisterForm.State -> RegisterForm.State * option Task)
    (i : nat) (st : State) : State :=
  match tasks st !! i with
  | Some t =>
      match step t (form st) with
      | (f, Some t') => {| form := f; tasks := <[i := t']> (tasks st) |}
      | (f, None) => {| form := f; tasks := delete i (tasks st) |}
      end
  | None => st
  end.

Inductive Event :=
| Input (name : Field) (value : string)
| SubmitDetails (registeredUsers : list App.UserData)
| TypeOtp (index : nat) (value : string)
| DismissNotification
| SubmitOtp
| Resend
| ChangeContact
| Confirm
| EditDetails
| OtpAnswer (i : nat) (code : string)
| MessageAnswer (i : nat) (message : option string).

(** The controls each step renders and the [disabled] attribute of its
    buttons. *)
Definition enabled (E : Engine.t) (f : RegisterForm.State) (e : Event) : bool :=
  match e, RegisterForm.step f with
  | Input _ _, RegisterForm.StepDetails => true
  | SubmitDetails _, RegisterForm.StepDetails => negb (RegisterForm.isLoading f)
  | (TypeOtp _ _ | DismissNotification | ChangeContact), RegisterForm.StepOtp => true
  | SubmitOtp, RegisterForm.StepOtp =>
      (Engine.length E (RegisterForm.enteredOtp f) =? 5) && negb (RegisterForm.isLoading f)
  | Resend, RegisterForm.StepOtp => negb (RegisterForm.isLoading f)
  | (Confirm | EditDetails), RegisterForm.StepConfirmation => true
  | (OtpAnswer _ _ | MessageAnswer _ _), _ => true
  | _, _ => false
  end.

Definition onForm (g : RegisterForm.State -> RegisterForm.State) (st : State) : State :=
  {| form := g (form st); tasks := tasks st |}.

Definition handle (E : Engine.t) (e : Event) (st : State) : State :=
  if enabled E (form st) e then
    match e with
    | Input name value => onForm (handleInputChange name value) st
    | SubmitDetails registeredUsers => detailsStart E registeredUsers st
    | TypeOtp index value => onForm (RegisterForm.handleOtpChange index value) st
    | DismissNotification => onForm (RegisterForm.setNotification None) st
    | SubmitOtp => onForm RegisterForm.handleOtpSubmit st
    | Resend => resendStart st
    | ChangeContact =>
        onForm
          (fun f => RegisterForm.setNotification None
                      (RegisterForm.setStep RegisterForm.StepDetails f)) st
    | Confirm => st
    | EditDetails => onForm (RegisterForm.setStep RegisterForm.StepDetails) st
    | OtpAnswer i code => resume (otpResolved code) i st
    | MessageAnswer i message => resume (messageResolved message) i st
    end
  else st.

(** The call [onRegisterSuccess({username, password, mpesaCode})] of the
    confirmation button. *)
Definition registerCall (E : Engine.t) (e : Event) (st : State) : option App.UserData :=
  match e with
  | Confirm =>
      if enabled E (form st) e then Some (RegisterForm.candidate (form st)) else None
  | _ => None
  end.

Definition run (E : Engine.t) (es : list Event) (st : State) : State :=
  fold_left (fun s e => handle E e s) es st.

(** Among the events [es] there is a submission of the details form at which
    what the form held passed the three checks. *)
Definition accepted (E : Engine.t) (es : list Event) : Prop :=
  exists (es1 es2 : list Event) (registeredUsers : list App.UserData),
    es = es1 ++ SubmitDetails registeredUsers :: es2
    /\ let f := form (run E es1 initial) in
       RegisterForm.step f = RegisterForm.StepDetails
       /\ passes E registeredUsers (RegisterForm.formData f) = true.

(** Among the events [es] there is a submission, on the passcode step, of
    digits equal to the code stored then. *)
Definition verified (E : Engine.t) (es : list Event) : Prop :=
  exists es1 es2 : list Event,
    es = es1 ++ SubmitOtp :: es2
    /\ let f := form (run E es1 initial) in
       RegisterForm.step f = RegisterForm.StepOtp
       /\ RegisterForm.enteredOtp f = RegisterForm.generatedOtp f.

Definition invariant (E : Engine.t) (es : list Event) (st : State) : Prop :=
  (tasks st = [] \/ exists t, tasks st = [t] /\ RegisterForm.isLoading (form st) = true)
  /\ ((exists n, tasks st = [DetailsOtp n] \/ exists c, tasks st = [DetailsMessage n c]) ->
      accepted E es)
  /\ (RegisterForm.step (form st) = RegisterForm.StepOtp
      \/ RegisterForm.step (form st) = RegisterForm.StepConfirmation -> accepted E es)
  /\ (RegisterForm.step (form st) = RegisterForm.StepConfirmation -> verified E es).

(** No input of the details form is changed while a handler is pending (the
    loading flag is up). *)
Definition undisturbed (E : Engine.t) (es : list Event) : Prop :=
  forall (es1 es2 : list Event) (name : Field) (value : string),
    es = es1 ++ Input name value :: es2 ->
    RegisterForm.isLoading (form (run E es1 initial)) = false.

(** Among the events [es] there is a submission of the details form against
    whose list of accounts the data [fd] passes the three checks. *)
Definition passedBy (E : Engine.t) (es : list Event) (fd : RegisterForm.FormData) : Prop :=
  exists (es1 es2 : list Event) (registeredUsers : list App.UserData),
    es = es1 ++ SubmitDetails registeredUsers :: es2
    /\ passes E registeredUsers fd = true.

End RegisterFlow.

(** ** More concrete records for the examples *)
Module Demo.

Definition questions : list Dashboard.SurveyQuestion := Dashboard.fallbackQuestions.

Definition alice : App.UserData :=
  Sample.mkUser "alice" (Some (Sample.mkStats 80 3 180 250 Sample.today)).

Definition aliceApp : App.State :=
  {| App.registeredUsers := [alice; Sample.mkUser "bob" None];
     App.currentUser := Some alice;
     App.referralCode := None; App.currentView := App.dashboard |}.

Definition carol : RegisterForm.FormData :=
  {| RegisterForm.username := "carol@mail.com"; RegisterForm.password := "Passw0rdX";
     RegisterForm.mpesaCode := "QK54ABCDE1" |}.

Definition aliceBoard : Dashboard.State :=
  Dashboard.initial Sample.today None alice.

(** A dashboard mounted yesterday and left open: today a survey is selected
    on it, answered and rewarded, and the record is persisted. *)
Definition aliceYesterday : App.UserData :=
  Sample.mkUser "alice" (Some (Sample.mkStats 80 3 180 250 Sample.yesterday)).

Definition openBoard : Dashboard.State :=
  Dashboard.initial Sample.yesterday None aliceYesterday.

Definition openSurvey : Dashboard.State :=
  Dashboard.finishSurveySelect None
    (snd (Dashboard.handleSurveySelect false Sample.techTrends openBoard)).

Definition openReward : Z * Dashboard.State * App.PartialUserData :=
  Dashboard.handleProcessRewards Sample.clock (1 # 2) (1 # 2) (1 # 2) openSurvey.

Definition openApp : App.State :=
  App.handleUpdateUser (snd openReward)
    {| App.registeredUsers := [aliceYesterday]; App.currentUser := Some aliceYesterday;
       App.referralCode := None; App.currentView := App.dashboard |}.








(** "Alice" logs in: she ticks the box, types her name and password and
    submits; while the code is being generated she clears the password box;
    the provider answers "48213" and she types those digits. *)
Definition loginFlowEvents : list LoginFlow.Event :=
  [ LoginFlow.Agree true;
    LoginFlow.Change "username" "Alice";
    LoginFlow.Change "password" "Passw0rdX";
    LoginFlow.SubmitCredentials Sample.loginUsers;
    LoginFlow.Change "password" "";
    LoginFlow.OtpAnswer 0 "48213";
    LoginFlow.MessageAnswer 0 None;
    LoginFlow.TypeOtp 0 "4"; LoginFlow.TypeOtp 1 "8"; LoginFlow.TypeOtp 2 "2";
    LoginFlow.TypeOtp 3 "1"; LoginFlow.TypeOtp 4 "3" ].

(** "Alice" asks for a reset code, the provider answers "48213", she types
    those digits and then a new password twice. *)
Definition resetFlowEvents : list LoginFlow.Event :=
  [ LoginFlow.ForgotClick;
    LoginFlow.TypeForgotUsername "Alice";
    LoginFlow.SubmitForgotRequest Sample.loginUsers;
    LoginFlow.OtpAnswer 0 "48213";
    LoginFlow.MessageAnswer 0 None;
    LoginFlow.TypeOtp 0 "4"; LoginFlow.TypeOtp 1 "8"; LoginFlow.TypeOtp 2 "2";
    LoginFlow.TypeOtp 3 "1"; LoginFlow.TypeOtp 4 "3";
    LoginFlow.SubmitForgotVerify;
    LoginFlow.TypeNewPassword "N3wPassword";
    LoginFlow.TypeConfirmPassword "N3wPassword" ].

(** "carol@mail.com" registers: she fills the three inputs and submits;
    while the code is being generated she clears the password box; the
    provider answers "48213", she types those digits and submits them. *)
Definition registerFlowEvents : list RegisterFlow.Event :=
  [ RegisterFlow.Input RegisterFlow.username "carol@mail.com";
    RegisterFlow.Input RegisterFlow.password "Passw0rdX";
    RegisterFlow.Input RegisterFlow.mpesaCode "QK54ABCDE1";
    RegisterFlow.SubmitDetails (App.registeredUsers aliceApp);
    RegisterFlow.Input RegisterFlow.password "";
    RegisterFlow.OtpAnswer 0 "48213";
    RegisterFlow.MessageAnswer 0 None;
    RegisterFlow.TypeOtp 0 "4"; RegisterFlow.TypeOtp 1 "8"; RegisterFlow.TypeOtp 2 "2";
    RegisterFlow.TypeOtp 3 "1"; RegisterFlow.TypeOtp 4 "3";
    RegisterFlow.SubmitOtp ].

End Demo.

(** * Properties *)

(** Splits a goal made of implications, conjunctions and equivalences about
    one branch of the gates and closes every piece. *)
Ltac gate_case :=
  repeat (split || intro);
  repeat match goal with H : _ /\ _ |- _ => destruct H end;
  try lia; try discriminate; try congruence; try reflexivity.

(** ** The JavaScript helpers *)

Lemma num_or_some (v d : Z) : v <> 0 -> Js.num_or (Some v) d = v.
Proof.
  intros Hv. unfold Js.num_or.
  destruct (Z.eqb_spec v 0) as [E | _]; [contradiction | reflexivity].
Qed.

Lemma num_or_zero_default (x : Z) : Js.num_or (Some x) 0 = x.
Proof.
  unfold Js.num_or. destruct (Z.eqb_spec x 0) as [-> | _]; reflexivity.
Qed.

Lemma floor_scaled_range (r : Q) (n : Z) :
  (0 <= r)%Q -> (r < 1)%Q -> 0 < n -> 0 <= Js.floor_scaled r n < n.
Proof.
  intros H0 H1 Hn. unfold Js.floor_scaled.
  assert (Hpos : (0 < inject_Z n)%Q).
  { change 0%Q with (inject_Z 0). rewrite <- Zlt_Qlt. exact Hn. }
  split.
  - change 0 with (Qfloor (inject_Z 0)) at 1.
    apply Qfloor_resp_le. change (inject_Z 0) with 0%Q.
    apply Qmult_le_0_compat; [exact H0 | apply Qlt_le_weak; exact Hpos].
  - rewrite Zlt_Qlt.
    apply Qle_lt_trans with (y := (r * inject_Z n)%Q); [apply Qfloor_le |].
    apply Qlt_le_trans with (y := (1 * inject_Z n)%Q).
    + apply Qmult_lt_compat_r; assumption.
    + rewrite Qmult_1_l. apply Qle_refl.
Qed.

Lemma variance_range (r : Q) :
  (0 <= r)%Q -> (r < 1)%Q -> -5 <= Dashboard.variance r <= 10.
Proof.
  intros H0 H1. unfold Dashboard.variance.
  pose proof (floor_scaled_range r 16 H0 H1 ltac:(lia)). lia.
Qed.

(** ** Reward processing *)

Lemma earnedAmount_bounds (r : Q) (st : Dashboard.State) :
  0 <= Dashboard.earnedAmount r st
       <= Z.max 0 (Dashboard.currentDailyCap (Dashboard.stats st)
                   - Dashboard.currentDaily (Dashboard.stats st)).
Proof.
  unfold Dashboard.earnedAmount, Dashboard.currentDailyCap.
  destruct (Z.ltb_spec
              (Js.num_or (App.dailyLimit (Dashboard.stats st)) 250)
              (Dashboard.currentDaily (Dashboard.stats st)
               + Z.max 10
                   (match Dashboard.selectedSurvey st with
                    | Some s => Dashboard.reward s
                    | None => 50
                    end + Dashboard.variance r))); lia.
Qed.

(** C1. Every call of [handleProcessRewards] returns the selected survey's
    nominal reward (50 when no survey is selected) plus an integer variance
    between -5 and +10, raised to at least 10, and then cut back when the
    day's earnings plus that amount would exceed the daily limit; hence the
    amount returned lies between 0 and [max 0 (dailyLimit - dailyEarnings)]
    of the prior state, whatever that state is. The limit and the earnings
    are read the way the handler reads them ([stats.dailyLimit || 250] and
    [stats.dailyEarnings || 0]); on a state that stores a non-zero limit they
    are the stored fields themselves. *)
Theorem handleProcessRewards_reward_bounds
    (clk : App.Clock) (r rp re : Q) (st : Dashboard.State) :
  (0 <= r)%Q -> (r < 1)%Q ->
  let reward := fst (fst (Dashboard.handleProcessRewards clk r rp re st)) in
  let base :=
    match Dashboard.selectedSurvey st with
    | Some s => Dashboard.reward s
    | None => 50
    end in
  let limit := Dashboard.currentDailyCap (Dashboard.stats st) in
  let before := Dashboard.currentDaily (Dashboard.stats st) in
  (exists v : Z,
      -5 <= v <= 10 /\
      reward = if limit <? before + Z.max 10 (base + v)
               then Z.max 0 (limit - before)
               else Z.max 10 (base + v))
  /\ 0 <= reward <= Z.max 0 (limit - before)
  /\ (before <= limit -> before + reward <= limit)
  /\ (forall L E : Z,
        App.dailyLimit (Dashboard.stats st) = Some L -> L <> 0 ->
        App.dailyEarnings (Dashboard.stats st) = Some E ->
        0 <= reward <= Z.max 0 (L - E)).
Proof.
  intros H0 H1 reward base limit before.
  assert (Hb : 0 <= reward <= Z.max 0 (limit - before))
    by apply earnedAmount_bounds.
  split; [| split; [exact Hb | split]].
  - exists (Dashboard.variance r). split; [apply variance_range; assumption |].
    reflexivity.
  - intros Hle. lia.
  - intros L E HL HL0 HE.
    subst limit before.
    unfold Dashboard.currentDailyCap, Dashboard.currentDaily in Hb.
    rewrite HL, HE, num_or_zero_default, (num_or_some L 250 HL0) in Hb.
    exact Hb.
Qed.

(** The theorem at a draw of 0.99 for a user at 200 of a limit of 250 taking
    the 75-shilling survey: the amount is cut to 50. *)
Lemma handleProcessRewards_reward_bounds_witness :
  0 <= fst (fst (Dashboard.handleProcessRewards Sample.clock (99 # 100) (1 # 2) (1 # 2)
                   (Sample.board 10 (Sample.mkStats 80 6 200 250 Sample.today))))
    <= Z.max 0 (250 - 200).
Proof.
  refine (proj1 (proj2
            (handleProcessRewards_reward_bounds Sample.clock (99 # 100) (1 # 2) (1 # 2)
               (Sample.board 10 (Sample.mkStats 80 6 200 250 Sample.today)) _ _))).
  - unfold Qle; simpl; lia.
  - unfold Qlt; simpl; lia.
Defined.

Example reward_clamped_to_remaining :
  fst (fst (Dashboard.handleProcessRewards Sample.clock (99 # 100) (1 # 2) (1 # 2)
              (Sample.board 10 (Sample.mkStats 80 6 200 250 Sample.today)))) = 50.
Proof. reflexivity. Qed.

(** The states [handleProcessRewards] is called on store a non-zero limit:
    the initializer stores one, and so do the handlers that write stats. *)
Lemma initStats_normalised (today : string) (user : App.UserData) :
  Dashboard.normalised (Dashboard.initStats today user).
Proof.
  unfold Dashboard.normalised, Dashboard.initStats.
  destruct (Js.differs _ today); cbn; eexists _, _;
    (split; [reflexivity | split; [| reflexivity]]);
    destruct (App.dailyLimit _) as [v |]; cbn; try discriminate;
    destruct (Z.eqb_spec v 0); (discriminate || assumption).
Qed.

Lemma handleProcessRewards_normalised
    (clk : App.Clock) (r rp re : Q) (st : Dashboard.State) :
  Dashboard.normalised (Dashboard.stats st) ->
  Dashboard.normalised
    (Dashboard.stats (snd (fst (Dashboard.handleProcessRewards clk r rp re st)))).
Proof.
  intros (L & E & HL & HL0 & HE). unfold Dashboard.normalised. cbn.
  rewrite HL, (num_or_some L 250 HL0). eexists _, _. repeat split. exact HL0.
Qed.

Lemma handleUpgradeLimit_normalised (newLimit : Z) (st : Dashboard.State) :
  In newLimit (Dashboard.upgradeOptions (Dashboard.currentDailyCap (Dashboard.stats st))) ->
  Dashboard.normalised (Dashboard.stats st) ->
  Dashboard.normalised (Dashboard.stats (fst (Dashboard.handleUpgradeLimit newLimit st))).
Proof.
  intros Hin (L & E & _ & _ & HE). unfold Dashboard.normalised. cbn.
  exists newLimit, E. repeat split; [| exact HE].
  unfold Dashboard.upgradeOptions in Hin. apply filter_In in Hin.
  destruct Hin as [[<- | [<- | []]] _]; discriminate.
Qed.

(** ** Daily reset on access *)

Lemma num_or_250_nonzero (x : option Z) : Js.num_or x 250 <> 0.
Proof.
  destruct x as [v |]; simpl; [| discriminate].
  destruct (Z.eqb_spec v 0); [discriminate | assumption].
Qed.

Lemma currentDailyCap_normalised (x : option Z) :
  Js.num_or (Some (Js.num_or x 250)) 250 = Js.num_or x 250.
Proof. apply num_or_some, num_or_250_nonzero. Qed.

Lemma reward_stats (clk : App.Clock) (r rp re : Q) (st : Dashboard.State) :
  Dashboard.stats (snd (fst (Dashboard.handleProcessRewards clk r rp re st)))
  = {| App.earnings := App.earnings (Dashboard.stats st) + Dashboard.earnedAmount r st;
       App.performance :=
         Z.min 100 (App.performance (Dashboard.stats st) + (Js.floor_scaled rp 8 + 2));
       App.eligibility :=
         Z.min 100 (App.eligibility (Dashboard.stats st) + (Js.floor_scaled re 12 + 5));
       App.surveysCompleted := App.surveysCompleted (Dashboard.stats st) + 1;
       App.dailyCount := Some (Dashboard.currentCount (Dashboard.stats st) + 1);
       App.lastSurveyDate := Some (App.toDateString clk);
       App.dailyEarnings :=
         Some (Dashboard.currentDaily (Dashboard.stats st) + Dashboard.earnedAmount r st);
       App.dailyLimit := Some (Dashboard.currentDailyCap (Dashboard.stats st)) |}.
Proof. reflexivity. Qed.

Lemma differs_true (a : option string) (b : string) :
  a <> Some b -> Js.differs a b = true.
Proof.
  intros Hne. destruct a as [v |]; simpl; [| reflexivity].
  destruct (String.eqb_spec v b) as [-> | _]; [contradiction | reflexivity].
Qed.

(** When the dashboard mounts and the stored [lastSurveyDate] is not today,
    the stats it starts from have [dailyCount = 0], [dailyEarnings = 0] and
    [lastSurveyDate = today]; [dailyLimit] is the stored limit when one is
    stored and is not zero, and 250 otherwise, so that the cap in force
    ([dailyLimit || 250]) is the same before and after; the cumulative fields
    are untouched. *)
Theorem initStats_daily_reset
    (today : string) (user : App.UserData) (stored : App.UserStats) :
  App.stats user = Some stored ->
  App.lastSurveyDate stored <> Some today ->
  let s := Dashboard.initStats today user in
  App.dailyCount s = Some 0
  /\ App.dailyEarnings s = Some 0
  /\ App.lastSurveyDate s = Some today
  /\ App.dailyLimit s = Some (Js.num_or (App.dailyLimit stored) 250)
  /\ (forall L : Z, App.dailyLimit stored = Some L -> L <> 0 ->
        App.dailyLimit s = App.dailyLimit stored)
  /\ Dashboard.currentDailyCap s = Dashboard.currentDailyCap stored
  /\ App.earnings s = App.earnings stored
  /\ App.performance s = App.performance stored
  /\ App.eligibility s = App.eligibility stored
  /\ App.surveysCompleted s = App.surveysCompleted stored.
Proof.
  intros Hst Hday s. subst s. unfold Dashboard.initStats.
  rewrite Hst. cbn [Js.obj_or Js.nullish].
  rewrite (differs_true _ _ Hday). cbn.
  repeat (split; [reflexivity |]).
  split.
  - intros L HL HL0. rewrite HL. f_equal. cbn. apply num_or_some, HL0.
  - split; [| repeat split].
    unfold Dashboard.currentDailyCap. cbn. apply currentDailyCap_normalised.
Qed.

(** C2. The reset is made by the initializer only. On a dashboard mounted
    yesterday and still open today, the stats in use were last stamped
    yesterday; [handleSurveySelect] passes its gates on yesterday's counters
    (3 surveys, 180 earned), [handleProcessRewards] counts today's survey as
    the fourth, cuts its pay to the 70 that yesterday's earnings left under
    the cap, and stamps the record with today's date, so that the record
    persisted and every later mount today carry a count of 4 and earnings of
    250; mounted today from the stored record, the same account would have
    started from 0 and 0. No handler resets: whatever the stored date, a
    reward leaves the count one above and the earnings not below what they
    were, under today's date. *)
Theorem open_dashboard_keeps_yesterdays_counters :
  App.lastSurveyDate (Dashboard.stats Demo.openBoard) = Some Sample.yesterday
  /\ App.toDateString Sample.clock = Sample.today
  /\ Sample.yesterday <> Sample.today
  /\ fst (Dashboard.handleSurveySelect false Sample.techTrends Demo.openBoard)
     = Dashboard.Started
  /\ fst (fst Demo.openReward) = 70
  /\ App.dailyCount (Dashboard.stats (snd (fst Demo.openReward))) = Some 4
  /\ App.dailyEarnings (Dashboard.stats (snd (fst Demo.openReward))) = Some 250
  /\ App.lastSurveyDate (Dashboard.stats (snd (fst Demo.openReward))) = Some Sample.today
  /\ (exists cu',
        App.currentUser Demo.openApp = Some cu'
        /\ App.registeredUsers Demo.openApp = [cu']
        /\ App.dailyCount (Dashboard.stats (Dashboard.initial Sample.today None cu'))
           = Some 4
        /\ App.dailyEarnings (Dashboard.stats (Dashboard.initial Sample.today None cu'))
           = Some 250)
  /\ App.dailyCount (Dashboard.initStats Sample.today Demo.aliceYesterday) = Some 0
  /\ App.dailyEarnings (Dashboard.initStats Sample.today Demo.aliceYesterday) = Some 0
  /\ (forall (clk : App.Clock) (r rp re : Q) (st : Dashboard.State),
        let s' := Dashboard.stats (snd (fst (Dashboard.handleProcessRewards clk r rp re st))) in
        App.dailyCount s' = Some (Dashboard.currentCount (Dashboard.stats st) + 1)
        /\ (exists e, App.dailyEarnings s' = Some e
                      /\ Dashboard.currentDaily (Dashboard.stats st) <= e)
        /\ App.lastSurveyDate s' = Some (App.toDateString clk))
  /\ (forall (upgrade : bool) (survey : Dashboard.SurveyOption) (st : Dashboard.State),
        Dashboard.stats (snd (Dashboard.handleSurveySelect upgrade survey st))
        = Dashboard.stats st).
Proof.
  do 3 (split; [first [reflexivity | discriminate] |]).
  do 5 (split; [reflexivity |]).
  split; [eexists; repeat split |].
  do 2 (split; [reflexivity |]).
  split.
  - intros clk r rp re st s'. subst s'. rewrite reward_stats. cbn.
    split; [reflexivity |]. split; [| reflexivity].
    eexists. split; [reflexivity |].
    pose proof (earnedAmount_bounds r st). lia.
  - intros upgrade survey st. unfold Dashboard.handleSurveySelect.
    repeat match goal with |- context [if ?c then _ else _] => destruct c end; reflexivity.
Qed.

(** ** The start-of-survey gates *)

(** C4. The survey-count limit of the count gate is 7 when the performance
    score is at least 75 and 3 otherwise; a score of exactly 75 gives 7. *)
Theorem DAILY_LIMIT_tiers (s : App.UserStats) :
  (75 <= App.performance s -> Dashboard.DAILY_LIMIT s = 7)
  /\ (App.performance s < 75 -> Dashboard.DAILY_LIMIT s = 3)
  /\ (App.performance s = 75 -> Dashboard.DAILY_LIMIT s = 7).
Proof.
  unfold Dashboard.DAILY_LIMIT, Dashboard.isHighPerformer.
  destruct (Z.leb_spec 75 (App.performance s)); repeat split; intros; lia || reflexivity.
Qed.

Lemma DAILY_LIMIT_tiers_witness :
  Dashboard.DAILY_LIMIT (Sample.mkStats 75 0 0 250 Sample.today) = 7
  /\ Dashboard.DAILY_LIMIT (Sample.mkStats 74 0 0 250 Sample.today) = 3.
Proof.
  split.
  - refine (proj2 (proj2 (DAILY_LIMIT_tiers (Sample.mkStats 75 0 0 250 Sample.today))) _).
    reflexivity.
  - refine (proj1 (proj2 (DAILY_LIMIT_tiers (Sample.mkStats 74 0 0 250 Sample.today))) _).
    simpl. lia.
Defined.

(** C3. When no selection is already in flight, [handleSurveySelect] checks
    three gates in order and the first that fails decides: the global gate
    blocks as soon as the global count is at least 100000, whatever the
    user's stats are; then the earnings gate blocks when the day's earnings
    are at least the daily cap; then the count gate blocks when the day's
    survey count is at least the tier limit. A survey is started exactly when
    all three pass (and never otherwise, in flight or not); a blocked call
    leaves the counters as they were, a started one spends one global slot. *)
Theorem handleSurveySelect_gate_order
    (upgrade : bool) (survey : Dashboard.SurveyOption) (st : Dashboard.State) :
  Dashboard.isSurveying st = false ->
  let out := fst (Dashboard.handleSurveySelect upgrade survey st) in
  let st' := snd (Dashboard.handleSurveySelect upgrade survey st) in
  let g := Dashboard.count (Dashboard.globalStats st) in
  let earned := Dashboard.currentDaily (Dashboard.stats st) in
  let cap := Dashboard.currentDailyCap (Dashboard.stats st) in
  let done := Dashboard.currentCount (Dashboard.stats st) in
  let limit := Dashboard.DAILY_LIMIT (Dashboard.stats st) in
  (100000 <= g -> out = Dashboard.BlockedGlobal)
  /\ (g < 100000 -> cap <= earned -> out = Dashboard.BlockedEarnings)
  /\ (g < 100000 -> earned < cap -> limit <= done -> out = Dashboard.BlockedCount)
  /\ (out = Dashboard.Started <-> g < 100000 /\ earned < cap /\ done < limit)
  /\ (out <> Dashboard.Started ->
        Dashboard.globalStats st' = Dashboard.globalStats st
        /\ Dashboard.stats st' = Dashboard.stats st
        /\ Dashboard.selectedSurvey st' = Dashboard.selectedSurvey st)
  /\ (out = Dashboard.Started ->
        Dashboard.count (Dashboard.globalStats st') = g + 1
        /\ Dashboard.stats st' = Dashboard.stats st
        /\ Dashboard.selectedSurvey st' = Some survey).
Proof.
  intros Hidle out st' g earned cap done limit.
  subst out st'. unfold Dashboard.handleSurveySelect. rewrite Hidle.
  unfold Dashboard.GLOBAL_DAILY_CAP. fold g earned cap done limit.
  destruct (Z.leb_spec 100000 g) as [Hg | Hg]; cbn [fst snd];
    [gate_case |].
  destruct (Z.leb_spec cap earned) as [He | He]; cbn [fst snd];
    [destruct upgrade; gate_case |].
  destruct (Z.leb_spec limit done) as [Hc | Hc]; cbn [fst snd]; gate_case.
Qed.

Lemma handleSurveySelect_gate_order_witness :
  fst (Dashboard.handleSurveySelect false Sample.techTrends
         (Sample.board 100000 (Sample.mkStats 80 0 0 250 Sample.today)))
  = Dashboard.BlockedGlobal.
Proof.
  refine (proj1
            (handleSurveySelect_gate_order false Sample.techTrends
               (Sample.board 100000 (Sample.mkStats 80 0 0 250 Sample.today)) _) _).
  - reflexivity.
  - simpl. lia.
Defined.


(** The scenario of the specification: performance 80, six surveys done,
    200 earned of 250: both user gates pass and the survey starts; with the
    global counter at 99999 the start takes the last slot and the next
    attempt is blocked by the global gate. *)
Example scenario_last_global_slot :
  let st := Sample.board 99999 (Sample.mkStats 80 6 200 250 Sample.today) in
  let first := Dashboard.handleSurveySelect false Sample.techTrends st in
  let st1 := Dashboard.finishSurveySelect None (snd first) in
  fst first = Dashboard.Started
  /\ Dashboard.count (Dashboard.globalStats st1) = 100000
  /\ fst (Dashboard.handleSurveySelect false Sample.techTrends st1) = Dashboard.BlockedGlobal.
Proof. repeat split. Qed.

(** ** The home view's block state *)

Lemma options_spec (currentLimit : Z) (o : LimitUpgradeView.Tier) :
  In o (LimitUpgradeView.options currentLimit) ->
  currentLimit < LimitUpgradeView.limit o
  /\ (LimitUpgradeView.limit o = 800 \/ LimitUpgradeView.limit o = 1000).
Proof.
  unfold LimitUpgradeView.options. intros H. apply filter_In in H.
  destruct H as [Hin Hlt]. apply Z.ltb_lt in Hlt. split; [exact Hlt |].
  destruct Hin as [<- | [<- | []]]; [left | right]; reflexivity.
Qed.









(** ** Profile updates *)

Lemma lookup_map_pointwise {A B : Type} (f : A -> B) (l : list A) (i : nat) :
  map f l !! i = option_map f (l !! i).
Proof.
  revert i. induction l as [| x l IH]; intros [| i]; cbn; try reflexivity. apply IH.
Qed.


(** When the partial record does not rename the user, every entry that
    carries the session's username after the update is the session's record. *)
Lemma handleUpdateUser_named_like_session
    (updatedData : App.PartialUserData) (st : App.State) (cu u' : App.UserData) (i : nat) :
  App.currentUser st = Some cu ->
  App.p_username updatedData = None ->
  App.registeredUsers (App.handleUpdateUser updatedData st) !! i = Some u' ->
  App.username u' = App.username cu ->
  u' = App.merge cu updatedData.
Proof.
  intros Hcu Hkeep Hi Hname. unfold App.handleUpdateUser in Hi. rewrite Hcu in Hi.
  cbn in Hi. rewrite lookup_map_pointwise in Hi.
  destruct (App.registeredUsers st !! i) as [u |]; [| discriminate].
  cbn in Hi. destruct (String.eqb_spec (App.username u) (App.username cu)) as [_ | Hne].
  - congruence.
  - injection Hi as <-. contradiction.
Qed.

(** Without a session the call changes nothing. *)
Lemma handleUpdateUser_no_session (updatedData : App.PartialUserData) (st : App.State) :
  App.currentUser st = None -> App.handleUpdateUser updatedData st = st.
Proof. intros H. unfold App.handleUpdateUser. rewrite H. reflexivity. Qed.


(** ** Registration and referral *)

Section FindIndex.
Context {A : Type} (p : A -> bool).

Lemma findIndex_Some (l : list A) (i : nat) :
  Js.findIndex p l = Some i ->
  exists x, l !! i = Some x /\ p x = true
            /\ forall j y, (j < i)%nat -> l !! j = Some y -> p y = false.
Proof.
  revert i. induction l as [| a l IH]; intros i; cbn; [discriminate |].
  destruct (p a) eqn:Ha.
  - intros [= <-]. exists a. repeat split; [assumption | intros j y Hj; lia].
  - destruct (Js.findIndex p l) as [k |] eqn:Hk; cbn; [| discriminate].
    intros [= <-]. destruct (IH k eq_refl) as (x & Hx & Hpx & Hbefore).
    exists x. repeat split; try assumption.
    intros [| j] y Hj; cbn.
    + intros [= <-]. exact Ha.
    + apply Hbefore. lia.
Qed.

Lemma findIndex_None (l : list A) :
  (forall x, In x l -> p x = false) -> Js.findIndex p l = None.
Proof.
  induction l as [| a l IH]; intros Hall; cbn; [reflexivity |].
  rewrite (Hall a (or_introl eq_refl)), IH; [reflexivity |].
  intros x Hx. apply Hall. right. exact Hx.
Qed.

Lemma findIndex_found (l : list A) (x : A) :
  In x l -> p x = true -> exists i, Js.findIndex p l = Some i.
Proof.
  induction l as [| a l IH]; intros Hin Hpx; [destruct Hin |]. cbn.
  destruct (p a) eqn:Ha; [exists O; reflexivity |].
  destruct Hin as [-> | Hin]; [congruence |].
  destruct (IH Hin Hpx) as [i ->]. exists (S i). reflexivity.
Qed.

Lemma findIndex_app_l (l l' : list A) (i : nat) :
  Js.findIndex p l = Some i -> Js.findIndex p (l ++ l') = Some i.
Proof.
  revert i. induction l as [| a l IH]; intros i; cbn; [discriminate |].
  destruct (p a); [trivial |].
  destruct (Js.findIndex p l) as [k |]; cbn; [| discriminate].
  intros [= <-]. rewrite (IH k eq_refl). reflexivity.
Qed.
End FindIndex.

Lemma truthy_nonempty (s : string) : s <> "" -> Js.truthy s = true.
Proof.
  intros Hs. unfold Js.truthy.
  destruct (String.eqb_spec s ""); [contradiction | reflexivity].
Qed.

Lemma eqb_false_of_ne (a b : string) : a <> b -> String.eqb a b = false.
Proof. intros H. destruct (String.eqb_spec a b); [contradiction | reflexivity]. Qed.

(** The collection [handleRegisterSuccess] writes when the first record named
    [code] sits at index [i]. *)
Lemma handleRegisterSuccess_credit
    (clk : App.Clock) (newUser : App.UserData) (st : App.State)
    (code : string) (i : nat) (referrer : App.UserData) :
  App.referralCode st = Some code ->
  code <> "" ->
  code <> App.username newUser ->
  Js.findIndex (fun u => String.eqb (App.username u) code) (App.registeredUsers st) = Some i ->
  App.registeredUsers st !! i = Some referrer ->
  App.registeredUsers (App.handleRegisterSuccess clk newUser st)
  = <[i := App.creditReferrer clk newUser referrer]> (App.registeredUsers st)
    ++ [App.userWithDefaults clk newUser].
Proof.
  intros Hcode Hne Hself Hidx Hi. unfold App.handleRegisterSuccess.
  rewrite Hcode, (truthy_nonempty code Hne), (eqb_false_of_ne _ _ Hself). cbn [andb negb].
  rewrite (findIndex_app_l _ _ [App.userWithDefaults clk newUser] i Hidx).
  assert (Hlt : (i < length (App.registeredUsers st))%nat)
    by (eapply lookup_lt_Some; exact Hi).
  rewrite (lookup_app_l _ _ _ Hlt), Hi.
  rewrite (insert_app_l _ _ _ _ Hlt).
  destruct (App.currentUser st) as [cu |]; [destruct (String.eqb _ code) |]; reflexivity.
Qed.

(** The collection when the lookup finds nothing, or is not made at all. *)
Lemma handleRegisterSuccess_no_credit
    (clk : App.Clock) (newUser : App.UserData) (st : App.State) :
  match App.referralCode st with
  | Some code =>
      code = "" \/ code = App.username newUser
      \/ forall u, In u (App.registeredUsers st) -> App.username u <> code
  | None => True
  end ->
  App.registeredUsers (App.handleRegisterSuccess clk newUser st)
  = App.registeredUsers st ++ [App.userWithDefaults clk newUser].
Proof.
  unfold App.handleRegisterSuccess.
  destruct (App.referralCode st) as [code |]; [| reflexivity].
  intros Hcase. unfold Js.truthy.
  destruct (String.eqb_spec code "") as [_ | Hne]; [reflexivity |].
  destruct (String.eqb_spec code (App.username newUser)) as [_ | Hself]; [reflexivity |].
  destruct Hcase as [-> | [-> | Hnone]]; [contradiction | contradiction |].
  cbn [andb negb]. rewrite findIndex_None; [reflexivity |].
  intros u Hu. apply eqb_false_of_ne. apply in_app_or in Hu.
  destruct Hu as [Hu | [<- | []]]; [apply Hnone, Hu |].
  cbn. intros E. apply Hself. symmetry. exact E.
Qed.

(** Without a captured code the two versions of [handleRegisterSuccess]
    agree. *)
Lemma handleRegisterSuccess_without_code
    (clk : App.Clock) (newUser : App.UserData) (st : App.State) :
  App.referralCode st = None ->
  App.handleRegisterSuccess clk newUser st = App.handleRegisterSuccessPlain clk newUser st.
Proof. intros H. unfold App.handleRegisterSuccess. rewrite H. reflexivity. Qed.

(** Whatever the referral branch does, the new user becomes the session. *)
Lemma handleRegisterSuccess_session
    (clk : App.Clock) (newUser : App.UserData) (st : App.State) :
  App.currentUser (App.handleRegisterSuccess clk newUser st)
  = Some (App.userWithDefaults clk newUser)
  /\ App.currentView (App.handleRegisterSuccess clk newUser st) = App.dashboard.
Proof.
  unfold App.handleRegisterSuccess. repeat case_match; simplify_eq; split; reflexivity.
Qed.

(** C5. When a registration completes while a non-empty referral code is
    held that is not the new user's own name and that names a registered
    user, the first record carrying that name (the referrer) is rewritten in
    place: its cumulative earnings go up by exactly 50, its history gains
    exactly one entry, at the front, of amount 50 and titled
    "Referral Bonus: " followed by the new user's name, and its daily
    earnings are not affected; every other existing record is
    untouched; the new user's record is appended and becomes the session
    with the fixed registration defaults (earnings 0, performance 65,
    eligibility 40, no surveys, daily limit 250, empty history). *)
Theorem referral_bonus_credited
    (clk : App.Clock) (newUser : App.UserData) (st : App.State) (code : string) :
  App.referralCode st = Some code ->
  code <> "" ->
  code <> App.username newUser ->
  (exists u, In u (App.registeredUsers st) /\ App.username u = code) ->
  let users := App.registeredUsers st in
  let st' := App.handleRegisterSuccess clk newUser st in
  let fresh := App.userWithDefaults clk newUser in
  let statsOf := fun u => Js.obj_or (App.stats u) (App.defaultStats (App.toDateString clk)) in
  let historyOf := fun u => Js.obj_or (App.earningsHistory u) [] in
  exists (i : nat) (referrer referrer' : App.UserData) (entry : App.EarningEntry),
    users !! i = Some referrer
    /\ App.username referrer = code
    /\ (forall j u, (j < i)%nat -> users !! j = Some u -> App.username u <> code)
    /\ App.registeredUsers st' !! i = Some referrer'
    /\ App.username referrer' = code
    /\ App.earnings (statsOf referrer') = App.earnings (statsOf referrer) + 50
    /\ App.dailyEarnings (statsOf referrer') = App.dailyEarnings (statsOf referrer)
    /\ historyOf referrer' = entry :: historyOf referrer
    /\ App.title entry = "Referral Bonus: " +:+ App.username newUser
    /\ App.amount entry = 50
    /\ (forall j, j <> i -> (j < length users)%nat ->
          App.registeredUsers st' !! j = users !! j)
    /\ length (App.registeredUsers st') = S (length users)
    /\ App.registeredUsers st' !! length users = Some fresh
    /\ App.currentUser st' = Some fresh
    /\ App.username fresh = App.username newUser
    /\ App.stats fresh
       = Some {| App.earnings := 0; App.performance := 65; App.eligibility := 40;
                 App.surveysCompleted := 0; App.dailyCount := Some 0;
                 App.lastSurveyDate := Some (App.toDateString clk);
                 App.dailyEarnings := Some 0; App.dailyLimit := Some 250 |}
    /\ App.earningsHistory fresh = Some [].
Proof.
  intros Hcode Hne Hself (u & Hu & Hname) users st' fresh statsOf historyOf.
  destruct (findIndex_found (fun u => String.eqb (App.username u) code) users u Hu)
    as [i Hidx]; [rewrite Hname; apply String.eqb_refl |].
  destruct (findIndex_Some _ _ _ Hidx) as (referrer & Hi & Hp & Hbefore).
  apply String.eqb_eq in Hp.
  assert (Hlt : (i < length users)%nat) by (eapply lookup_lt_Some; exact Hi).
  pose proof (handleRegisterSuccess_credit clk newUser st code i referrer
                Hcode Hne Hself Hidx Hi) as Hlist.
  fold st' users in Hlist.
  exists i, referrer, (App.creditReferrer clk newUser referrer),
    (App.referralEntry clk newUser).
  rewrite Hlist.
  split; [exact Hi |]. split; [exact Hp |].
  split.
  { intros j y Hj Hy E. specialize (Hbefore j y Hj Hy). cbn in Hbefore.
    rewrite E, String.eqb_refl in Hbefore. discriminate. }
  split.
  { rewrite lookup_app_l by (rewrite length_insert; exact Hlt).
    apply list_lookup_insert_eq, Hlt. }
  split; [exact Hp |].
  split; [reflexivity |]. split; [reflexivity |]. split; [reflexivity |].
  split; [reflexivity |]. split; [reflexivity |].
  split.
  { intros j Hj Hjlt.
    rewrite lookup_app_l by (rewrite length_insert; exact Hjlt).
    apply list_lookup_insert_ne. congruence. }
  split.
  { rewrite length_app, length_insert. cbn. lia. }
  split.
  { rewrite lookup_app_r by (rewrite length_insert; lia).
    rewrite length_insert, Nat.sub_diag. reflexivity. }
  split; [apply handleRegisterSuccess_session |].
  repeat split.
Qed.

(** "bob" registers with the referral code "alice" while "alice" exists. *)
Lemma referral_bonus_credited_witness :
  let alice := Sample.mkUser "alice" (Some (Sample.mkStats 80 3 180 250 Sample.today)) in
  let st :=
    {| App.registeredUsers := [alice]; App.currentUser := None;
       App.referralCode := Some "alice"; App.currentView := App.register |} in
  exists (i : nat) (referrer referrer' : App.UserData) (entry : App.EarningEntry),
    [alice] !! i = Some referrer
    /\ App.username referrer = "alice"
    /\ (forall j u, (j < i)%nat -> [alice] !! j = Some u -> App.username u <> "alice")
    /\ App.registeredUsers (App.handleRegisterSuccess Sample.clock (Sample.mkUser "bob" None) st)
         !! i = Some referrer'
    /\ App.username referrer' = "alice".
Proof.
  intros alice st.
  destruct (referral_bonus_credited Sample.clock (Sample.mkUser "bob" None) st "alice")
    as (i & referrer & referrer' & entry & H1 & H2 & H3 & H4 & H5 & _).
  - reflexivity.
  - discriminate.
  - discriminate.
  - exists alice. split; [left; reflexivity | reflexivity].
  - exists i, referrer, referrer', entry. repeat split; assumption.
Defined.

Example referral_scenario :
  let alice := Sample.mkUser "alice" (Some (Sample.mkStats 80 3 180 250 Sample.today)) in
  let st :=
    {| App.registeredUsers := [alice]; App.currentUser := None;
       App.referralCode := Some "alice"; App.currentView := App.register |} in
  let st' := App.handleRegisterSuccess Sample.clock (Sample.mkUser "bob" None) st in
  option_map (fun u => option_map App.earnings (App.stats u))
    (App.registeredUsers st' !! 0%nat) = Some (Some (1200 + 50))
  /\ option_map (fun u => option_map (map App.title) (App.earningsHistory u))
       (App.registeredUsers st' !! 0%nat) = Some (Some ["Referral Bonus: bob"])
  /\ option_map App.username (App.currentUser st') = Some "bob"
  /\ option_map App.stats (App.currentUser st') = Some (Some (App.defaultStats Sample.today)).
Proof. repeat split. Qed.

(** C9. The referral lookup compares the code with the stored usernames
    exactly: when no registered user has exactly the code as username, the
    collection only gains the new record (no record is credited), even when
    some registered username equals the code up to letter case, in which
    case the registration form's duplicate check does regard the code as
    an existing name. The lookup is also skipped when the code is exactly the
    new user's own username. *)
Theorem referral_lookup_case_sensitive
    (clk : App.Clock) (newUser : App.UserData) (st : App.State) (code : string) :
  App.referralCode st = Some code ->
  let users := App.registeredUsers st in
  let st' := App.handleRegisterSuccess clk newUser st in
  ((forall u, In u users -> App.username u <> code) ->
     App.registeredUsers st' = users ++ [App.userWithDefaults clk newUser])
  /\ (code = App.username newUser ->
        App.registeredUsers st' = users ++ [App.userWithDefaults clk newUser])
  /\ (forall u, In u users ->
        Js.toLowerCase (App.username u) = Js.toLowerCase code ->
        RegisterForm.exists_ users code = true).
Proof.
  intros Hcode users st'. subst users st'.
  split; [| split].
  - intros Hnone. apply handleRegisterSuccess_no_credit. rewrite Hcode. auto.
  - intros Hself. apply handleRegisterSuccess_no_credit. rewrite Hcode. auto.
  - intros u Hu Hlow. unfold RegisterForm.exists_. apply existsb_exists.
    exists u. split; [exact Hu |]. rewrite Hlow. apply String.eqb_refl.
Qed.

(** "alice" is registered and the link carries [?ref=Alice]. *)
Lemma referral_lookup_case_sensitive_witness :
  let alice := Sample.mkUser "alice" (Some (Sample.mkStats 80 3 180 250 Sample.today)) in
  let st :=
    {| App.registeredUsers := [alice]; App.currentUser := None;
       App.referralCode := Some "Alice"; App.currentView := App.register |} in
  App.registeredUsers (App.handleRegisterSuccess Sample.clock (Sample.mkUser "bob" None) st)
  = [alice; App.userWithDefaults Sample.clock (Sample.mkUser "bob" None)]
  /\ RegisterForm.exists_ [alice] "Alice" = true.
Proof.
  intros alice st.
  pose proof (referral_lookup_case_sensitive Sample.clock (Sample.mkUser "bob" None) st
                "Alice" eq_refl) as (Hnone & _ & Hdup).
  split.
  - apply Hnone. intros u [<- | []]. discriminate.
  - apply (Hdup alice); [left; reflexivity | reflexivity].
Defined.

(** ** One-time passcodes *)

Lemma login_handle_preserves (users : list App.UserData) (e : LoginForm.Event)
    (st : LoginForm.State) :
  LoginForm.otp_step_has_user st -> LoginForm.otp_step_has_user (LoginForm.handle users e st).
Proof.
  unfold LoginForm.otp_step_has_user. intros Hinv.
  destruct e; cbn [LoginForm.handle];
    unfold LoginForm.handleChange, LoginForm.handleOtpChange,
      LoginForm.handleCredentialsSubmit, LoginForm.handleForgotRequestSubmit,
      LoginForm.handleForgotVerifySubmit, LoginForm.handlePasswordResetSubmit,
      LoginForm.handleOtpSubmit, LoginForm.handleResendOtp, LoginForm.handleCancel,
      LoginForm.handleBackToLogin, LoginForm.handleForgotClick;
    repeat case_match; cbn; try exact Hinv; try discriminate.
Qed.

Lemma login_reachable_inv (st : LoginForm.State) :
  LoginForm.reachable st -> LoginForm.otp_step_has_user st.
Proof.
  induction 1 as [| users e st _ IH].
  - intros H. discriminate H.
  - apply login_handle_preserves, IH.
Qed.

Lemma login_run_reachable (users : list App.UserData) (es : list LoginForm.Event)
    (st : LoginForm.State) :
  LoginForm.reachable st -> LoginForm.reachable (LoginForm.run users es st).
Proof.
  revert st. induction es as [| e es IH]; intros st Hst; cbn; [exact Hst |].
  apply IH. constructor. exact Hst.
Qed.

Lemma register_submit_step (st : RegisterForm.State) :
  RegisterForm.step (RegisterForm.handleOtpSubmit st)
  = if String.eqb (RegisterForm.enteredOtp st) (RegisterForm.generatedOtp st)
    then RegisterForm.StepConfirmation else RegisterForm.step st.
Proof.
  unfold RegisterForm.handleOtpSubmit.
  change (RegisterForm.enteredOtp (RegisterForm.setIsLoading true st))
    with (RegisterForm.enteredOtp st).
  change (RegisterForm.generatedOtp (RegisterForm.setIsLoading true st))
    with (RegisterForm.generatedOtp st).
  destruct (String.eqb (RegisterForm.enteredOtp st) (RegisterForm.generatedOtp st));
    reflexivity.
Qed.

Lemma register_submit_iff (st : RegisterForm.State) :
  RegisterForm.step st = RegisterForm.StepOtp ->
  RegisterForm.step (RegisterForm.handleOtpSubmit st) = RegisterForm.StepConfirmation
  <-> RegisterForm.enteredOtp st = RegisterForm.generatedOtp st.
Proof.
  intros Hstep. rewrite register_submit_step, Hstep.
  destruct (String.eqb_spec (RegisterForm.enteredOtp st) (RegisterForm.generatedOtp st)).
  - split; intros _; [assumption | reflexivity].
  - split; [discriminate | contradiction].
Qed.

Lemma login_submit_call (st : LoginForm.State) :
  snd (LoginForm.handleOtpSubmit st)
  = if String.eqb (LoginForm.enteredOtp st) (LoginForm.generatedOtp st)
    then LoginForm.matchedUser st else None.
Proof.
  unfold LoginForm.handleOtpSubmit.
  change (LoginForm.enteredOtp (LoginForm.setError "" (LoginForm.setIsLoading true st)))
    with (LoginForm.enteredOtp st).
  change (LoginForm.generatedOtp (LoginForm.setError "" (LoginForm.setIsLoading true st)))
    with (LoginForm.generatedOtp st).
  change (LoginForm.matchedUser (LoginForm.setError "" (LoginForm.setIsLoading true st)))
    with (LoginForm.matchedUser st).
  destruct (String.eqb (LoginForm.enteredOtp st) (LoginForm.generatedOtp st));
    [destruct (LoginForm.matchedUser st) |]; reflexivity.
Qed.

Lemma login_submit_iff (st : LoginForm.State) :
  LoginForm.matchedUser st <> None ->
  snd (LoginForm.handleOtpSubmit st) <> None
  <-> LoginForm.enteredOtp st = LoginForm.generatedOtp st.
Proof.
  intros Huser. rewrite login_submit_call.
  destruct (String.eqb_spec (LoginForm.enteredOtp st) (LoginForm.generatedOtp st)).
  - split; intros _; assumption.
  - split; intros H; contradiction.
Qed.

(** C6 (as amended). On the passcode step of the registration form and, in
    every state the login form can reach, of the login form, verification
    succeeds exactly when the digits entered, joined,
    equal the code generated last. A resend stores the code it is given and
    leaves the step and the digits alone; so after a resend the code that was
    in force before is refused whenever the new code differs from it (the
    generator is not told the old code, and nothing prevents it from
    returning the same digits again). *)
Theorem otp_verifies_latest_code :
  (forall st : RegisterForm.State,
      RegisterForm.step st = RegisterForm.StepOtp ->
      (RegisterForm.step (RegisterForm.handleOtpSubmit st) = RegisterForm.StepConfirmation
       <-> RegisterForm.enteredOtp st = RegisterForm.generatedOtp st)
      /\ forall (otpCode : string) (message : option string),
           let st1 := RegisterForm.handleResendOtp otpCode message st in
           RegisterForm.step st1 = RegisterForm.StepOtp
           /\ RegisterForm.generatedOtp st1 = otpCode
           /\ RegisterForm.enteredOtp st1 = RegisterForm.enteredOtp st
           /\ (RegisterForm.enteredOtp st = RegisterForm.generatedOtp st ->
               otpCode <> RegisterForm.generatedOtp st ->
               RegisterForm.step (RegisterForm.handleOtpSubmit st1)
               <> RegisterForm.StepConfirmation))
  /\ (forall st : LoginForm.State,
        LoginForm.reachable st ->
        LoginForm.step st = LoginForm.StepOtp ->
        (snd (LoginForm.handleOtpSubmit st) <> None
         <-> LoginForm.enteredOtp st = LoginForm.generatedOtp st)
        /\ forall (otpCode : string) (message : option string),
             let st1 := LoginForm.handleResendOtp otpCode message st in
             LoginForm.step st1 = LoginForm.StepOtp
             /\ LoginForm.generatedOtp st1 = otpCode
             /\ LoginForm.enteredOtp st1 = LoginForm.enteredOtp st
             /\ (LoginForm.enteredOtp st = LoginForm.generatedOtp st ->
                 otpCode <> LoginForm.generatedOtp st ->
                 snd (LoginForm.handleOtpSubmit st1) = None)).
Proof.
  split.
  - intros st Hstep. split; [apply register_submit_iff, Hstep |].
    intros otpCode message st1.
    assert (Hstep1 : RegisterForm.step st1 = RegisterForm.StepOtp) by exact Hstep.
    repeat split; try assumption.
    intros Hold Hnew Hok. apply (register_submit_iff st1 Hstep1) in Hok.
    apply Hnew. rewrite <- Hold. symmetry. exact Hok.
  - intros st Hreach Hstep.
    assert (Huser : LoginForm.matchedUser st <> None)
      by (apply (login_reachable_inv st Hreach), Hstep).
    split; [apply login_submit_iff, Huser |].
    intros otpCode message st1.
    repeat split; try assumption.
    intros Hold Hnew.
    destruct (snd (LoginForm.handleOtpSubmit st1)) as [u |] eqn:Hres; [| reflexivity].
    exfalso. apply Hnew. rewrite <- Hold.
    assert (Hok : snd (LoginForm.handleOtpSubmit st1) <> None) by (rewrite Hres; discriminate).
    apply (login_submit_iff st1 Huser) in Hok. symmetry. exact Hok.
Qed.

Lemma otp_verifies_latest_code_witness :
  RegisterForm.step (RegisterForm.handleOtpSubmit Sample.awaitingOtp)
  = RegisterForm.StepConfirmation
  /\ snd (LoginForm.handleOtpSubmit
            (LoginForm.handleResendOtp "90417" None
               (LoginForm.run Sample.loginUsers Sample.loginEvents LoginForm.initial)))
     = None.
Proof.
  split.
  - refine (proj2 (proj1 (proj1 otp_verifies_latest_code Sample.awaitingOtp _)) _);
      reflexivity.
  - refine (proj2 (proj2 (proj2 (proj2
              (proj2 otp_verifies_latest_code
                 (LoginForm.run Sample.loginUsers Sample.loginEvents LoginForm.initial) _ _)
              "90417" None))) _ _).
    + apply login_run_reachable. constructor.
    + reflexivity.
    + reflexivity.
    + discriminate.
Defined.

(** C6 as stated fails in its second half: when the provider answers a resend
    with the digits it gave before, the code that was in force before the
    resend still verifies, on both forms. *)
Lemma resend_same_code_still_verifies :
  RegisterForm.step Sample.awaitingOtp = RegisterForm.StepOtp
  /\ RegisterForm.enteredOtp Sample.awaitingOtp = RegisterForm.generatedOtp Sample.awaitingOtp
  /\ RegisterForm.step
       (RegisterForm.handleOtpSubmit
          (RegisterForm.handleResendOtp
             (RegisterForm.generatedOtp Sample.awaitingOtp) None Sample.awaitingOtp))
     = RegisterForm.StepConfirmation
  /\ snd (LoginForm.handleOtpSubmit
            (LoginForm.handleResendOtp "48213" None
               (LoginForm.run Sample.loginUsers Sample.loginEvents LoginForm.initial)))
     = Some (Sample.mkUser "alice" None).
Proof. repeat split. Qed.

(** ** The duplicate-account check *)

(** When the trimmed name in the form matches a registered username up to
    letter case, [handleDetailsSubmit] reports the duplicate and stays on the
    details step, whatever the provider would have answered. *)
Lemma handleDetailsSubmit_duplicate
    (users : list App.UserData) (otpCode : string) (message : option string)
    (st : RegisterForm.State) :
  RegisterForm.exists_ users (Js.trim (RegisterForm.username (RegisterForm.formData st)))
  = true ->
  let st' := RegisterForm.handleDetailsSubmit users otpCode message st in
  RegisterForm.errors st' = {[ "username" := "Account already exists." ]}
  /\ RegisterForm.step st' = RegisterForm.step st
  /\ RegisterForm.isLoading st' = false
  /\ RegisterForm.generatedOtp st' = RegisterForm.generatedOtp st.
Proof.
  intros Hdup st'. subst st'. unfold RegisterForm.handleDetailsSubmit.
  change (RegisterForm.formData
            (RegisterForm.setNotification None
               (RegisterForm.setIsLoading true (RegisterForm.setErrors ∅ st))))
    with (RegisterForm.formData st).
  rewrite Hdup. repeat split.
Qed.

(** Such an attempt never reaches [handleRegisterSuccess]: the collection and
    the session are what they were. *)
Lemma attempt_duplicate_trimmed_rejected
    (clk : App.Clock) (data : RegisterForm.FormData) (otpCode : string)
    (message : option string) (digits : list string) (a : App.State) :
  RegisterForm.exists_ (App.registeredUsers a) (Js.trim (RegisterForm.username data)) = true ->
  let s := Site.attempt clk data otpCode message digits a in
  App.registeredUsers (Site.app s) = App.registeredUsers a
  /\ App.currentUser (Site.app s) = App.currentUser a
  /\ RegisterForm.errors (Site.form s) = {[ "username" := "Account already exists." ]}
  /\ RegisterForm.step (Site.form s) = RegisterForm.StepDetails.
Proof.
  intros Hdup s. subst s. unfold Site.attempt.
  set (s0 := Site.fill data (Site.openRegister a)).
  pose proof (handleDetailsSubmit_duplicate (App.registeredUsers a) otpCode message
                (Site.form s0) Hdup) as (Herr & Hstep & _).
  assert (Hs1 : RegisterForm.step (Site.form (Site.submitDetails otpCode message s0))
                = RegisterForm.StepDetails) by exact Hstep.
  unfold Site.typeOtp. rewrite Hs1.
  unfold Site.submitOtp. rewrite Hs1.
  unfold Site.confirm. rewrite Hs1.
  repeat split; try assumption.
Qed.

(** C7, evaluated where it breaks. The form checks the trimmed name but hands
    the name as typed to [handleRegisterSuccess]. A visitor who registers as
    " bob" (leading space) is stored under " bob"; a second attempt with the
    very same name is compared as "bob", matches nothing, raises no
    duplicate error, and a second " bob" record is appended. *)
Theorem padded_duplicate_is_registered_twice :
  let first :=
    Site.attempt Sample.clock Sample.paddedBob "48213" None Sample.digits Sample.emptyApp in
  let a1 := App.handleLogout (Site.app first) in
  let second := Site.attempt Sample.clock Sample.paddedBob "48213" None Sample.digits a1 in
  map App.username (App.registeredUsers a1) = [" bob"]
  /\ existsb
       (fun u => String.eqb (Js.toLowerCase (App.username u))
                   (Js.toLowerCase (RegisterForm.username Sample.paddedBob)))
       (App.registeredUsers a1) = true
  /\ RegisterForm.errors
       (RegisterForm.handleDetailsSubmit (App.registeredUsers a1) "48213" None
          (RegisterForm.setFormData Sample.paddedBob RegisterForm.initial))
     !! "username" = None
  /\ map App.username (App.registeredUsers (Site.app second)) = [" bob"; " bob"].
Proof. vm_compute. repeat split. Qed.

(** * Further properties of the handlers *)

(** ** Password reset and the credentials check *)




Lemma differs_false (a : option string) (b : string) :
  Js.differs a b = false -> a = Some b.
Proof.
  destruct a as [v |]; cbn; [| discriminate].
  destruct (String.eqb_spec v b) as [-> | _]; [reflexivity | discriminate].
Qed.

Lemma differs_same (b : string) : Js.differs (Some b) b = false.
Proof. cbn. rewrite String.eqb_refl. reflexivity. Qed.



(** X1. [handlePasswordReset] rewrites the password of every record whose
    username equals the given name up to the case of the letters A-Z, and
    nothing but passwords: the collection keeps its length and order, every
    record keeps its username, stats, history, profile, settings and payment
    code, and the session is not touched. Where the given name and a
    record's username are both ASCII and differ by more than letter case,
    the record is returned as it is. *)
Theorem handlePasswordReset_frame (name newPass : string) (st : App.State) :
  let st' := App.handlePasswordReset name newPass st in
  length (App.registeredUsers st') = length (App.registeredUsers st)
  /\ App.currentUser st' = App.currentUser st
  /\ App.currentView st' = App.currentView st
  /\ forall (i : nat) (u : App.UserData),
       App.registeredUsers st !! i = Some u ->
       exists u',
         App.registeredUsers st' !! i = Some u'
         /\ App.username u' = App.username u
         /\ App.stats u' = App.stats u
         /\ App.earningsHistory u' = App.earningsHistory u
         /\ App.profile u' = App.profile u
         /\ App.settings u' = App.settings u
         /\ App.mpesaCode u' = App.mpesaCode u
         /\ (Js.toLowerCase (App.username u) = Js.toLowerCase name ->
             App.password u' = Some newPass)
         /\ (Js.is_ascii name = true -> Js.is_ascii (App.username u) = true ->
             Js.toLowerCase (App.username u) <> Js.toLowerCase name -> u' = u).
Proof.
  intros st'. subst st'. unfold App.handlePasswordReset. cbn.
  split; [apply length_map |]. split; [reflexivity |]. split; [reflexivity |].
  intros i u Hi. rewrite lookup_map_pointwise, Hi. cbn.
  destruct (String.eqb_spec (Js.toLowerCase (App.username u)) (Js.toLowerCase name))
    as [E | NE].
  - exists (App.withPassword newPass u).
    do 7 (split; [reflexivity |]).
    split; [intros H; reflexivity | intros _ _ H; contradiction].
  - exists u.
    do 7 (split; [reflexivity |]).
    split; [intros H; contradiction | intros _ _ H; reflexivity].
Qed.

Lemma handlePasswordReset_frame_witness :
  (exists u',
      App.registeredUsers (App.handlePasswordReset "ALICE" "N3wPassword" Demo.aliceApp)
        !! 0%nat = Some u'
      /\ App.password u' = Some "N3wPassword"
      /\ App.stats u' = App.stats Demo.alice)
  /\ App.registeredUsers (App.handlePasswordReset "ALICE" "N3wPassword" Demo.aliceApp)
       !! 1%nat = Some (Sample.mkUser "bob" None).
Proof.
  split.
  - destruct (proj2 (proj2 (proj2
                (handlePasswordReset_frame "ALICE" "N3wPassword" Demo.aliceApp)))
                0%nat Demo.alice eq_refl)
      as (u' & Hi & _ & Hstats & _ & _ & _ & _ & Hpw & _).
    exists u'. split; [exact Hi |]. split; [apply Hpw; reflexivity | exact Hstats].
  - destruct (proj2 (proj2 (proj2
                (handlePasswordReset_frame "ALICE" "N3wPassword" Demo.aliceApp)))
                1%nat (Sample.mkUser "bob" None) eq_refl)
      as (u' & Hi & _ & _ & _ & _ & _ & _ & _ & Hsame).
    rewrite Hi. f_equal. apply Hsame; [reflexivity | reflexivity |].
    vm_compute. discriminate.
Defined.



(** ** Registration, step by step *)

Lemma validatePassword_None (pwd : string) :
  RegisterForm.validatePassword pwd = None
  <-> 8 <= Js.length pwd
      /\ Js.includes_char "_" pwd = false
      /\ Js.some_char Js.is_upper pwd = true
      /\ Js.some_char Js.is_lower pwd = true.
Proof.
  unfold RegisterForm.validatePassword.
  destruct (Z.ltb_spec (Js.length pwd) 8);
    destruct (Js.includes_char "_" pwd);
    destruct (Js.some_char Js.is_upper pwd);
    destruct (Js.some_char Js.is_lower pwd); cbn;
    (split; [intros Hv | intros (Hlen & Hu & Hup & Hlo)]);
    try discriminate; try reflexivity; try lia;
    repeat split; (lia || reflexivity).
Qed.

Lemma is_alnum10_truthy (s : string) : Js.is_alnum10 s = true -> Js.truthy s = true.
Proof.
  unfold Js.is_alnum10, Js.truthy, Js.length. intros H.
  apply andb_true_iff in H. destruct H as [Hlen _]. apply Z.eqb_eq in Hlen.
  destruct s; [discriminate Hlen | reflexivity].
Qed.

(** Whether the details pass the three checks of [handleDetailsSubmit]. *)
Lemma handleDetailsSubmit_cases
    (users : list App.UserData) (otpCode : string) (message : option string)
    (st : RegisterForm.State) :
  let st' := RegisterForm.handleDetailsSubmit users otpCode message st in
  let fd := RegisterForm.formData st in
  RegisterForm.formData st' = fd
  /\ RegisterForm.otp st' = RegisterForm.otp st
  /\ RegisterForm.isLoading st' = false
  /\ ((RegisterForm.exists_ users (Js.trim (RegisterForm.username fd)) = false
       /\ RegisterForm.validatePassword (RegisterForm.password fd) = None
       /\ Js.is_alnum10 (RegisterForm.mpesaCode fd) = true
       /\ RegisterForm.step st' = RegisterForm.StepOtp
       /\ RegisterForm.generatedOtp st' = otpCode
       /\ RegisterForm.errors st' = ∅)
      \/ (~ (RegisterForm.exists_ users (Js.trim (RegisterForm.username fd)) = false
             /\ RegisterForm.validatePassword (RegisterForm.password fd) = None
             /\ Js.is_alnum10 (RegisterForm.mpesaCode fd) = true)
          /\ RegisterForm.step st' = RegisterForm.step st
          /\ RegisterForm.generatedOtp st' = RegisterForm.generatedOtp st
          /\ size (RegisterForm.errors st') = 1%nat)).
Proof.
  intros st' fd. subst st'. unfold RegisterForm.handleDetailsSubmit.
  change (RegisterForm.formData
            (RegisterForm.setNotification None
               (RegisterForm.setIsLoading true (RegisterForm.setErrors ∅ st))))
    with fd.
  destruct (RegisterForm.exists_ users (Js.trim (RegisterForm.username fd))) eqn:Hdup.
  { repeat (split; [reflexivity |]). right.
    split; [intros (H & _); discriminate H |].
    repeat (split; [reflexivity |]). apply map_size_singleton. }
  destruct (RegisterForm.validatePassword (RegisterForm.password fd)) as [err |] eqn:Hpw.
  { repeat (split; [reflexivity |]). right.
    split; [intros (_ & H & _); discriminate H |].
    repeat (split; [reflexivity |]). apply map_size_singleton. }
  destruct (Js.is_alnum10 (RegisterForm.mpesaCode fd)) eqn:Hcode.
  - rewrite (is_alnum10_truthy _ Hcode). cbn [negb orb].
    repeat (split; [reflexivity |]). left. repeat split.
  - rewrite orb_true_r.
    repeat (split; [reflexivity |]). right.
    split; [intros (_ & _ & H); discriminate H |].
    repeat (split; [reflexivity |]). apply map_size_singleton.
Qed.

(** X5. For a name and a password typed in ASCII and registered usernames
    in ASCII: from the details step, [handleDetailsSubmit] moves to the
    passcode step exactly when the trimmed name matches no registered
    username up to letter case, the password has at least 8 characters, no
    underscore, an upper-case and a lower-case letter, and the transaction
    code is exactly ten letters or digits; it then stores the provider's
    code and shows no error. In every other case it stays on the details
    step, keeps the code it had, and reports exactly one error. The typed
    data and the digit boxes are never changed, and the form is never left
    loading. *)
Theorem handleDetailsSubmit_accepts_iff
    (users : list App.UserData) (otpCode : string) (message : option string)
    (st : RegisterForm.State) :
  RegisterForm.step st = RegisterForm.StepDetails ->
  Js.is_ascii (RegisterForm.username (RegisterForm.formData st)) = true ->
  Js.is_ascii (RegisterForm.password (RegisterForm.formData st)) = true ->
  Forall (fun u => Js.is_ascii (App.username u) = true) users ->
  let st' := RegisterForm.handleDetailsSubmit users otpCode message st in
  let fd := RegisterForm.formData st in
  (RegisterForm.step st' = RegisterForm.StepOtp
   <-> RegisterForm.exists_ users (Js.trim (RegisterForm.username fd)) = false
       /\ 8 <= Js.length (RegisterForm.password fd)
       /\ Js.includes_char "_" (RegisterForm.password fd) = false
       /\ Js.some_char Js.is_upper (RegisterForm.password fd) = true
       /\ Js.some_char Js.is_lower (RegisterForm.password fd) = true
       /\ Js.is_alnum10 (RegisterForm.mpesaCode fd) = true)
  /\ (RegisterForm.step st' = RegisterForm.StepOtp ->
      RegisterForm.generatedOtp st' = otpCode /\ RegisterForm.errors st' = ∅)
  /\ (RegisterForm.step st' <> RegisterForm.StepOtp ->
      RegisterForm.step st' = RegisterForm.StepDetails
      /\ RegisterForm.generatedOtp st' = RegisterForm.generatedOtp st
      /\ size (RegisterForm.errors st') = 1%nat)
  /\ RegisterForm.formData st' = fd
  /\ RegisterForm.otp st' = RegisterForm.otp st
  /\ RegisterForm.isLoading st' = false.
Proof.
  intros Hstep _ _ _ st' fd.
  destruct (handleDetailsSubmit_cases users otpCode message st)
    as (Hfd & Hotp & Hload & Hcase).
  fold st' fd in Hfd, Hotp, Hload, Hcase.
  destruct Hcase as [(H1 & H2 & H3 & H4 & H5 & H6) | (Hnot & H4 & H5 & H6)].
  - split; [| split; [| split; [| repeat split; assumption]]].
    + split; [intros _ | intros _; exact H4].
      apply validatePassword_None in H2. tauto.
    + intros _. split; assumption.
    + intros H. contradiction.
  - assert (Hstay : RegisterForm.step st' <> RegisterForm.StepOtp)
      by (rewrite H4, Hstep; discriminate).
    split; [| split; [| split; [| repeat split; assumption]]].
    + split; [intros H; contradiction |].
      intros (A & B & C & D & E & F). exfalso. apply Hnot.
      split; [exact A |]. split; [apply validatePassword_None; tauto | exact F].
    + intros H. contradiction.
    + intros _. rewrite H4. repeat split; assumption.
Qed.

Lemma handleDetailsSubmit_accepts_iff_witness :
  RegisterForm.step
    (RegisterForm.handleDetailsSubmit [Demo.alice] "48213" None
       (RegisterForm.setFormData Demo.carol RegisterForm.initial))
  = RegisterForm.StepOtp.
Proof.
  refine (proj2 (proj1
            (handleDetailsSubmit_accepts_iff [Demo.alice] "48213" None
               (RegisterForm.setFormData Demo.carol RegisterForm.initial) _ _ _ _)) _).
  - reflexivity.
  - reflexivity.
  - reflexivity.
  - repeat constructor.
  - vm_compute. repeat split; discriminate.
Defined.

Lemma typeDigits_frame (ds : list string) (i : nat) (f : RegisterForm.State) :
  Site.typeDigits i ds f = RegisterForm.setOtp (RegisterForm.otp (Site.typeDigits i ds f)) f.
Proof.
  revert i f. induction ds as [| d ds IH]; intros i f; cbn.
  - destruct f; reflexivity.
  - rewrite IH. unfold RegisterForm.handleOtpChange.
    destruct (negb _); reflexivity.
Qed.

Lemma typeDigits_otp_ext (ds : list string) (i : nat) (f g : RegisterForm.State) :
  RegisterForm.otp f = RegisterForm.otp g ->
  RegisterForm.otp (Site.typeDigits i ds f) = RegisterForm.otp (Site.typeDigits i ds g).
Proof.
  revert i f g. induction ds as [| d ds IH]; intros i f g Hfg; cbn; [exact Hfg |].
  apply IH. unfold RegisterForm.handleOtpChange.
  destruct (negb _); cbn; [exact Hfg | rewrite Hfg; reflexivity].
Qed.

Lemma typeDigits_digits (ds : list string) (i : nat) (f : RegisterForm.State) :
  Forall (fun d => Js.every_char Js.is_digit d = true) ds ->
  (i + length ds <= length (RegisterForm.otp f))%nat ->
  RegisterForm.otp (Site.typeDigits i ds f)
  = take i (RegisterForm.otp f) ++ ds ++ drop (i + length ds) (RegisterForm.otp f).
Proof.
  revert i f. induction ds as [| d ds IH]; intros i f Hall Hlen; cbn.
  - rewrite Nat.add_0_r, take_drop. reflexivity.
  - inversion Hall as [| ? ? Hd Hds]; subst. cbn in Hlen.
    unfold RegisterForm.handleOtpChange. rewrite Hd. cbn [negb].
    rewrite IH; [| exact Hds | cbn; rewrite length_insert; lia]. cbn.
    assert (Hi : (i < length (RegisterForm.otp f))%nat) by lia.
    destruct (lookup_lt_is_Some_2 _ _ Hi) as [x Hx].
    rewrite (take_S_r _ _ d) by (apply list_lookup_insert_eq; exact Hi).
    rewrite take_insert_ge by lia.
    rewrite drop_insert_lt by lia.
    rewrite <- app_assoc. cbn. rewrite Nat.add_succ_r. reflexivity.
Qed.

Lemma map_username_insert (l : list App.UserData) (i : nat) (x u : App.UserData) :
  l !! i = Some u -> App.username x = App.username u ->
  map App.username (<[i := x]> l) = map App.username l.
Proof.
  revert i. induction l as [| a l IH]; intros [| i] Hi Hx; cbn in *; try discriminate.
  - injection Hi as ->. rewrite Hx. reflexivity.
  - f_equal. apply IH; assumption.
Qed.

(** What [handleRegisterSuccess] does to the collection in every case: the
    new record is appended, and the records already there keep their places
    and usernames (at most one of them is rewritten, by the referral credit). *)
Lemma handleRegisterSuccess_shape
    (clk : App.Clock) (newUser : App.UserData) (st : App.State) :
  exists users',
    App.registeredUsers (App.handleRegisterSuccess clk newUser st)
    = users' ++ [App.userWithDefaults clk newUser]
    /\ length users' = length (App.registeredUsers st)
    /\ map App.username users' = map App.username (App.registeredUsers st)
    /\ (users' = App.registeredUsers st
        \/ exists i referrer,
             App.registeredUsers st !! i = Some referrer
             /\ users' = <[i := App.creditReferrer clk newUser referrer]>
                           (App.registeredUsers st)).
Proof.
  destruct (App.referralCode st) as [code |] eqn:Hcode.
  2: { exists (App.registeredUsers st).
       rewrite handleRegisterSuccess_no_credit by (rewrite Hcode; exact I). auto. }
  destruct (String.eqb_spec code "") as [-> | Hne].
  { exists (App.registeredUsers st).
    rewrite handleRegisterSuccess_no_credit by (rewrite Hcode; auto). auto. }
  destruct (String.eqb_spec code (App.username newUser)) as [-> | Hself].
  { exists (App.registeredUsers st).
    rewrite handleRegisterSuccess_no_credit by (rewrite Hcode; auto). auto. }
  destruct (Js.findIndex (fun u => String.eqb (App.username u) code) (App.registeredUsers st))
    as [i |] eqn:Hidx.
  - destruct (findIndex_Some _ _ _ Hidx) as (referrer & Hi & Hp & _).
    exists (<[i := App.creditReferrer clk newUser referrer]> (App.registeredUsers st)).
    rewrite (handleRegisterSuccess_credit clk newUser st code i referrer
               Hcode Hne Hself Hidx Hi).
    split; [reflexivity |]. split; [apply length_insert |].
    split; [| right; exists i, referrer; auto].
    apply (map_username_insert _ i _ referrer Hi). reflexivity.
  - exists (App.registeredUsers st).
    rewrite handleRegisterSuccess_no_credit; [auto |].
    rewrite Hcode. right. right. intros u Hu E.
    destruct (findIndex_found (fun u => String.eqb (App.username u) code)
                (App.registeredUsers st) u Hu) as [j Hj];
      [rewrite E; apply String.eqb_refl | congruence].
Qed.

Lemma handleOtpSubmit_formData (f : RegisterForm.State) :
  RegisterForm.formData (RegisterForm.handleOtpSubmit f) = RegisterForm.formData f.
Proof.
  unfold RegisterForm.handleOtpSubmit. destruct (String.eqb _ _); reflexivity.
Qed.

(** The form after the details were submitted and the digits typed, and what
    the rest of an attempt does with it. *)
Lemma attempt_unfold
    (clk : App.Clock) (data : RegisterForm.FormData) (otpCode : string)
    (message : option string) (digits : list string) (a : App.State) :
  let f1 :=
    RegisterForm.handleDetailsSubmit (App.registeredUsers a) otpCode message
      (RegisterForm.setFormData data RegisterForm.initial) in
  let f2 := Site.typeDigits 0 digits f1 in
  Site.attempt clk data otpCode message digits a
  = match RegisterForm.step f1 with
    | RegisterForm.StepOtp =>
        if String.eqb (RegisterForm.enteredOtp f2) (RegisterForm.generatedOtp f1)
        then {| Site.app :=
                  App.handleRegisterSuccess clk
                    (RegisterForm.candidate (RegisterForm.handleOtpSubmit f2))
                    (App.setCurrentView App.register a);
                Site.form := RegisterForm.handleOtpSubmit f2 |}
        else {| Site.app := App.setCurrentView App.register a;
                Site.form := RegisterForm.handleOtpSubmit f2 |}
    | _ => {| Site.app := App.setCurrentView App.register a; Site.form := f1 |}
    end.
Proof.
  intros f1 f2. unfold Site.attempt.
  change (Site.submitDetails otpCode message (Site.fill data (Site.openRegister a)))
    with {| Site.app := App.setCurrentView App.register a; Site.form := f1 |}.
  unfold Site.typeOtp. cbn [Site.form Site.app].
  assert (Hsteps : RegisterForm.step f1 = RegisterForm.StepOtp
                   \/ RegisterForm.step f1 = RegisterForm.StepDetails).
  { destruct (handleDetailsSubmit_cases (App.registeredUsers a) otpCode message
                (RegisterForm.setFormData data RegisterForm.initial))
      as (_ & _ & _ & [(_ & _ & _ & H & _) | (_ & H & _)]); [left | right]; exact H. }
  destruct (RegisterForm.step f1) eqn:Hstep.
  - unfold Site.submitOtp, Site.confirm.
    do 2 (cbn [Site.form Site.app]; rewrite Hstep). reflexivity.
  - fold f2.
    assert (Hstep2 : RegisterForm.step f2 = RegisterForm.StepOtp).
    { subst f2. rewrite typeDigits_frame. exact Hstep. }
    assert (Hgen : RegisterForm.generatedOtp f2 = RegisterForm.generatedOtp f1).
    { subst f2. rewrite typeDigits_frame. reflexivity. }
    unfold Site.submitOtp. cbn [Site.form Site.app]. rewrite Hstep2.
    unfold Site.confirm. cbn [Site.form Site.app].
    rewrite register_submit_step, Hgen, Hstep2.
    destruct (String.eqb _ _); reflexivity.
  - destruct Hsteps; discriminate.
Qed.

(** X6. With the name and the password typed in ASCII and the registered
    usernames in ASCII: a registration attempt, made without editing the
    details after they were submitted, whose trimmed name is not taken, whose
    password and transaction code pass the checks, and in which the five
    digits typed spell the code the provider generated, ends in
    [handleRegisterSuccess] for the name exactly as typed: the collection
    gains exactly one record, at the end, with that username, every earlier
    username stays in place, and the new record, with the registration
    defaults, becomes the session on the dashboard. *)
Theorem attempt_registers
    (clk : App.Clock) (data : RegisterForm.FormData) (otpCode : string)
    (message : option string) (digits : list string) (a : App.State) :
  Js.is_ascii (RegisterForm.username data) = true ->
  Js.is_ascii (RegisterForm.password data) = true ->
  Forall (fun u => Js.is_ascii (App.username u) = true) (App.registeredUsers a) ->
  RegisterForm.exists_ (App.registeredUsers a) (Js.trim (RegisterForm.username data)) = false ->
  RegisterForm.validatePassword (RegisterForm.password data) = None ->
  Js.is_alnum10 (RegisterForm.mpesaCode data) = true ->
  length digits = 5%nat ->
  Forall (fun d => Js.every_char Js.is_digit d = true) digits ->
  Js.join digits = otpCode ->
  let s := Site.attempt clk data otpCode message digits a in
  let newUser :=
    {| App.username := RegisterForm.username data;
       App.password := Some (RegisterForm.password data);
       App.mpesaCode := Some (RegisterForm.mpesaCode data);
       App.profile := None; App.stats := None;
       App.earningsHistory := None; App.settings := None |} in
  let fresh := App.userWithDefaults clk newUser in
  Site.app s = App.handleRegisterSuccess clk newUser (App.setCurrentView App.register a)
  /\ length (App.registeredUsers (Site.app s)) = S (length (App.registeredUsers a))
  /\ map App.username (App.registeredUsers (Site.app s))
     = map App.username (App.registeredUsers a) ++ [RegisterForm.username data]
  /\ App.registeredUsers (Site.app s) !! length (App.registeredUsers a) = Some fresh
  /\ App.currentUser (Site.app s) = Some fresh
  /\ App.stats fresh = Some (App.defaultStats (App.toDateString clk))
  /\ App.currentView (Site.app s) = App.dashboard.
Proof.
  intros _ _ _ Hfree Hpw Hcode Hlen Hdigits Hjoin s newUser fresh.
  subst s. rewrite attempt_unfold. cbn zeta.
  set (f1 := RegisterForm.handleDetailsSubmit (App.registeredUsers a) otpCode message
               (RegisterForm.setFormData data RegisterForm.initial)).
  destruct (handleDetailsSubmit_cases (App.registeredUsers a) otpCode message
              (RegisterForm.setFormData data RegisterForm.initial))
    as (Hfd & Hotp & _ & Hcase).
  fold f1 in Hfd, Hotp, Hcase. cbn in Hfd, Hotp.
  destruct Hcase as [(_ & _ & _ & Hstep & Hgen & _) | (Hnot & _)];
    [| exfalso; apply Hnot; repeat split; assumption].
  rewrite Hstep, Hgen.
  set (f2 := Site.typeDigits 0 digits f1).
  assert (Hentered : RegisterForm.enteredOtp f2 = otpCode).
  { unfold RegisterForm.enteredOtp. subst f2.
    rewrite typeDigits_digits; [| exact Hdigits | rewrite Hotp, Hlen; cbn; lia].
    rewrite Hotp, Hlen. cbn. rewrite app_nil_r. exact Hjoin. }
  rewrite Hentered, String.eqb_refl. cbn [Site.app].
  assert (Hcand : RegisterForm.candidate (RegisterForm.handleOtpSubmit f2) = newUser).
  { unfold RegisterForm.candidate. rewrite handleOtpSubmit_formData.
    subst f2. rewrite typeDigits_frame. cbn [RegisterForm.formData RegisterForm.setOtp].
    rewrite Hfd. reflexivity. }
  rewrite Hcand.
  destruct (handleRegisterSuccess_shape clk newUser (App.setCurrentView App.register a))
    as (users' & Hlist & Hlen' & Hnames & _).
  cbn [App.registeredUsers App.setCurrentView] in Hlen', Hnames.
  split; [reflexivity |]. rewrite Hlist.
  split; [rewrite length_app, Hlen'; cbn; lia |].
  split; [rewrite map_app, Hnames; reflexivity |].
  split; [rewrite lookup_app_r by lia; rewrite Hlen', Nat.sub_diag; reflexivity |].
  split; [apply handleRegisterSuccess_session |].
  split; [reflexivity | apply handleRegisterSuccess_session].
Qed.

Lemma attempt_registers_witness :
  map App.username
    (App.registeredUsers
       (Site.app (Site.attempt Sample.clock Demo.carol "48213" None Sample.digits
                    Demo.aliceApp)))
  = ["alice"; "bob"; "carol@mail.com"].
Proof.
  refine (proj1 (proj2 (proj2
            (attempt_registers Sample.clock Demo.carol "48213" None Sample.digits
               Demo.aliceApp _ _ _ _ _ _ _ _ _)))); try reflexivity;
    repeat constructor.
Defined.

(** ** The dashboard across a day *)

(** X8. The global counter read at mount always carries today's date;
    reading back what was read on the same day changes nothing, and reading
    it back on any other day gives a count of zero. *)
Theorem initGlobalStats_rollover (today : string) (saved : option Dashboard.GlobalStats) :
  let g := Dashboard.initGlobalStats today saved in
  Dashboard.date g = today
  /\ Dashboard.initGlobalStats today (Some g) = g
  /\ forall other : string,
       other <> today ->
       Dashboard.initGlobalStats other (Some g)
       = {| Dashboard.date := other; Dashboard.count := 0 |}.
Proof.
  intros g.
  assert (Hdate : Dashboard.date g = today).
  { subst g. unfold Dashboard.initGlobalStats.
    destruct saved as [p |]; [| reflexivity].
    destruct (String.eqb_spec (Dashboard.date p) today); cbn; [assumption | reflexivity]. }
  split; [exact Hdate |]. split.
  - unfold Dashboard.initGlobalStats at 1. rewrite Hdate, String.eqb_refl. reflexivity.
  - intros other Hother. unfold Dashboard.initGlobalStats at 1. rewrite Hdate.
    rewrite (eqb_false_of_ne today other) by congruence. reflexivity.
Qed.

Lemma initGlobalStats_rollover_witness :
  Dashboard.initGlobalStats Sample.today
    (Some (Dashboard.initGlobalStats Sample.yesterday
             (Some {| Dashboard.date := Sample.yesterday; Dashboard.count := 4200 |})))
  = {| Dashboard.date := Sample.today; Dashboard.count := 0 |}.
Proof.
  refine (proj2 (proj2
            (initGlobalStats_rollover Sample.yesterday
               (Some {| Dashboard.date := Sample.yesterday; Dashboard.count := 4200 |})))
            Sample.today _).
  discriminate.
Defined.

(** Stats that were written today with every daily field present and a
    non-zero limit are read back unchanged. *)
Lemma initStats_settled (today : string) (user : App.UserData) (s : App.UserStats)
    (c e l : Z) :
  App.stats user = Some s ->
  App.lastSurveyDate s = Some today ->
  App.dailyCount s = Some c ->
  App.dailyEarnings s = Some e ->
  App.dailyLimit s = Some l -> l <> 0 ->
  Dashboard.initStats today user = s.
Proof.
  intros Hs Hday Hc He Hl Hl0. unfold Dashboard.initStats.
  rewrite Hs. cbn [Js.obj_or Js.nullish].
  rewrite Hday, differs_same, Hc, He, Hl. cbn [Js.nullish].
  rewrite (num_or_some l 250 Hl0).
  destruct s; cbn in *; congruence.
Qed.

Lemma initStats_fields (today : string) (user : App.UserData) :
  exists c e l : Z,
    App.dailyCount (Dashboard.initStats today user) = Some c
    /\ App.dailyEarnings (Dashboard.initStats today user) = Some e
    /\ App.dailyLimit (Dashboard.initStats today user) = Some l
    /\ l <> 0
    /\ App.lastSurveyDate (Dashboard.initStats today user) = Some today.
Proof.
  unfold Dashboard.initStats. destruct (Js.differs _ today); cbn;
    eexists _, _, _; repeat split; apply num_or_250_nonzero.
Qed.

(** X9. Mounting the dashboard is idempotent within a day: stats produced by
    the initializer, stored, and read again the same day come back
    unchanged. Read on another day, their daily count and earnings are
    zero while the limit and the cumulative fields are kept. *)
Theorem initStats_idempotent (today : string) (user user' : App.UserData) :
  App.stats user' = Some (Dashboard.initStats today user) ->
  Dashboard.initStats today user' = Dashboard.initStats today user
  /\ forall other : string,
       other <> today ->
       let s := Dashboard.initStats today user in
       let s' := Dashboard.initStats other user' in
       App.dailyCount s' = Some 0
       /\ App.dailyEarnings s' = Some 0
       /\ App.lastSurveyDate s' = Some other
       /\ App.dailyLimit s' = App.dailyLimit s
       /\ App.earnings s' = App.earnings s
       /\ App.performance s' = App.performance s
       /\ App.surveysCompleted s' = App.surveysCompleted s.
Proof.
  intros Hs.
  assert (Hday : App.lastSurveyDate (Dashboard.initStats today user) = Some today)
    by (unfold Dashboard.initStats; destruct (Js.differs _ today); reflexivity).
  assert (Hlim : App.dailyLimit (Dashboard.initStats today user)
                 = Some (Js.num_or
                           (App.dailyLimit
                              (Js.obj_or (App.stats user) (App.defaultStats today))) 250))
    by (unfold Dashboard.initStats; destruct (Js.differs _ today); reflexivity).
  split.
  - destruct (initStats_fields today user) as (c & e & l & Hc & He & Hl & Hl0 & _).
    exact (initStats_settled today user' _ c e l Hs Hday Hc He Hl Hl0).
  - intros other Hother s s'. subst s.
    assert (Hs' : s' = Dashboard.initStats other user') by reflexivity.
    unfold Dashboard.initStats in Hs'. rewrite Hs in Hs'. cbn [Js.obj_or Js.nullish] in Hs'.
    rewrite Hday, (differs_true (Some today) other) in Hs' by congruence.
    rewrite Hlim, currentDailyCap_normalised in Hs'. rewrite Hs', Hlim. repeat split.
Qed.

Lemma initStats_idempotent_witness :
  Dashboard.initStats Sample.today
    (Sample.mkUser "alice" (Some (Dashboard.initStats Sample.today Demo.alice)))
  = Dashboard.initStats Sample.today Demo.alice.
Proof.
  refine (proj1 (initStats_idempotent Sample.today Demo.alice
                   (Sample.mkUser "alice" (Some (Dashboard.initStats Sample.today Demo.alice)))
                   _)).
  reflexivity.
Defined.

Lemma reward_history (clk : App.Clock) (r rp re : Q) (st : Dashboard.State) :
  exists entry,
    Dashboard.earningsHistory (snd (fst (Dashboard.handleProcessRewards clk r rp re st)))
    = entry :: Dashboard.earningsHistory st
    /\ App.amount entry = Dashboard.earnedAmount r st.
Proof. eexists. split; reflexivity. Qed.

Lemma reward_frame (clk : App.Clock) (r rp re : Q) (st : Dashboard.State) :
  let st' := snd (fst (Dashboard.handleProcessRewards clk r rp re st)) in
  Dashboard.globalStats st' = Dashboard.globalStats st
  /\ Dashboard.view st' = Dashboard.view st
  /\ Dashboard.isSurveying st' = Dashboard.isSurveying st
  /\ Dashboard.selectedSurvey st' = Dashboard.selectedSurvey st.
Proof. repeat split. Qed.

Lemma cap_after_reward (clk : App.Clock) (r rp re : Q) (st : Dashboard.State) :
  let s' := Dashboard.stats (snd (fst (Dashboard.handleProcessRewards clk r rp re st))) in
  Dashboard.currentDailyCap s' = Dashboard.currentDailyCap (Dashboard.stats st)
  /\ Dashboard.currentDaily s'
     = Dashboard.currentDaily (Dashboard.stats st) + Dashboard.earnedAmount r st
  /\ Dashboard.currentCount s' = Dashboard.currentCount (Dashboard.stats st) + 1.
Proof.
  intros s'. subst s'. rewrite reward_stats.
  split; [| split].
  - unfold Dashboard.currentDailyCap. cbn [App.dailyLimit].
    apply currentDailyCap_normalised.
  - unfold Dashboard.currentDaily at 1. cbn [App.dailyEarnings].
    apply num_or_zero_default.
  - unfold Dashboard.currentCount at 1. cbn [App.dailyCount].
    apply num_or_zero_default.
Qed.

Lemma totalEarned_cons (e : App.EarningEntry) (h : list App.EarningEntry) :
  HistoryView.totalEarned (e :: h) = App.amount e + HistoryView.totalEarned h.
Proof.
  unfold HistoryView.totalEarned. cbn [fold_left].
  assert (Hshift : forall l a,
             fold_left (fun sum item => sum + App.amount item) l a
             = a + fold_left (fun sum item => sum + App.amount item) l 0).
  { induction l as [| x l IH]; intros a; cbn [fold_left]; [lia |].
    rewrite (IH (a + App.amount x)), (IH (0 + App.amount x)). lia. }
  rewrite Hshift. lia.
Qed.

(** X10. Scores only go up and stop at 100: with draws of the unit interval,
    a reward raises performance by at least 2 and eligibility by at least 5
    unless 100 is reached, never takes a score that was at most 100 above
    100, and never lowers the survey-count tier: a user entitled to 7
    surveys a day stays entitled to 7. *)
Theorem reward_scores_bounded
    (clk : App.Clock) (r rp re : Q) (st : Dashboard.State) :
  (0 <= rp)%Q -> (rp < 1)%Q -> (0 <= re)%Q -> (re < 1)%Q ->
  let s := Dashboard.stats st in
  let s' := Dashboard.stats (snd (fst (Dashboard.handleProcessRewards clk r rp re st))) in
  Z.min 100 (App.performance s + 2) <= App.performance s'
    <= Z.min 100 (App.performance s + 9)
  /\ Z.min 100 (App.eligibility s + 5) <= App.eligibility s'
       <= Z.min 100 (App.eligibility s + 16)
  /\ (App.performance s <= 100 -> App.performance s <= App.performance s' <= 100)
  /\ (App.eligibility s <= 100 -> App.eligibility s <= App.eligibility s' <= 100)
  /\ Dashboard.DAILY_LIMIT s <= Dashboard.DAILY_LIMIT s'.
Proof.
  intros Hp0 Hp1 He0 He1 s s'. subst s' s. rewrite reward_stats.
  pose proof (floor_scaled_range rp 8 Hp0 Hp1 ltac:(lia)) as Hp.
  pose proof (floor_scaled_range re 12 He0 He1 ltac:(lia)) as He.
  unfold Dashboard.DAILY_LIMIT, Dashboard.isHighPerformer.
  cbn [App.performance App.eligibility].
  repeat split; try lia.
  repeat match goal with
         | |- context [?a <=? ?b] => destruct (Z.leb_spec a b)
         end; lia.
Qed.

Lemma reward_scores_bounded_witness :
  Dashboard.DAILY_LIMIT (Dashboard.stats Demo.aliceBoard)
  <= Dashboard.DAILY_LIMIT
       (Dashboard.stats
          (snd (fst (Dashboard.handleProcessRewards Sample.clock (1 # 2) (3 # 4) (1 # 4)
                       Demo.aliceBoard)))).
Proof.
  refine (proj2 (proj2 (proj2 (proj2
            (reward_scores_bounded Sample.clock (1 # 2) (3 # 4) (1 # 4) Demo.aliceBoard
               _ _ _ _))))); unfold Qle, Qlt; simpl; lia.
Defined.

(** X11. What a reward writes is what the next mount reads: after
    [handleProcessRewards] hands its record to [handleUpdateUser], the
    session and every registered entry with the session's username carry
    the new stats and history, and a dashboard mounted from that session on
    the same day starts from exactly the stats and the history the handler
    left on screen. *)
Theorem reward_persist_reload
    (clk : App.Clock) (r rp re : Q) (st : Dashboard.State)
    (app : App.State) (cu : App.UserData) :
  App.currentUser app = Some cu ->
  let st' := snd (fst (Dashboard.handleProcessRewards clk r rp re st)) in
  let payload := snd (Dashboard.handleProcessRewards clk r rp re st) in
  let app' := App.handleUpdateUser payload app in
  exists cu',
    App.currentUser app' = Some cu'
    /\ App.username cu' = App.username cu
    /\ App.password cu' = App.password cu
    /\ App.stats cu' = Some (Dashboard.stats st')
    /\ App.earningsHistory cu' = Some (Dashboard.earningsHistory st')
    /\ (forall i u, App.registeredUsers app !! i = Some u ->
          App.username u = App.username cu ->
          App.registeredUsers app' !! i = Some cu')
    /\ forall saved,
         let mounted := Dashboard.initial (App.toDateString clk) saved cu' in
         Dashboard.stats mounted = Dashboard.stats st'
         /\ Dashboard.earningsHistory mounted = Dashboard.earningsHistory st'.
Proof.
  intros Hcu st' payload app'.
  exists (App.merge cu payload).
  assert (Hsession : App.currentUser app' = Some (App.merge cu payload)).
  { subst app'. unfold App.handleUpdateUser. rewrite Hcu. reflexivity. }
  split; [exact Hsession |].
  do 4 (split; [reflexivity |]).
  split.
  - intros i u Hi Hname. subst app'. unfold App.handleUpdateUser. rewrite Hcu.
    cbn [App.registeredUsers App.setRegisteredUsers App.setCurrentUser].
    rewrite lookup_map_pointwise, Hi. cbn. rewrite Hname, String.eqb_refl. reflexivity.
  - intros saved mounted. subst mounted. unfold Dashboard.initial.
    cbn [Dashboard.stats Dashboard.earningsHistory]. split; [| reflexivity].
    subst st'. rewrite reward_stats.
    eapply initStats_settled; try reflexivity.
    apply num_or_250_nonzero.
Qed.

Lemma reward_persist_reload_witness :
  exists cu',
    App.currentUser
      (App.handleUpdateUser
         (snd (Dashboard.handleProcessRewards Sample.clock (1 # 2) (3 # 4) (1 # 4)
                 Demo.aliceBoard))
         Demo.aliceApp) = Some cu'
    /\ App.username cu' = "alice".
Proof.
  destruct (reward_persist_reload Sample.clock (1 # 2) (3 # 4) (1 # 4) Demo.aliceBoard
              Demo.aliceApp Demo.alice eq_refl) as (cu' & H1 & H2 & _).
  exists cu'. split; [exact H1 | exact H2].
Defined.

Lemma initStats_earnings (today : string) (user : App.UserData) :
  App.earnings (Dashboard.initStats today user)
  = match App.stats user with
    | Some s => App.earnings s
    | None => 0
    end.
Proof.
  unfold Dashboard.initStats.
  destruct (Js.differs _ today); destruct (App.stats user); reflexivity.
Qed.

(** X12. The wallet and the history agree, and keep agreeing: when the
    session's cumulative earnings equal the total of its history, the
    dashboard mounted from it shows earnings equal to the history total,
    still does after a reward is processed, and the record the reward
    persists is again one whose earnings equal its history total. *)
Theorem ledger_cycle
    (today : string) (saved : option Dashboard.GlobalStats)
    (clk : App.Clock) (r rp re : Q) (app : App.State) (cu : App.UserData) :
  App.currentUser app = Some cu ->
  HistoryView.balanced cu ->
  let mounted := Dashboard.initial today saved cu in
  let st' := snd (fst (Dashboard.handleProcessRewards clk r rp re mounted)) in
  let app' :=
    App.handleUpdateUser (snd (Dashboard.handleProcessRewards clk r rp re mounted)) app in
  App.earnings (Dashboard.stats mounted)
  = HistoryView.totalEarned (Dashboard.earningsHistory mounted)
  /\ App.earnings (Dashboard.stats st')
     = HistoryView.totalEarned (Dashboard.earningsHistory st')
  /\ HistoryView.totalEarned (Dashboard.earningsHistory st')
     = HistoryView.totalEarned (Dashboard.earningsHistory mounted)
       + fst (fst (Dashboard.handleProcessRewards clk r rp re mounted))
  /\ exists cu', App.currentUser app' = Some cu' /\ HistoryView.balanced cu'.
Proof.
  intros Hcu Hbal mounted st' app'.
  assert (Hm : App.earnings (Dashboard.stats mounted)
               = HistoryView.totalEarned (Dashboard.earningsHistory mounted)).
  { subst mounted. unfold Dashboard.initial. cbn [Dashboard.stats Dashboard.earningsHistory].
    rewrite initStats_earnings. exact Hbal. }
  destruct (reward_history clk r rp re mounted) as (entry & Hh & Hamount).
  fold st' in Hh.
  assert (Htotal : HistoryView.totalEarned (Dashboard.earningsHistory st')
                   = HistoryView.totalEarned (Dashboard.earningsHistory mounted)
                     + Dashboard.earnedAmount r mounted).
  { rewrite Hh, totalEarned_cons, Hamount. lia. }
  assert (Hst' : App.earnings (Dashboard.stats st')
                 = HistoryView.totalEarned (Dashboard.earningsHistory st')).
  { rewrite Htotal. subst st'. rewrite reward_stats. cbn [App.earnings]. lia. }
  split; [exact Hm |]. split; [exact Hst' |]. split; [exact Htotal |].
  exists (App.merge cu (snd (Dashboard.handleProcessRewards clk r rp re mounted))).
  split.
  - subst app'. unfold App.handleUpdateUser. rewrite Hcu. reflexivity.
  - unfold HistoryView.balanced. exact Hst'.
Qed.

Lemma ledger_cycle_witness :
  exists cu',
    App.currentUser
      (App.handleUpdateUser
         (snd (Dashboard.handleProcessRewards Sample.clock (1 # 2) (3 # 4) (1 # 4)
                 (Dashboard.initial Sample.today None (Sample.mkUser "dan" None))))
         {| App.registeredUsers := [Sample.mkUser "dan" None];
            App.currentUser := Some (Sample.mkUser "dan" None);
            App.referralCode := None; App.currentView := App.dashboard |})
    = Some cu'
    /\ HistoryView.balanced cu'.
Proof.
  refine (proj2 (proj2 (proj2
            (ledger_cycle Sample.today None Sample.clock (1 # 2) (3 # 4) (1 # 4)
               {| App.registeredUsers := [Sample.mkUser "dan" None];
                  App.currentUser := Some (Sample.mkUser "dan" None);
                  App.referralCode := None; App.currentView := App.dashboard |}
               (Sample.mkUser "dan" None) _ _)))); reflexivity.
Defined.

Lemma creditReferrer_balanced (clk : App.Clock) (newUser referrer : App.UserData) :
  HistoryView.balanced referrer ->
  HistoryView.balanced (App.creditReferrer clk newUser referrer).
Proof.
  unfold HistoryView.balanced, App.creditReferrer. cbn [App.stats App.earningsHistory].
  cbn [Js.obj_or Js.nullish]. rewrite totalEarned_cons. cbn [App.amount App.referralEntry].
  intros <-. destruct (App.stats referrer); cbn; unfold App.bonus; lia.
Qed.

(** X13. Registration keeps every ledger balanced: if each registered record
    has cumulative earnings equal to the total of its history, so has each
    record after [handleRegisterSuccess], whether or not a referrer was
    credited, the new record included. *)
Theorem handleRegisterSuccess_keeps_ledgers
    (clk : App.Clock) (newUser : App.UserData) (st : App.State) :
  Forall HistoryView.balanced (App.registeredUsers st) ->
  Forall HistoryView.balanced
    (App.registeredUsers (App.handleRegisterSuccess clk newUser st)).
Proof.
  intros Hall.
  destruct (handleRegisterSuccess_shape clk newUser st)
    as (users' & -> & _ & _ & Hcase).
  apply Forall_app. split; [| repeat constructor].
  destruct Hcase as [-> | (i & referrer & Hi & ->)]; [exact Hall |].
  apply Forall_insert; [exact Hall |].
  apply creditReferrer_balanced.
  exact (Forall_lookup_1 _ _ i referrer Hall Hi).
Qed.

Lemma handleRegisterSuccess_keeps_ledgers_witness :
  Forall HistoryView.balanced
    (App.registeredUsers
       (App.handleRegisterSuccess Sample.clock (Sample.mkUser "erin" None)
          {| App.registeredUsers := [Sample.mkUser "dan" None];
             App.currentUser := None;
             App.referralCode := Some "dan"; App.currentView := App.register |})).
Proof.
  apply (handleRegisterSuccess_keeps_ledgers Sample.clock (Sample.mkUser "erin" None)).
  repeat constructor.
Defined.

(** ** Limit upgrades *)

(** X14. The upgrade view only ever asks for a tier it offers: whenever its
    submit makes the call [onUpgrade(t)], [t] is 800 or 1000, is strictly
    above the current cap, and the transaction code typed is ten letters or
    digits. [handleUpgradeLimit t] then makes [t] the cap, returns to the
    home view, leaves the day's earnings and survey count alone, and a user
    whose earnings did not exceed the old cap is no longer stopped by the
    earnings gate. No tier is offered from a cap of 1000 on. *)
Theorem upgrade_raises_cap
    (st : Dashboard.State) (v : LimitUpgradeView.State) (t : Z) :
  snd (LimitUpgradeView.submit (Dashboard.currentDailyCap (Dashboard.stats st)) v) = Some t ->
  let st' := fst (Dashboard.handleUpgradeLimit t st) in
  (t = 800 \/ t = 1000)
  /\ Dashboard.currentDailyCap (Dashboard.stats st) < t
  /\ Js.is_alnum10 (LimitUpgradeView.mpesaCode v) = true
  /\ Dashboard.currentDailyCap (Dashboard.stats st') = t
  /\ Dashboard.currentDaily (Dashboard.stats st') = Dashboard.currentDaily (Dashboard.stats st)
  /\ Dashboard.currentCount (Dashboard.stats st') = Dashboard.currentCount (Dashboard.stats st)
  /\ App.earnings (Dashboard.stats st') = App.earnings (Dashboard.stats st)
  /\ Dashboard.view st' = Dashboard.home
  /\ (Dashboard.currentDaily (Dashboard.stats st)
      <= Dashboard.currentDailyCap (Dashboard.stats st) ->
      forall upgrade survey,
        fst (Dashboard.handleSurveySelect upgrade survey st') <> Dashboard.BlockedEarnings)
  /\ (1000 <= Dashboard.currentDailyCap (Dashboard.stats st') ->
      LimitUpgradeView.options (Dashboard.currentDailyCap (Dashboard.stats st')) = []).
Proof.
  intros Hcall st'.
  unfold LimitUpgradeView.submit in Hcall.
  destruct (LimitUpgradeView.selectedOption _ v) as [o |] eqn:Hsel; [| discriminate Hcall].
  destruct (LimitUpgradeView.isProcessing v); [discriminate Hcall |].
  destruct (LimitUpgradeView.isValidMpesa v) eqn:Hcode; [| discriminate Hcall].
  cbn [orb negb] in Hcall.
  unfold LimitUpgradeView.selectedOption in Hsel.
  unfold LimitUpgradeView.handleUpgradeSubmit in Hcall.
  destruct (LimitUpgradeView.selectedTier v) as [t0 |]; [| discriminate Hsel].
  destruct (Z.eqb_spec t0 0) as [_ | Ht0]; [discriminate Hcall |].
  cbn in Hcall. injection Hcall as ->.
  apply find_some in Hsel. destruct Hsel as [Hin Heq]. apply Z.eqb_eq in Heq.
  destruct (options_spec _ _ Hin) as [Hlt Htier]. rewrite Heq in Hlt, Htier.
  assert (Hcap : Dashboard.currentDailyCap (Dashboard.stats st') = t)
    by (apply num_or_some; exact Ht0).
  split; [exact Htier |]. split; [exact Hlt |]. split; [exact Hcode |].
  split; [exact Hcap |]. do 4 (split; [reflexivity |]).
  split.
  - intros Hle upgrade survey. unfold Dashboard.handleSurveySelect.
    rewrite Hcap.
    change (Dashboard.currentDaily (Dashboard.stats st'))
      with (Dashboard.currentDaily (Dashboard.stats st)).
    destruct (Dashboard.isSurveying st'); [discriminate |].
    destruct (Dashboard.GLOBAL_DAILY_CAP <=? _); [discriminate |].
    destruct (Z.leb_spec t (Dashboard.currentDaily (Dashboard.stats st))); [lia |].
    destruct (Dashboard.DAILY_LIMIT _ <=? _); discriminate.
  - rewrite Hcap. intros Hmax. destruct Htier as [-> | ->]; [lia | reflexivity].
Qed.

Lemma upgrade_raises_cap_witness :
  Dashboard.currentDailyCap
    (Dashboard.stats (fst (Dashboard.handleUpgradeLimit 800 Demo.aliceBoard))) = 800.
Proof.
  refine (proj1 (proj2 (proj2 (proj2
            (upgrade_raises_cap Demo.aliceBoard
               {| LimitUpgradeView.selectedTier := Some 800;
                  LimitUpgradeView.mpesaCode := "QK89ABCDE1";
                  LimitUpgradeView.isProcessing := false |} 800 _))))).
  reflexivity.
Defined.

(** ** The home view and the gates *)

(** X15. From any view but the survey list, the start button opens the
    survey list exactly when the home view is not blocked; and whenever the
    home view is not blocked and no selection is in flight, selecting any
    survey passes all three gates. *)
Theorem home_open_gates_pass (st : Dashboard.State) :
  Dashboard.view st <> Dashboard.survey_list ->
  (Dashboard.view (Dashboard.handleStartClick st) = Dashboard.survey_list
   <-> Dashboard.isBlocked st = false)
  /\ (Dashboard.isBlocked st = false ->
      Dashboard.isSurveying st = false ->
      forall upgrade survey,
        fst (Dashboard.handleSurveySelect upgrade survey st) = Dashboard.Started).
Proof.
  intros Hview. split.
  - unfold Dashboard.handleStartClick, Dashboard.isBlocked.
    destruct (Dashboard.isEarningsLimitReached st);
      destruct (Dashboard.currentDailyCap (Dashboard.stats st) <? 1000);
      destruct (Dashboard.isGlobalLimitReached st);
      destruct (Dashboard.isUserLimitReached st); cbn;
      split; intros H; first [discriminate | reflexivity | contradiction].
  - unfold Dashboard.isBlocked, Dashboard.isGlobalLimitReached, Dashboard.isUserLimitReached,
      Dashboard.isEarningsLimitReached, Dashboard.remainingGlobal, Dashboard.remainingSurveys,
      Dashboard.remainingEarnings, Dashboard.GLOBAL_DAILY_CAP.
    intros Hopen Hidle upgrade survey.
    apply orb_false_iff in Hopen. destruct Hopen as [Hopen He].
    apply orb_false_iff in Hopen. destruct Hopen as [Hg Hu].
    apply Z.eqb_neq in Hg. apply Z.eqb_neq in Hu. apply Z.ltb_ge in He.
    unfold Dashboard.handleSurveySelect, Dashboard.GLOBAL_DAILY_CAP. rewrite Hidle.
    destruct (Z.leb_spec 100000 (Dashboard.count (Dashboard.globalStats st))); [lia |].
    destruct (Z.leb_spec (Dashboard.currentDailyCap (Dashboard.stats st))
                (Dashboard.currentDaily (Dashboard.stats st))); [lia |].
    destruct (Z.leb_spec (Dashboard.DAILY_LIMIT (Dashboard.stats st))
                (Dashboard.currentCount (Dashboard.stats st))); [lia |].
    reflexivity.
Qed.

Lemma home_open_gates_pass_witness :
  fst (Dashboard.handleSurveySelect false Sample.techTrends
         (Sample.board 10 (Sample.mkStats 80 3 180 250 Sample.today)))
  = Dashboard.Started.
Proof.
  refine (proj2 (home_open_gates_pass
                   (Sample.board 10 (Sample.mkStats 80 3 180 250 Sample.today)) _)
            _ _ false Sample.techTrends); try reflexivity.
  discriminate.
Defined.

(** X16. A reward that had to be cut uses up the day: when the day's
    earnings were within the cap and the uncut amount would have passed it,
    the amount paid is exactly what was left, the day's earnings equal the
    cap afterwards, the home view reports the earnings limit, and the next
    selection is stopped by the earnings gate. *)
Theorem clamped_reward_exhausts_day
    (clk : App.Clock) (r rp re : Q) (st : Dashboard.State) :
  let before := Dashboard.currentDaily (Dashboard.stats st) in
  let cap := Dashboard.currentDailyCap (Dashboard.stats st) in
  let base :=
    match Dashboard.selectedSurvey st with
    | Some s => Dashboard.reward s
    | None => 50
    end in
  before <= cap ->
  cap < before + Z.max 10 (base + Dashboard.variance r) ->
  let st' := snd (fst (Dashboard.handleProcessRewards clk r rp re st)) in
  fst (fst (Dashboard.handleProcessRewards clk r rp re st)) = cap - before
  /\ Dashboard.currentDaily (Dashboard.stats st') = Dashboard.currentDailyCap (Dashboard.stats st')
  /\ Dashboard.isEarningsLimitReached st' = true
  /\ (Dashboard.isSurveying st = false ->
      Dashboard.count (Dashboard.globalStats st) < 100000 ->
      forall upgrade survey,
        fst (Dashboard.handleSurveySelect upgrade survey st') = Dashboard.BlockedEarnings).
Proof.
  intros before cap base Hle Hcut st'.
  assert (Hearned : Dashboard.earnedAmount r st = cap - before).
  { unfold Dashboard.earnedAmount. fold base before.
    change (Js.num_or (App.dailyLimit (Dashboard.stats st)) 250) with cap.
    destruct (Z.ltb_spec cap (before + Z.max 10 (base + Dashboard.variance r))); lia. }
  destruct (cap_after_reward clk r rp re st) as (Hcap & Hdaily & _).
  fold st' in Hcap, Hdaily. rewrite Hearned in Hdaily. fold before cap in Hcap, Hdaily.
  assert (Hfull : Dashboard.currentDaily (Dashboard.stats st')
                  = Dashboard.currentDailyCap (Dashboard.stats st')) by lia.
  split; [exact Hearned |]. split; [exact Hfull |]. split.
  - unfold Dashboard.isEarningsLimitReached, Dashboard.remainingEarnings.
    rewrite Hfull. apply Z.ltb_lt. lia.
  - intros Hidle Hglobal upgrade survey.
    unfold Dashboard.handleSurveySelect, Dashboard.GLOBAL_DAILY_CAP.
    change (Dashboard.isSurveying st') with (Dashboard.isSurveying st).
    change (Dashboard.globalStats st') with (Dashboard.globalStats st).
    rewrite Hidle.
    destruct (Z.leb_spec 100000 (Dashboard.count (Dashboard.globalStats st))); [lia |].
    rewrite Hfull, Z.leb_refl. reflexivity.
Qed.

Lemma clamped_reward_exhausts_day_witness :
  fst (fst (Dashboard.handleProcessRewards Sample.clock (99 # 100) (1 # 2) (1 # 2)
              (Sample.board 10 (Sample.mkStats 80 6 200 250 Sample.today))))
  = 250 - 200.
Proof.
  refine (proj1
            (clamped_reward_exhausts_day Sample.clock (99 # 100) (1 # 2) (1 # 2)
               (Sample.board 10 (Sample.mkStats 80 6 200 250 Sample.today)) _ _));
    vm_compute; congruence.
Defined.

(** ** Sequences of dashboard handlers *)

Lemma totalEarned_app (a b : list App.EarningEntry) :
  HistoryView.totalEarned (a ++ b)
  = HistoryView.totalEarned a + HistoryView.totalEarned b.
Proof.
  induction a as [| x a IH].
  - change (HistoryView.totalEarned []) with 0. cbn [app]. lia.
  - change ((x :: a) ++ b) with (x :: (a ++ b)).
    rewrite !totalEarned_cons, IH. lia.
Qed.

(** What one handler call adds to the ledger. *)
Lemma dashboard_step (e : DashboardRun.Event) (st : Dashboard.State) :
  Dashboard.count (Dashboard.globalStats st) <= Dashboard.GLOBAL_DAILY_CAP ->
  let st' := DashboardRun.handle e st in
  Dashboard.count (Dashboard.globalStats st)
    <= Dashboard.count (Dashboard.globalStats st') <= Dashboard.GLOBAL_DAILY_CAP
  /\ Dashboard.date (Dashboard.globalStats st') = Dashboard.date (Dashboard.globalStats st)
  /\ exists added,
       Dashboard.earningsHistory st' = added ++ Dashboard.earningsHistory st
       /\ App.earnings (Dashboard.stats st')
          = App.earnings (Dashboard.stats st) + HistoryView.totalEarned added
       /\ App.surveysCompleted (Dashboard.stats st')
          = App.surveysCompleted (Dashboard.stats st) + Z.of_nat (length added)
       /\ Forall (fun x => 0 <= App.amount x) added.
Proof.
  intros Hcap st'. subst st'.
  assert (Hnil : forall s : Dashboard.State,
             Dashboard.earningsHistory s = Dashboard.earningsHistory st ->
             App.earnings (Dashboard.stats s) = App.earnings (Dashboard.stats st)
             /\ App.surveysCompleted (Dashboard.stats s)
                = App.surveysCompleted (Dashboard.stats st) ->
             exists added,
               Dashboard.earningsHistory s = added ++ Dashboard.earningsHistory st
               /\ App.earnings (Dashboard.stats s)
                  = App.earnings (Dashboard.stats st) + HistoryView.totalEarned added
               /\ App.surveysCompleted (Dashboard.stats s)
                  = App.surveysCompleted (Dashboard.stats st) + Z.of_nat (length added)
               /\ Forall (fun x => 0 <= App.amount x) added).
  { intros s Hh [He Hn]. exists []. rewrite Hh, He, Hn.
    change (HistoryView.totalEarned []) with 0. cbn [app length].
    split; [reflexivity |]. split; [lia |]. split; [lia | constructor]. }
  destruct e as [upgrade survey | generated | clk r rp re | newLimit | | v];
    cbn [DashboardRun.handle].
  - unfold Dashboard.handleSurveySelect.
    destruct (Dashboard.isSurveying st);
      [cbn [snd]; split; [lia |]; split; [reflexivity | apply Hnil; [reflexivity | split; reflexivity]] |].
    destruct (Z.leb_spec Dashboard.GLOBAL_DAILY_CAP (Dashboard.count (Dashboard.globalStats st)));
      [cbn [snd]; split; [lia |]; split; [reflexivity | apply Hnil; [reflexivity | split; reflexivity]] |].
    destruct (Dashboard.currentDailyCap (Dashboard.stats st)
              <=? Dashboard.currentDaily (Dashboard.stats st)).
    { cbn [snd]. destruct upgrade;
        (split; [cbn; lia |]; split; [reflexivity | apply Hnil; [reflexivity | split; reflexivity]]). }
    destruct (Dashboard.DAILY_LIMIT (Dashboard.stats st)
              <=? Dashboard.currentCount (Dashboard.stats st));
      [cbn [snd]; split; [lia |]; split; [reflexivity | apply Hnil; [reflexivity | split; reflexivity]] |].
    cbn [snd]. split; [cbn; lia |]. split; [reflexivity | apply Hnil; [reflexivity | split; reflexivity]].
  - split; [cbn; lia |]. split; [reflexivity | apply Hnil; [reflexivity | split; reflexivity]].
  - split; [cbn; lia |]. split; [reflexivity |].
    destruct (reward_history clk r rp re st) as (entry & Hh & Hamount).
    exists [entry]. rewrite Hh, reward_stats. cbn [App.earnings App.surveysCompleted].
    rewrite totalEarned_cons. change (HistoryView.totalEarned []) with 0.
    rewrite Hamount. cbn [app length].
    split; [reflexivity |]. split; [lia |]. split; [lia |].
    constructor; [| constructor]. rewrite Hamount. apply earnedAmount_bounds.
  - split; [cbn; lia |]. split; [reflexivity | apply Hnil; [reflexivity | split; reflexivity]].
  - unfold Dashboard.handleStartClick.
    destruct (_ && _); [| destruct (Dashboard.isBlocked st)];
      (split; [cbn; lia |]; split; [reflexivity | apply Hnil; [reflexivity | split; reflexivity]]).
  - split; [cbn; lia |]. split; [reflexivity | apply Hnil; [reflexivity | split; reflexivity]].
Qed.

(** X17. However the dashboard's handlers are interleaved (selections, the
    provider's answers, rewards, upgrades, the start button, navigation),
    starting from a global counter within 100,000: the counter never
    decreases, never passes 100,000 and keeps its date; the history is only
    ever extended at the front; cumulative earnings grow by exactly the
    total of the entries added, none of which is negative; and
    [surveysCompleted] grows by exactly the number of entries added. *)
Theorem dashboard_run_ledger (es : list DashboardRun.Event) (st : Dashboard.State) :
  Dashboard.count (Dashboard.globalStats st) <= Dashboard.GLOBAL_DAILY_CAP ->
  let st' := DashboardRun.run es st in
  Dashboard.count (Dashboard.globalStats st)
    <= Dashboard.count (Dashboard.globalStats st') <= Dashboard.GLOBAL_DAILY_CAP
  /\ Dashboard.date (Dashboard.globalStats st') = Dashboard.date (Dashboard.globalStats st)
  /\ exists added,
       Dashboard.earningsHistory st' = added ++ Dashboard.earningsHistory st
       /\ App.earnings (Dashboard.stats st')
          = App.earnings (Dashboard.stats st) + HistoryView.totalEarned added
       /\ App.surveysCompleted (Dashboard.stats st')
          = App.surveysCompleted (Dashboard.stats st) + Z.of_nat (length added)
       /\ Forall (fun x => 0 <= App.amount x) added.
Proof.
  revert st. induction es as [| e es IH]; intros st Hcap; cbn zeta.
  - split; [cbn; lia |]. split; [reflexivity |]. exists [].
    change (HistoryView.totalEarned []) with 0. cbn.
    repeat split; [lia | lia | constructor].
  - change (DashboardRun.run (e :: es) st)
      with (DashboardRun.run es (DashboardRun.handle e st)).
    destruct (dashboard_step e st Hcap) as (Hc & Hd & added0 & Hh0 & He0 & Hn0 & Hp0).
    cbn zeta in Hc, Hd, Hh0, He0, Hn0.
    destruct (IH (DashboardRun.handle e st) ltac:(lia))
      as (Hc1 & Hd1 & added1 & Hh1 & He1 & Hn1 & Hp1).
    cbn zeta in Hc1, Hd1, Hh1, He1, Hn1.
    split; [lia |]. split; [congruence |].
    exists (added1 ++ added0).
    rewrite Hh1, Hh0, He1, He0, Hn1, Hn0, totalEarned_app, length_app, app_assoc.
    repeat split; [lia | lia |].
    apply Forall_app. split; assumption.
Qed.

Lemma dashboard_run_ledger_witness :
  10 <= Dashboard.count
          (Dashboard.globalStats
             (DashboardRun.run
                [ DashboardRun.Select false Sample.techTrends;
                  DashboardRun.Finish None;
                  DashboardRun.Reward Sample.clock (1 # 2) (1 # 2) (1 # 2);
                  DashboardRun.Go Dashboard.home ]
                (Sample.board 10 (Sample.mkStats 80 3 180 250 Sample.today))))
     <= Dashboard.GLOBAL_DAILY_CAP.
Proof.
  refine (proj1
            (dashboard_run_ledger
               [ DashboardRun.Select false Sample.techTrends;
                 DashboardRun.Finish None;
                 DashboardRun.Reward Sample.clock (1 # 2) (1 # 2) (1 # 2);
                 DashboardRun.Go Dashboard.home ]
               (Sample.board 10 (Sample.mkStats 80 3 180 250 Sample.today)) _)).
  vm_compute. discriminate.
Defined.



(** ** The survey being taken *)

Lemma answered_ext (questions : list Dashboard.SurveyQuestion)
    (st st' : ActiveSurveyView.State) (i : nat) :
  ActiveSurveyView.answers st' = ActiveSurveyView.answers st ->
  ActiveSurveyView.answered questions st i ->
  ActiveSurveyView.answered questions st' i.
Proof. unfold ActiveSurveyView.answered. intros ->. exact id. Qed.

Lemma hasAnswered_answered (questions : list Dashboard.SurveyQuestion)
    (st : ActiveSurveyView.State) :
  ActiveSurveyView.hasAnswered questions st = true ->
  ActiveSurveyView.answered questions st (ActiveSurveyView.currentIndex st).
Proof.
  unfold ActiveSurveyView.hasAnswered, ActiveSurveyView.question, ActiveSurveyView.answered.
  destruct (questions !! ActiveSurveyView.currentIndex st) as [q |]; [| discriminate].
  destruct (ActiveSurveyView.answers st !! Dashboard.q_id q) as [a |] eqn:Ha; [| discriminate].
  intros Ht. exists q, a. split; [reflexivity |]. split; [exact Ha |].
  intros ->. discriminate Ht.
Qed.

Lemma q_id_inj (questions : list Dashboard.SurveyQuestion) (i j : nat)
    (qi qj : Dashboard.SurveyQuestion) :
  NoDup (map Dashboard.q_id questions) ->
  questions !! i = Some qi -> questions !! j = Some qj ->
  Dashboard.q_id qi = Dashboard.q_id qj -> i = j.
Proof.
  intros Hnd Hi Hj Heq.
  apply (NoDup_lookup _ i j (Dashboard.q_id qi) Hnd).
  - rewrite lookup_map_pointwise, Hi. reflexivity.
  - rewrite lookup_map_pointwise, Hj, Heq. reflexivity.
Qed.

(** A change that touches the countdown only. *)
Lemma invariant_timer (questions : list Dashboard.SurveyQuestion)
    (st st' : ActiveSurveyView.State) :
  ActiveSurveyView.currentIndex st' = ActiveSurveyView.currentIndex st ->
  ActiveSurveyView.answers st' = ActiveSurveyView.answers st ->
  ActiveSurveyView.isSubmitting st' = ActiveSurveyView.isSubmitting st ->
  ActiveSurveyView.earnedAmount st' = ActiveSurveyView.earnedAmount st ->
  0 <= ActiveSurveyView.timeLeft st' <= 45 ->
  (ActiveSurveyView.isPaused st' = true <-> ActiveSurveyView.timeLeft st' = 0) ->
  ActiveSurveyView.invariant questions st ->
  ActiveSurveyView.invariant questions st'.
Proof.
  intros Hi Ha Hs He Ht Hp (Hidx & _ & _ & Hpast & Hall).
  unfold ActiveSurveyView.invariant, ActiveSurveyView.finished in *.
  rewrite Hi, Hs, He.
  split; [exact Hidx |]. split; [exact Ht |]. split; [exact Hp |].
  split.
  - intros i Hlt. apply (answered_ext questions st st' i Ha), Hpast, Hlt.
  - intros Hdone i Hlt. apply (answered_ext questions st st' i Ha), (Hall Hdone), Hlt.
Qed.

Lemma survey_step_invariant (questions : list Dashboard.SurveyQuestion)
    (e : ActiveSurveyView.Event) (st : ActiveSurveyView.State) :
  NoDup (map Dashboard.q_id questions) ->
  ActiveSurveyView.invariant questions st ->
  ActiveSurveyView.invariant questions (ActiveSurveyView.handle questions e st).
Proof.
  intros Hnd Hinv.
  pose proof Hinv as (Hidx & Htime & Hpause & Hpast & Hall).
  destruct e as [| | option | | amount]; cbn [ActiveSurveyView.handle].
  - (* Tick *)
    unfold ActiveSurveyView.tick.
    destruct (ActiveSurveyView.stopped st) eqn:Hstop; [exact Hinv |].
    destruct (Z.eqb_spec (ActiveSurveyView.timeLeft st) 0) as [| Hnz]; [exact Hinv |].
    cbn [orb]. unfold ActiveSurveyView.timerEffect.
    change (ActiveSurveyView.stopped
              (ActiveSurveyView.setTimeLeft (ActiveSurveyView.timeLeft st - 1) st))
      with (ActiveSurveyView.stopped st).
    rewrite Hstop. cbn [ActiveSurveyView.timeLeft ActiveSurveyView.setTimeLeft].
    assert (Hnp : ActiveSurveyView.isPaused st = false).
    { unfold ActiveSurveyView.stopped in Hstop.
      destruct (ActiveSurveyView.isPaused st); [| reflexivity].
      rewrite orb_true_r in Hstop. discriminate Hstop. }
    destruct (Z.eqb_spec (ActiveSurveyView.timeLeft st - 1) 0) as [Hz | Hz];
      apply (invariant_timer questions st); try reflexivity; try exact Hinv;
      cbn [ActiveSurveyView.timeLeft ActiveSurveyView.isPaused
           ActiveSurveyView.setTimeLeft ActiveSurveyView.setIsPaused]; try lia.
    all: try (split; [intros _; exact Hz | reflexivity]).
    all: rewrite Hnp; split; [discriminate | intros H; contradiction].
  - (* Resume *)
    destruct (_ && _); [| exact Hinv].
    apply (invariant_timer questions st); try reflexivity; try exact Hinv;
      cbn [ActiveSurveyView.handleResume ActiveSurveyView.timeLeft ActiveSurveyView.isPaused
           ActiveSurveyView.setTimeLeft ActiveSurveyView.setIsPaused]; [lia |].
    split; [discriminate | lia].
  - (* Choose *)
    destruct (ActiveSurveyView.answering st) eqn:Hans; [| exact Hinv].
    cbn [andb]. unfold ActiveSurveyView.handleOptionSelect.
    destruct (ActiveSurveyView.question questions st) as [q |] eqn:Hq; [| exact Hinv].
    destruct (existsb _ _); [| exact Hinv].
    unfold ActiveSurveyView.answering in Hans. apply andb_true_iff in Hans.
    destruct Hans as [Hns Hnf]. apply negb_true_iff in Hns, Hnf.
    unfold ActiveSurveyView.invariant.
    cbn [ActiveSurveyView.currentIndex ActiveSurveyView.timeLeft ActiveSurveyView.isPaused
         ActiveSurveyView.isSubmitting ActiveSurveyView.setAnswers].
    change (ActiveSurveyView.finished (ActiveSurveyView.setAnswers _ st))
      with (ActiveSurveyView.finished st).
    split; [exact Hidx |]. split; [exact Htime |]. split; [exact Hpause |].
    split.
    + intros i Hlt. destruct (Hpast i Hlt) as (qi & a & Hqi & Ha & Hne).
      exists qi, a. split; [exact Hqi |]. split; [| exact Hne].
      cbn [ActiveSurveyView.answers ActiveSurveyView.setAnswers].
      rewrite lookup_insert_ne; [exact Ha |].
      intros Heq. unfold ActiveSurveyView.question in Hq.
      pose proof (q_id_inj questions _ _ _ _ Hnd Hq Hqi Heq). lia.
    + rewrite Hns, Hnf. intros [H | H]; discriminate H.
  - (* Next *)
    destruct (ActiveSurveyView.answering st) eqn:Hans; [| exact Hinv].
    destruct (ActiveSurveyView.hasAnswered questions st) eqn:Hhas; [| exact Hinv].
    cbn [andb]. apply hasAnswered_answered in Hhas.
    unfold ActiveSurveyView.answering in Hans. apply andb_true_iff in Hans.
    destruct Hans as [Hns Hnf]. apply negb_true_iff in Hns, Hnf.
    unfold ActiveSurveyView.handleNext.
    destruct (Z.ltb_spec (Z.of_nat (ActiveSurveyView.currentIndex st))
                (Z.of_nat (length questions) - 1)) as [Hmore | Hlast].
    + unfold ActiveSurveyView.invariant.
      cbn [ActiveSurveyView.currentIndex ActiveSurveyView.timeLeft ActiveSurveyView.isPaused
           ActiveSurveyView.isSubmitting ActiveSurveyView.setIsPaused
           ActiveSurveyView.setTimeLeft ActiveSurveyView.setCurrentIndex].
      change (ActiveSurveyView.finished
                (ActiveSurveyView.setIsPaused false
                   (ActiveSurveyView.setTimeLeft 45
                      (ActiveSurveyView.setCurrentIndex
                         (S (ActiveSurveyView.currentIndex st)) st))))
        with (ActiveSurveyView.finished st).
      split; [lia |]. split; [lia |]. split; [split; [discriminate | lia] |].
      split.
      * intros i Hlt.
        destruct (Nat.eq_dec i (ActiveSurveyView.currentIndex st)) as [-> | Hne].
        -- apply (answered_ext questions st); [reflexivity | exact Hhas].
        -- apply (answered_ext questions st); [reflexivity | apply Hpast; lia].
      * rewrite Hns, Hnf. intros [H | H]; discriminate H.
    + unfold ActiveSurveyView.handleSubmit, ActiveSurveyView.invariant.
      cbn [ActiveSurveyView.currentIndex ActiveSurveyView.timeLeft ActiveSurveyView.isPaused
           ActiveSurveyView.isSubmitting ActiveSurveyView.setIsSubmitting].
      split; [exact Hidx |]. split; [exact Htime |]. split; [exact Hpause |].
      split.
      * intros i Hlt. apply (answered_ext questions st); [reflexivity | apply Hpast, Hlt].
      * intros _ i Hlt.
        destruct (Nat.eq_dec i (ActiveSurveyView.currentIndex st)) as [-> | Hne].
        -- apply (answered_ext questions st); [reflexivity | exact Hhas].
        -- apply (answered_ext questions st); [reflexivity | apply Hpast; lia].
  - (* Submitted *)
    destruct (ActiveSurveyView.isSubmitting st) eqn:Hsub; [| exact Hinv].
    unfold ActiveSurveyView.submitted, ActiveSurveyView.invariant.
    cbn [ActiveSurveyView.currentIndex ActiveSurveyView.timeLeft ActiveSurveyView.isPaused
         ActiveSurveyView.isSubmitting ActiveSurveyView.setIsSubmitting
         ActiveSurveyView.setEarnedAmount].
    split; [exact Hidx |]. split; [exact Htime |]. split; [exact Hpause |].
    split.
    + intros i Hlt. apply (answered_ext questions st); [reflexivity | apply Hpast, Hlt].
    + intros _ i Hlt.
      apply (answered_ext questions st); [reflexivity |].
      apply Hall; [left; reflexivity | exact Hlt].
Qed.

(** X19. Whatever is clicked and whenever the clock ticks, a survey view
    mounted on a non-empty question list with distinct ids always has a
    current question to show ([questions[currentIndex]] is defined), its
    countdown stays between 0 and 45 with the pause overlay up exactly at
    0, every question before the current one has a non-empty answer, and
    the answers are submitted (so that [onReward] is called) only when all
    questions have one. *)
Theorem survey_submits_only_complete
    (questions : list Dashboard.SurveyQuestion) (es : list ActiveSurveyView.Event) :
  questions <> [] ->
  NoDup (map Dashboard.q_id questions) ->
  let st := ActiveSurveyView.run questions es ActiveSurveyView.initial in
  (exists q, ActiveSurveyView.question questions st = Some q)
  /\ 0 <= ActiveSurveyView.timeLeft st <= 45
  /\ (ActiveSurveyView.isPaused st = true <-> ActiveSurveyView.timeLeft st = 0)
  /\ (forall i, (i < ActiveSurveyView.currentIndex st)%nat ->
        ActiveSurveyView.answered questions st i)
  /\ (ActiveSurveyView.isSubmitting st = true \/ ActiveSurveyView.finished st = true ->
      forall i, (i < length questions)%nat -> ActiveSurveyView.answered questions st i).
Proof.
  intros Hne Hnd st.
  assert (Hinv : ActiveSurveyView.invariant questions st).
  { subst st. unfold ActiveSurveyView.run.
    assert (H0 : ActiveSurveyView.invariant questions ActiveSurveyView.initial).
    { unfold ActiveSurveyView.invariant. cbn.
      split; [destruct questions; [contradiction | cbn; lia] |].
      split; [lia |]. split; [split; [discriminate | lia] |].
      split; [intros i Hi; lia | intros [H | H]; discriminate H]. }
    revert H0. generalize ActiveSurveyView.initial.
    induction es as [| e es IH]; intros s Hs; cbn [fold_left]; [exact Hs |].
    apply IH, survey_step_invariant; assumption. }
  destruct Hinv as (Hidx & Htime & Hpause & Hpast & Hall).
  split; [| repeat split; try assumption; try apply Hpause; lia].
  unfold ActiveSurveyView.question.
  destruct (questions !! ActiveSurveyView.currentIndex st) as [q |] eqn:Hq;
    [exists q; reflexivity |].
  apply lookup_ge_None in Hq. lia.
Qed.

Lemma survey_submits_only_complete_witness :
  0 <= ActiveSurveyView.timeLeft
         (ActiveSurveyView.run Demo.questions
            [ ActiveSurveyView.Choose "Daily"; ActiveSurveyView.Tick;
              ActiveSurveyView.Next ]
            ActiveSurveyView.initial) <= 45.
Proof.
  refine (proj1 (proj2
            (survey_submits_only_complete Demo.questions
               [ ActiveSurveyView.Choose "Daily"; ActiveSurveyView.Tick;
                 ActiveSurveyView.Next ] _ _))).
  - discriminate.
  - refine (bool_decide_unpack (NoDup (map Dashboard.q_id Demo.questions)) _).
    vm_compute. exact I.
Defined.

Lemma tick_running (st : ActiveSurveyView.State) :
  ActiveSurveyView.stopped st = false -> 1 < ActiveSurveyView.timeLeft st ->
  ActiveSurveyView.tick st
  = ActiveSurveyView.setTimeLeft (ActiveSurveyView.timeLeft st - 1) st.
Proof.
  intros Hstop Ht. unfold ActiveSurveyView.tick, ActiveSurveyView.timerEffect.
  change (ActiveSurveyView.stopped
            (ActiveSurveyView.setTimeLeft (ActiveSurveyView.timeLeft st - 1) st))
    with (ActiveSurveyView.stopped st).
  rewrite Hstop. cbn [orb ActiveSurveyView.timeLeft ActiveSurveyView.setTimeLeft].
  destruct (Z.eqb_spec (ActiveSurveyView.timeLeft st) 0); [lia |].
  destruct (Z.eqb_spec (ActiveSurveyView.timeLeft st - 1) 0); [lia | reflexivity].
Qed.

Lemma tick_last (st : ActiveSurveyView.State) :
  ActiveSurveyView.stopped st = false -> ActiveSurveyView.timeLeft st = 1 ->
  ActiveSurveyView.tick st
  = ActiveSurveyView.setIsPaused true (ActiveSurveyView.setTimeLeft 0 st).
Proof.
  intros Hstop Ht. unfold ActiveSurveyView.tick, ActiveSurveyView.timerEffect.
  change (ActiveSurveyView.stopped
            (ActiveSurveyView.setTimeLeft (ActiveSurveyView.timeLeft st - 1) st))
    with (ActiveSurveyView.stopped st).
  rewrite Hstop, Ht. reflexivity.
Qed.

Lemma ticks_running (k : nat) (st : ActiveSurveyView.State) :
  ActiveSurveyView.stopped st = false ->
  Z.of_nat k < ActiveSurveyView.timeLeft st ->
  let s := Nat.iter k ActiveSurveyView.tick st in
  ActiveSurveyView.timeLeft s = ActiveSurveyView.timeLeft st - Z.of_nat k
  /\ ActiveSurveyView.stopped s = false
  /\ ActiveSurveyView.answers s = ActiveSurveyView.answers st
  /\ ActiveSurveyView.currentIndex s = ActiveSurveyView.currentIndex st.
Proof.
  revert st. induction k as [| k IH]; intros st Hstop Hlt.
  - cbn. repeat split; [lia | exact Hstop].
  - rewrite Nat.iter_succ_r, (tick_running st Hstop) by lia.
    destruct (IH (ActiveSurveyView.setTimeLeft (ActiveSurveyView.timeLeft st - 1) st))
      as (H1 & H2 & H3 & H4); [exact Hstop | cbn; lia |].
    cbn zeta. rewrite H1, H2, H3, H4. cbn. repeat split. lia.
Qed.

Lemma ticks_to_zero (k : nat) (st : ActiveSurveyView.State) :
  ActiveSurveyView.stopped st = false ->
  ActiveSurveyView.timeLeft st = Z.of_nat (S k) ->
  Nat.iter (S k) ActiveSurveyView.tick st
  = ActiveSurveyView.setIsPaused true (ActiveSurveyView.setTimeLeft 0 st).
Proof.
  revert st. induction k as [| k IH]; intros st Hstop Ht.
  - rewrite Nat.iter_succ. cbn [Nat.iter nat_rect]. apply tick_last; [exact Hstop | lia].
  - rewrite Nat.iter_succ_r, (tick_running st Hstop) by lia.
    rewrite IH; [reflexivity | exact Hstop | cbn; lia].
Qed.

Lemma ticks_paused (k : nat) (st : ActiveSurveyView.State) :
  ActiveSurveyView.isPaused st = true ->
  Nat.iter k ActiveSurveyView.tick st = st.
Proof.
  intros Hp. induction k as [| k IH]; [reflexivity |].
  rewrite Nat.iter_succ, IH.
  unfold ActiveSurveyView.tick, ActiveSurveyView.stopped.
  rewrite Hp, orb_true_r. reflexivity.
Qed.

(** X20. The countdown of a question: from a state where it runs with [n]
    seconds left, each of the first [n - 1] ticks takes one second off and
    changes nothing else that matters (the survey is not paused, answers
    and index are kept); the [n]-th tick brings it to zero and puts up the
    pause overlay; further ticks do nothing; and the resume button then
    restarts the countdown at 45 with the overlay down. *)
Theorem countdown_pauses_at_zero (st : ActiveSurveyView.State) (k : nat) :
  ActiveSurveyView.stopped st = false ->
  0 < ActiveSurveyView.timeLeft st ->
  let s := Nat.iter k ActiveSurveyView.tick st in
  let paused := ActiveSurveyView.setIsPaused true (ActiveSurveyView.setTimeLeft 0 st) in
  (Z.of_nat k < ActiveSurveyView.timeLeft st ->
     ActiveSurveyView.timeLeft s = ActiveSurveyView.timeLeft st - Z.of_nat k
     /\ ActiveSurveyView.stopped s = false
     /\ ActiveSurveyView.answers s = ActiveSurveyView.answers st
     /\ ActiveSurveyView.currentIndex s = ActiveSurveyView.currentIndex st)
  /\ (ActiveSurveyView.timeLeft st <= Z.of_nat k -> s = paused)
  /\ ActiveSurveyView.handle [] ActiveSurveyView.Resume paused
     = ActiveSurveyView.setIsPaused false (ActiveSurveyView.setTimeLeft 45 st)
  /\ ActiveSurveyView.stopped (ActiveSurveyView.handle [] ActiveSurveyView.Resume paused)
     = false.
Proof.
  intros Hstop Hpos s paused.
  assert (Hnf : ActiveSurveyView.finished st = false).
  { unfold ActiveSurveyView.stopped in Hstop.
    destruct (ActiveSurveyView.finished st); [| reflexivity].
    rewrite orb_true_r in Hstop. discriminate Hstop. }
  split; [intros Hlt; apply ticks_running; assumption |].
  split.
  - intros Hge. subst s paused.
    set (n := Z.to_nat (ActiveSurveyView.timeLeft st)).
    assert (Hk : k = ((k - n) + n)%nat) by lia.
    rewrite Hk, Nat.iter_add.
    assert (Hn : exists m, n = S m) by (exists (Nat.pred n); lia).
    destruct Hn as [m Hm]. rewrite Hm.
    rewrite (ticks_to_zero m st Hstop) by lia.
    apply ticks_paused. reflexivity.
  - subst paused. cbn [ActiveSurveyView.handle ActiveSurveyView.isPaused
                       ActiveSurveyView.setIsPaused andb].
    change (ActiveSurveyView.finished
              (ActiveSurveyView.setIsPaused true (ActiveSurveyView.setTimeLeft 0 st)))
      with (ActiveSurveyView.finished st).
    rewrite Hnf. cbn [negb].
    split; [reflexivity |].
    revert Hstop. unfold ActiveSurveyView.stopped, ActiveSurveyView.handleResume.
    cbn [ActiveSurveyView.isSubmitting ActiveSurveyView.isPaused
         ActiveSurveyView.setIsPaused ActiveSurveyView.setTimeLeft].
    change (ActiveSurveyView.finished
              (ActiveSurveyView.setIsPaused false
                 (ActiveSurveyView.setTimeLeft 45
                    (ActiveSurveyView.setIsPaused true
                       (ActiveSurveyView.setTimeLeft 0 st)))))
      with (ActiveSurveyView.finished st).
    rewrite Hnf. destruct (ActiveSurveyView.isSubmitting st); [discriminate | reflexivity].
Qed.

Lemma countdown_pauses_at_zero_witness :
  Nat.iter 45 ActiveSurveyView.tick ActiveSurveyView.initial
  = ActiveSurveyView.setIsPaused true
      (ActiveSurveyView.setTimeLeft 0 ActiveSurveyView.initial).
Proof.
  refine (proj1 (proj2
            (countdown_pauses_at_zero ActiveSurveyView.initial 45 _ _)) _).
  - reflexivity.
  - reflexivity.
  - vm_compute. discriminate.
Defined.

(** ** Settings *)

Lemma handleUpdateUser_session
    (payload : App.PartialUserData) (app : App.State) (cu : App.UserData) :
  App.currentUser app = Some cu ->
  App.currentUser (App.handleUpdateUser payload app) = Some (App.merge cu payload)
  /\ forall i u, App.registeredUsers app !! i = Some u ->
       App.registeredUsers (App.handleUpdateUser payload app) !! i
       = Some (if String.eqb (App.username u) (App.username cu)
               then App.merge cu payload else u).
Proof.
  intros Hcu. unfold App.handleUpdateUser. rewrite Hcu. split; [reflexivity |].
  intros i u Hi. cbn [App.registeredUsers App.setRegisteredUsers App.setCurrentUser].
  rewrite lookup_map_pointwise, Hi. reflexivity.
Qed.

(** X21. For a new password typed in ASCII: the change-password form calls
    [onUpdateUser] exactly when the current password typed is the stored
    one, the new password passes the password rules, equals its
    confirmation and differs from the current one; the call then carries the password and nothing else, so the
    session and every registered record with the session's username get the
    new password and keep username, stats, history and settings; when the
    call is not made, an error message is shown, the success screen is not,
    and what was typed is kept. *)
Theorem change_password_updates_session
    (cu : App.UserData) (st : ChangePasswordView.State) (app : App.State) :
  App.currentUser app = Some cu ->
  Js.is_ascii (ChangePasswordView.newPassword (ChangePasswordView.formData st)) = true ->
  let fd := ChangePasswordView.formData st in
  let out := ChangePasswordView.handleSubmit cu st in
  (is_Some (snd out)
   <-> App.password cu = Some (ChangePasswordView.currentPassword fd)
       /\ RegisterForm.validatePassword (ChangePasswordView.newPassword fd) = None
       /\ ChangePasswordView.newPassword fd = ChangePasswordView.confirmPassword fd
       /\ ChangePasswordView.newPassword fd <> ChangePasswordView.currentPassword fd)
  /\ (snd out = None ->
      ChangePasswordView.error (fst out) <> ""
      /\ ChangePasswordView.success (fst out) = ChangePasswordView.success st
      /\ ChangePasswordView.formData (fst out) = fd)
  /\ (forall payload, snd out = Some payload ->
      ChangePasswordView.success (fst out) = true
      /\ ChangePasswordView.error (fst out) = ""
      /\ exists cu',
           App.currentUser (App.handleUpdateUser payload app) = Some cu'
           /\ App.password cu' = Some (ChangePasswordView.newPassword fd)
           /\ App.username cu' = App.username cu
           /\ App.stats cu' = App.stats cu
           /\ App.earningsHistory cu' = App.earningsHistory cu
           /\ App.settings cu' = App.settings cu
           /\ forall i u, App.registeredUsers app !! i = Some u ->
                App.username u = App.username cu ->
                App.registeredUsers (App.handleUpdateUser payload app) !! i = Some cu').
Proof.
  intros Hcu _ fd out. subst out. unfold ChangePasswordView.handleSubmit.
  cbn [ChangePasswordView.formData ChangePasswordView.error ChangePasswordView.success].
  fold fd.
  destruct (Js.differs (App.password cu) (ChangePasswordView.currentPassword fd)) eqn:Hpw.
  { cbn. split; [| split].
    - split; [intros [x Hx]; discriminate Hx |].
      intros (Hp & _). rewrite Hp, differs_same in Hpw. discriminate Hpw.
    - intros _. repeat split. discriminate.
    - intros payload H. discriminate H. }
  apply differs_false in Hpw.
  destruct (RegisterForm.validatePassword (ChangePasswordView.newPassword fd))
    as [msg |] eqn:Hval.
  { cbn. split; [| split].
    - split; [intros [x Hx]; discriminate Hx | intros (_ & H & _); discriminate H].
    - intros _. repeat split. intros ->.
      unfold RegisterForm.validatePassword in Hval.
      repeat match type of Hval with
             | (if ?c then _ else _) = _ => destruct c
             end; discriminate Hval.
    - intros payload H. discriminate H. }
  destruct (String.eqb_spec (ChangePasswordView.newPassword fd)
              (ChangePasswordView.confirmPassword fd)) as [Hconf | Hconf]; cbn [negb].
  2:{ cbn. split; [| split].
      - split; [intros [x Hx]; discriminate Hx | intros (_ & _ & H & _); contradiction].
      - intros _. repeat split. discriminate.
      - intros payload H. discriminate H. }
  destruct (String.eqb_spec (ChangePasswordView.newPassword fd)
              (ChangePasswordView.currentPassword fd)) as [Hsame | Hnew].
  { cbn. split; [| split].
    - split; [intros [x Hx]; discriminate Hx | intros (_ & _ & _ & H); contradiction].
    - intros _. repeat split. discriminate.
    - intros payload H. discriminate H. }
  cbn [fst snd ChangePasswordView.formData ChangePasswordView.error
       ChangePasswordView.success].
  split; [| split].
  - split; [intros _; repeat split; assumption | intros _; eexists; reflexivity].
  - intros H. discriminate H.
  - intros payload H. injection H as <-.
    split; [reflexivity |]. split; [reflexivity |].
    destruct (handleUpdateUser_session
                {| App.p_username := None;
                   App.p_password := Some (Some (ChangePasswordView.newPassword fd));
                   App.p_mpesaCode := None; App.p_profile := None; App.p_stats := None;
                   App.p_earningsHistory := None; App.p_settings := None |}
                app cu Hcu) as (Hsession & Hlist).
    eexists. split; [exact Hsession |].
    do 5 (split; [reflexivity |]).
    intros i u Hi Hname. rewrite (Hlist i u Hi), Hname, String.eqb_refl. reflexivity.
Qed.

Lemma change_password_updates_session_witness :
  is_Some
    (snd (ChangePasswordView.handleSubmit Demo.alice
            {| ChangePasswordView.formData :=
                 {| ChangePasswordView.currentPassword := "Passw0rdX";
                    ChangePasswordView.newPassword := "N3wPassword";
                    ChangePasswordView.confirmPassword := "N3wPassword" |};
               ChangePasswordView.error := "";
               ChangePasswordView.success := false |})).
Proof.
  refine (proj2 (proj1
            (change_password_updates_session Demo.alice
               {| ChangePasswordView.formData :=
                    {| ChangePasswordView.currentPassword := "Passw0rdX";
                       ChangePasswordView.newPassword := "N3wPassword";
                       ChangePasswordView.confirmPassword := "N3wPassword" |};
                  ChangePasswordView.error := "";
                  ChangePasswordView.success := false |}
               Demo.aliceApp _ _)) _).
  - reflexivity.
  - reflexivity.
  - vm_compute. repeat split; discriminate.
Defined.

(** X22. Settings survive a round trip: after a notification toggle, or
    after choosing a language that is not the empty string, the record
    handed to [onUpdateUser] makes the session carry the settings shown on
    screen, leaves password, stats and history alone, and a settings view
    mounted from the new session starts in exactly the state the handler
    left; a toggle changes the one flag it names. *)
Theorem settings_round_trip
    (cu : App.UserData) (app : App.State) (st : SettingsView.State)
    (key : SettingsView.Key) (value : bool) (newLang : string) :
  App.currentUser app = Some cu ->
  SettingsView.language st <> "" ->
  newLang <> "" ->
  let toggled := SettingsView.handleNotificationChange key value st in
  let chosen := SettingsView.handleLanguageChange newLang st in
  (exists cu',
      App.currentUser (App.handleUpdateUser (snd toggled) app) = Some cu'
      /\ SettingsView.initial cu' = fst toggled
      /\ App.password cu' = App.password cu
      /\ App.stats cu' = App.stats cu
      /\ App.earningsHistory cu' = App.earningsHistory cu)
  /\ (exists cu',
        App.currentUser (App.handleUpdateUser (snd chosen) app) = Some cu'
        /\ SettingsView.initial cu' = fst chosen
        /\ App.password cu' = App.password cu
        /\ App.stats cu' = App.stats cu
        /\ App.earningsHistory cu' = App.earningsHistory cu)
  /\ SettingsView.language (fst toggled) = SettingsView.language st
  /\ SettingsView.notifications (fst chosen) = SettingsView.notifications st
  /\ (let n := SettingsView.notifications st in
      let n' := SettingsView.notifications (fst toggled) in
      match key with
      | SettingsView.email =>
          App.email n' = value /\ App.sms n' = App.sms n
          /\ App.marketing n' = App.marketing n
      | SettingsView.sms =>
          App.sms n' = value /\ App.email n' = App.email n
          /\ App.marketing n' = App.marketing n
      | SettingsView.marketing =>
          App.marketing n' = value /\ App.email n' = App.email n
          /\ App.sms n' = App.sms n
      end).
Proof.
  intros Hcu Hlang Hnew toggled chosen.
  split; [| split; [| split; [reflexivity | split; [reflexivity |]]]].
  - destruct (handleUpdateUser_session (snd toggled) app cu Hcu) as (Hsession & _).
    eexists. split; [exact Hsession |]. split; [| repeat split].
    unfold SettingsView.initial. subst toggled. cbn.
    rewrite (truthy_nonempty _ Hlang). reflexivity.
  - destruct (handleUpdateUser_session (snd chosen) app cu Hcu) as (Hsession & _).
    eexists. split; [exact Hsession |]. split; [| repeat split].
    unfold SettingsView.initial. subst chosen. cbn.
    rewrite (truthy_nonempty _ Hnew). reflexivity.
  - destruct key; repeat split.
Qed.

Lemma settings_round_trip_witness :
  SettingsView.language
    (fst (SettingsView.handleNotificationChange SettingsView.marketing true
            (SettingsView.initial Demo.alice)))
  = SettingsView.language (SettingsView.initial Demo.alice).
Proof.
  refine (proj1 (proj2 (proj2
            (settings_round_trip Demo.alice Demo.aliceApp (SettingsView.initial Demo.alice)
               SettingsView.marketing true "sw" _ _ _))));
    [reflexivity | vm_compute; discriminate | discriminate].
Defined.

(** ** The one-time code *)

Lemma digitsOnly_digits (s : string) :
  Js.every_char Js.is_digit (OtpProvider.digitsOnly s) = true.
Proof.
  induction s as [| c s IH]; [reflexivity |]. cbn [OtpProvider.digitsOnly].
  destruct (Js.is_digit c) eqn:Hc; [| exact IH].
  cbn [Js.every_char]. rewrite Hc, IH. reflexivity.
Qed.

Lemma substring_every (p : ascii -> bool) (n : nat) (s : string) :
  Js.every_char p s = true -> Js.every_char p (String.substring 0 n s) = true.
Proof.
  revert s. induction n as [| n IH]; intros [| c s] H; cbn; try reflexivity.
  cbn in H. apply andb_true_iff in H. destruct H as [Hc Hs].
  rewrite Hc, (IH s Hs). reflexivity.
Qed.

Lemma pretty_N_char_digit (k : N) : Js.is_digit (pretty_N_char k) = true.
Proof. unfold pretty_N_char. repeat case_match; reflexivity. Qed.

Lemma fallback_five_digits (r : Q) :
  (0 <= r)%Q -> (r < 1)%Q ->
  String.length (OtpProvider.fallback r) = 5%nat
  /\ Js.every_char Js.is_digit (OtpProvider.fallback r) = true.
Proof.
  intros H0 H1. unfold OtpProvider.fallback.
  set (n := Qfloor (inject_Z 10000 + r * inject_Z 90000)).
  assert (Hn : 10000 <= n < 100000).
  { subst n. split.
    - change 10000 with (Qfloor (inject_Z 10000)) at 1. apply Qfloor_resp_le.
      rewrite <- (Qplus_0_r (inject_Z 10000)) at 1.
      apply Qplus_le_r. apply Qmult_le_0_compat; [exact H0 | discriminate].
    - rewrite Zlt_Qlt.
      eapply Qle_lt_trans; [apply Qfloor_le |].
      apply Qlt_le_trans with (y := (inject_Z 10000 + 1 * inject_Z 90000)%Q);
        [| vm_compute; discriminate].
      apply Qplus_lt_r. apply Qmult_lt_compat_r; [reflexivity | exact H1]. }
  destruct n as [| p | p]; try lia.
  change (pretty (Z.pos p)) with (pretty_N_go (N.pos p) "").
  assert (Hp : (10000 <= N.pos p < 100000)%N) by lia.
  rewrite pretty_N_go_step by lia.
  rewrite pretty_N_go_step by (apply N.div_str_pos; lia).
  rewrite pretty_N_go_step by (apply N.div_str_pos; split; [lia |];
                               apply N.div_le_lower_bound; lia).
  rewrite pretty_N_go_step
    by (apply N.div_str_pos; split; [lia |];
        do 2 (apply N.div_le_lower_bound; [lia |]); lia).
  rewrite pretty_N_go_step
    by (apply N.div_str_pos; split; [lia |];
        do 3 (apply N.div_le_lower_bound; [lia |]); lia).
  assert (Hz : (N.pos p / 10 / 10 / 10 / 10 / 10 = 0)%N).
  { rewrite !N.Div0.div_div. apply N.div_small. lia. }
  rewrite Hz, pretty_N_go_0.
  split; [reflexivity |].
  cbn [Js.every_char]. rewrite !pretty_N_char_digit. reflexivity.
Qed.

Lemma generateOtpWithAi_five_digits (response : option (option string)) (r : Q) :
  (0 <= r)%Q -> (r < 1)%Q ->
  String.length (OtpProvider.generateOtpWithAi response r) = 5%nat
  /\ Js.every_char Js.is_digit (OtpProvider.generateOtpWithAi response r) = true.
Proof.
  intros H0 H1. unfold OtpProvider.generateOtpWithAi.
  destruct response as [[t |] |]; try (apply fallback_five_digits; assumption).
  cbn zeta.
  destruct (Js.truthy _); cbn [andb]; [| apply fallback_five_digits; assumption].
  destruct (Z.eqb_spec (Js.length (String.substring 0 5 (OtpProvider.digitsOnly (Js.trim t)))) 5)
    as [Hlen | _]; [| apply fallback_five_digits; assumption].
  split; [unfold Js.length in Hlen; lia |].
  apply substring_every, digitsOnly_digits.
Qed.

Lemma join_boxes (code : string) : Js.join (OtpProvider.boxes code) = code.
Proof.
  induction code as [| c code IH]; [reflexivity |].
  cbn [OtpProvider.boxes]. unfold Js.join in *. cbn [fold_right]. rewrite IH. reflexivity.
Qed.

Lemma length_boxes (code : string) :
  length (OtpProvider.boxes code) = String.length code.
Proof. induction code as [| c code IH]; [reflexivity |]. cbn. rewrite IH. reflexivity. Qed.

Lemma boxes_digits (code : string) :
  Js.every_char Js.is_digit code = true ->
  Forall (fun d => Js.every_char Js.is_digit d = true /\ String.length d = 1%nat)
    (OtpProvider.boxes code).
Proof.
  induction code as [| c code IH]; intros H; [constructor |].
  cbn in H. apply andb_true_iff in H. destruct H as [Hc Hs].
  constructor; [| exact (IH Hs)].
  split; [cbn; rewrite Hc; reflexivity | reflexivity].
Qed.

(** X23. The code [generateOtpWithAi] returns is always five decimal
    digits, whatever the provider answered (text with other characters,
    too few digits, no text, a failure or a timeout) and whatever the
    fallback draws from the unit interval. It can therefore always be
    entered: typed one character per box, each box takes its character,
    the boxes join to the code, the verify button is enabled, and
    [handleOtpSubmit] moves the registration to the confirmation step. *)
Theorem generated_code_can_be_entered
    (response : option (option string)) (r : Q) (users : list App.UserData)
    (message : option string) (f : RegisterForm.State) :
  (0 <= r)%Q -> (r < 1)%Q ->
  RegisterForm.step f = RegisterForm.StepDetails ->
  length (RegisterForm.otp f) = 5%nat ->
  let code := OtpProvider.generateOtpWithAi response r in
  let sent := RegisterForm.handleDetailsSubmit users code message f in
  let typed := Site.typeDigits 0 (OtpProvider.boxes code) sent in
  String.length code = 5%nat
  /\ Js.every_char Js.is_digit code = true
  /\ Forall (fun d => Js.every_char Js.is_digit d = true /\ String.length d = 1%nat)
       (OtpProvider.boxes code)
  /\ (RegisterForm.step sent = RegisterForm.StepOtp ->
      RegisterForm.otp typed = OtpProvider.boxes code
      /\ RegisterForm.enteredOtp typed = code
      /\ OtpProvider.verifyDisabled typed = false
      /\ RegisterForm.step (RegisterForm.handleOtpSubmit typed)
         = RegisterForm.StepConfirmation).
Proof.
  intros H0 H1 Hdetails Hfive code sent typed.
  destruct (generateOtpWithAi_five_digits response r H0 H1) as (Hlen & Hdig).
  fold code in Hlen, Hdig.
  pose proof (boxes_digits code Hdig) as Hboxes.
  split; [exact Hlen |]. split; [exact Hdig |]. split; [exact Hboxes |].
  intros Hstep.
  destruct (handleDetailsSubmit_cases users code message f)
    as (_ & Hotp & Hload & [(_ & _ & _ & _ & Hgen & _) | (_ & Hs & _)]);
    fold sent in Hotp, Hload; [fold sent in Hgen | fold sent in Hs; congruence].
  assert (Hotp' : RegisterForm.otp typed = OtpProvider.boxes code).
  { subst typed. rewrite typeDigits_digits.
    - rewrite length_boxes, Hlen, Hotp. cbn [take app Nat.add].
      rewrite drop_ge by lia. apply app_nil_r.
    - eapply Forall_impl; [exact Hboxes |]. intros d [Hd _]. exact Hd.
    - rewrite Hotp, length_boxes, Hlen. cbn. lia. }
  assert (Hframe : typed = RegisterForm.setOtp (RegisterForm.otp typed) sent)
    by apply typeDigits_frame.
  assert (Hentered : RegisterForm.enteredOtp typed = code).
  { unfold RegisterForm.enteredOtp. rewrite Hotp'. apply join_boxes. }
  split; [exact Hotp' |]. split; [exact Hentered |]. split.
  - unfold OtpProvider.verifyDisabled.
    change (Js.join (RegisterForm.otp typed)) with (RegisterForm.enteredOtp typed).
    rewrite Hentered. unfold Js.length. rewrite Hlen.
    rewrite Hframe. cbn [RegisterForm.isLoading RegisterForm.setOtp]. rewrite Hload.
    reflexivity.
  - unfold RegisterForm.handleOtpSubmit.
    change (RegisterForm.enteredOtp (RegisterForm.setIsLoading true typed))
      with (RegisterForm.enteredOtp typed).
    change (RegisterForm.generatedOtp (RegisterForm.setIsLoading true typed))
      with (RegisterForm.generatedOtp typed).
    rewrite Hentered, Hframe. cbn [RegisterForm.generatedOtp RegisterForm.setOtp].
    rewrite Hgen, String.eqb_refl. reflexivity.
Qed.

Lemma generated_code_can_be_entered_witness :
  String.length (OtpProvider.generateOtpWithAi (Some (Some " code: 4-8-2-1-3 ")) (1 # 2))
  = 5%nat.
Proof.
  refine (proj1
            (generated_code_can_be_entered (Some (Some " code: 4-8-2-1-3 ")) (1 # 2)
               [] None (RegisterForm.setFormData Demo.carol RegisterForm.initial)
               _ _ _ _));
    try reflexivity; vm_compute; discriminate.
Defined.




(** ** A new day, a new account *)

(** X25. A new day lifts the day's limits: when the stored stats were last
    touched on another day and the stored global counter (if any) is of
    another day, the dashboard mounts with zero surveys and zero earnings
    for the day and a global count of zero; selecting a survey then starts
    it exactly when the cap in force is positive, and the home view is not
    blocked exactly when that cap is at least 10. *)
Theorem new_day_unblocks
    (today : string) (saved : option Dashboard.GlobalStats)
    (user : App.UserData) (stored : App.UserStats) :
  App.stats user = Some stored ->
  App.lastSurveyDate stored <> Some today ->
  (forall g, saved = Some g -> Dashboard.date g <> today) ->
  let st := Dashboard.initial today saved user in
  let cap := Dashboard.currentDailyCap stored in
  Dashboard.currentDaily (Dashboard.stats st) = 0
  /\ Dashboard.currentCount (Dashboard.stats st) = 0
  /\ Dashboard.globalStats st = {| Dashboard.date := today; Dashboard.count := 0 |}
  /\ Dashboard.currentDailyCap (Dashboard.stats st) = cap
  /\ (forall upgrade survey,
        fst (Dashboard.handleSurveySelect upgrade survey st) = Dashboard.Started
        <-> 0 < cap)
  /\ (Dashboard.isBlocked st = false <-> 10 <= cap).
Proof.
  intros Hstats Hdate Hsaved st cap.
  assert (Hs : Dashboard.stats st
               = {| App.earnings := App.earnings stored;
                    App.performance := App.performance stored;
                    App.eligibility := App.eligibility stored;
                    App.surveysCompleted := App.surveysCompleted stored;
                    App.dailyCount := Some 0;
                    App.lastSurveyDate := Some today;
                    App.dailyEarnings := Some 0;
                    App.dailyLimit := Some (Js.num_or (App.dailyLimit stored) 250) |}).
  { subst st. cbn [Dashboard.initial Dashboard.stats]. unfold Dashboard.initStats.
    rewrite Hstats. cbn [Js.obj_or Js.nullish].
    rewrite (differs_true _ _ Hdate). reflexivity. }
  assert (Hg : Dashboard.globalStats st = {| Dashboard.date := today; Dashboard.count := 0 |}).
  { subst st. cbn [Dashboard.initial Dashboard.globalStats]. unfold Dashboard.initGlobalStats.
    destruct saved as [g |]; [| reflexivity].
    destruct (String.eqb_spec (Dashboard.date g) today) as [Heq | _]; [| reflexivity].
    destruct (Hsaved g eq_refl Heq). }
  assert (Hcap : Dashboard.currentDailyCap (Dashboard.stats st) = cap).
  { rewrite Hs. unfold Dashboard.currentDailyCap. cbn [App.dailyLimit].
    apply currentDailyCap_normalised. }
  assert (Hdaily : Dashboard.currentDaily (Dashboard.stats st) = 0) by (rewrite Hs; reflexivity).
  assert (Hcount : Dashboard.currentCount (Dashboard.stats st) = 0) by (rewrite Hs; reflexivity).
  assert (Hlimit : 3 <= Dashboard.DAILY_LIMIT (Dashboard.stats st)).
  { unfold Dashboard.DAILY_LIMIT. destruct (Dashboard.isHighPerformer _); lia. }
  split; [exact Hdaily |]. split; [exact Hcount |]. split; [exact Hg |].
  split; [exact Hcap |]. split.
  - intros upgrade survey. unfold Dashboard.handleSurveySelect.
    rewrite Hcap, Hdaily, Hcount, Hg.
    change (Dashboard.isSurveying st) with false. cbn iota.
    cbn [Dashboard.count]. unfold Dashboard.GLOBAL_DAILY_CAP.
    destruct (Z.leb_spec 100000 0); [lia |].
    destruct (Z.leb_spec cap 0);
      [split; [destruct upgrade; discriminate | lia] |].
    destruct (Z.leb_spec (Dashboard.DAILY_LIMIT (Dashboard.stats st)) 0); [lia |].
    split; [intros _; assumption | reflexivity].
  - unfold Dashboard.isBlocked, Dashboard.isGlobalLimitReached, Dashboard.isUserLimitReached,
      Dashboard.isEarningsLimitReached, Dashboard.remainingGlobal, Dashboard.remainingSurveys,
      Dashboard.remainingEarnings, Dashboard.GLOBAL_DAILY_CAP.
    rewrite Hcap, Hdaily, Hcount, Hg. cbn [Dashboard.count].
    destruct (Z.eqb_spec (Z.max 0 (100000 - 0)) 0); [lia |].
    destruct (Z.eqb_spec (Z.max 0 (Dashboard.DAILY_LIMIT (Dashboard.stats st) - 0)) 0); [lia |].
    destruct (Z.ltb_spec (Z.max 0 (cap - 0)) 10) as [Hlt | Hge]; cbn;
      split; intros Hx; first [lia | congruence].
Qed.

Lemma new_day_unblocks_witness :
  Dashboard.isBlocked
    (Dashboard.initial Sample.today
       (Some {| Dashboard.date := Sample.yesterday; Dashboard.count := 100000 |})
       (Sample.mkUser "alice" (Some Sample.legacyStats))) = false.
Proof.
  refine (proj2 (proj2 (proj2 (proj2 (proj2 (proj2
            (new_day_unblocks Sample.today
               (Some {| Dashboard.date := Sample.yesterday; Dashboard.count := 100000 |})
               (Sample.mkUser "alice" (Some Sample.legacyStats)) Sample.legacyStats
               _ _ _)))))) _).
  - reflexivity.
  - discriminate.
  - intros g Hg. injection Hg as <-. discriminate.
  - vm_compute. discriminate.
Defined.





(** ** The login form, await by await *)

Lemma flow_run_snoc (E : Engine.t) (es : list LoginFlow.Event) (e : LoginFlow.Event)
    (st : LoginFlow.State) :
  LoginFlow.run E (es ++ [e]) st = LoginFlow.handle E e (LoginFlow.run E es st).
Proof. unfold LoginFlow.run. rewrite fold_left_app. reflexivity. Qed.

Lemma checked_snoc (E : Engine.t) (es : list LoginFlow.Event) (e : LoginFlow.Event)
    (u : App.UserData) :
  LoginFlow.checked E es u -> LoginFlow.checked E (es ++ [e]) u.
Proof.
  intros (es1 & es2 & users & -> & H). exists es1, (es2 ++ [e]), users.
  split; [rewrite <- app_assoc; reflexivity | exact H].
Qed.

Lemma requested_snoc (E : Engine.t) (es : list LoginFlow.Event) (e : LoginFlow.Event) :
  LoginFlow.requested E es -> LoginFlow.requested E (es ++ [e]).
Proof.
  intros (es1 & es2 & users & u & -> & H). exists es1, (es2 ++ [e]), users, u.
  split; [rewrite <- app_assoc; reflexivity | exact H].
Qed.

Lemma verified_snoc (E : Engine.t) (es : list LoginFlow.Event) (e : LoginFlow.Event) :
  LoginFlow.verified E es -> LoginFlow.verified E (es ++ [e]).
Proof.
  intros (es1 & es2 & -> & H). exists es1, (es2 ++ [e]).
  split; [rewrite <- app_assoc; reflexivity | exact H].
Qed.

(** An event that leaves the pending handlers, the loading flag, the matched
    record and the step alone keeps the invariant. *)
Lemma invariant_quiet (E : Engine.t) (es : list LoginFlow.Event) (e : LoginFlow.Event)
    (st st' : LoginFlow.State) :
  LoginFlow.tasks st' = LoginFlow.tasks st ->
  LoginForm.isLoading (LoginFlow.form st') = LoginForm.isLoading (LoginFlow.form st) ->
  LoginForm.matchedUser (LoginFlow.form st') = LoginForm.matchedUser (LoginFlow.form st) ->
  LoginForm.step (LoginFlow.form st') = LoginForm.step (LoginFlow.form st) ->
  LoginFlow.invariant E es st -> LoginFlow.invariant E (es ++ [e]) st'.
Proof.
  intros Ht Hl Hm Hs (H1 & H2 & H3 & H4 & H5 & H6).
  unfold LoginFlow.invariant. rewrite Ht, Hl, Hm, Hs.
  split; [exact H1 |].
  split; [intros u Hu; destruct (H2 u Hu); split; [assumption | apply checked_snoc; assumption] |].
  split; [intros Hstep; destruct (H3 Hstep) as (u & ? & ?); exists u;
          split; [assumption | apply checked_snoc; assumption] |].
  split; [intros Hu; apply requested_snoc, H4, Hu |].
  split; [intros Hstep; apply requested_snoc, H5, Hstep |].
  intros Hstep. apply verified_snoc, H6, Hstep.
Qed.

(** A button that only changes the step, and not to a passcode or reset
    step. *)
Lemma invariant_leave (E : Engine.t) (es : list LoginFlow.Event) (e : LoginFlow.Event)
    (st st' : LoginFlow.State) :
  LoginFlow.tasks st' = LoginFlow.tasks st ->
  LoginForm.isLoading (LoginFlow.form st') = LoginForm.isLoading (LoginFlow.form st) ->
  LoginForm.matchedUser (LoginFlow.form st') = LoginForm.matchedUser (LoginFlow.form st) ->
  (LoginForm.step (LoginFlow.form st') = LoginForm.StepCredentials
   \/ LoginForm.step (LoginFlow.form st') = LoginForm.StepForgotRequest) ->
  LoginFlow.invariant E es st -> LoginFlow.invariant E (es ++ [e]) st'.
Proof.
  intros Ht Hl Hm Hs (H1 & H2 & H3 & H4 & H5 & H6).
  unfold LoginFlow.invariant. rewrite Ht, Hl, Hm.
  split; [exact H1 |].
  split; [intros u Hu; destruct (H2 u Hu); split; [assumption | apply checked_snoc; assumption] |].
  split; [intros Hstep; destruct Hs as [Hs | Hs]; congruence |].
  split; [intros Hu; apply requested_snoc, H4, Hu |].
  split; [intros [Hstep | Hstep]; destruct Hs as [Hs | Hs]; congruence |].
  intros Hstep. destruct Hs as [Hs | Hs]; congruence.
Qed.

(** With no handler pending, a change of the loading flag or of the error
    message keeps the invariant. *)
Lemma invariant_idle (E : Engine.t) (es : list LoginFlow.Event) (e : LoginFlow.Event)
    (st st' : LoginFlow.State) :
  LoginFlow.tasks st = [] ->
  LoginFlow.tasks st' = [] ->
  LoginForm.matchedUser (LoginFlow.form st') = LoginForm.matchedUser (LoginFlow.form st) ->
  LoginForm.step (LoginFlow.form st') = LoginForm.step (LoginFlow.form st) ->
  LoginFlow.invariant E es st -> LoginFlow.invariant E (es ++ [e]) st'.
Proof.
  intros Ht0 Ht Hm Hs (H1 & H2 & H3 & H4 & H5 & H6).
  unfold LoginFlow.invariant. rewrite Ht, Hm, Hs.
  split; [left; reflexivity |].
  split; [intros u [Hu | (c & Hu)]; discriminate Hu |].
  split; [intros Hstep; destruct (H3 Hstep) as (u & ? & ?); exists u;
          split; [assumption | apply checked_snoc; assumption] |].
  split; [intros (u & [Hu | (c & Hu)]); discriminate Hu |].
  split; [intros Hstep; apply requested_snoc, H5, Hstep |].
  intros Hstep. apply verified_snoc, H6, Hstep.
Qed.

Lemma idle_of_not_loading (E : Engine.t) (es : list LoginFlow.Event) (st : LoginFlow.State) :
  LoginFlow.invariant E es st ->
  LoginForm.isLoading (LoginFlow.form st) = false ->
  LoginFlow.tasks st = [].
Proof.
  intros ([H | (t & _ & H)] & _) Hl; [exact H | congruence].
Qed.

Lemma login_handleOtpSubmit_frame (f : LoginForm.State) :
  LoginForm.matchedUser (fst (LoginForm.handleOtpSubmit f)) = LoginForm.matchedUser f
  /\ LoginForm.step (fst (LoginForm.handleOtpSubmit f)) = LoginForm.step f.
Proof.
  unfold LoginForm.handleOtpSubmit.
  change (LoginForm.matchedUser (LoginForm.setError "" (LoginForm.setIsLoading true f)))
    with (LoginForm.matchedUser f).
  destruct (String.eqb _ _); [destruct (LoginForm.matchedUser f) eqn:Hm |];
    split; cbn; first [reflexivity | exact Hm].
Qed.

Lemma flow_step (E : Engine.t) (es : list LoginFlow.Event) (e : LoginFlow.Event) :
  let st := LoginFlow.run E es LoginFlow.initial in
  LoginFlow.invariant E es st ->
  LoginFlow.invariant E (es ++ [e]) (LoginFlow.handle E e st).
Proof.
  intros st Hinv. unfold LoginFlow.handle.
  destruct (LoginFlow.enabled E (LoginFlow.form st) e) eqn:Hen;
    [| apply (invariant_quiet E es e st st); auto].
  unfold LoginFlow.enabled in Hen.
  destruct e as [name value | checked | | users | index value | | | | | | value | users
                 | | value | value | | i code | i message].
  - (* Change *)
    apply (invariant_quiet E es _ st); auto.
  - (* Agree *)
    apply (invariant_quiet E es _ st); auto.
  - (* ForgotClick *)
    apply (invariant_leave E es _ st); auto.
  - (* SubmitCredentials *)
    destruct (LoginForm.step (LoginFlow.form st)) eqn:Hstep; try discriminate Hen.
    apply negb_true_iff, orb_false_iff in Hen. destruct Hen as [Hload Hagreed].
    apply negb_false_iff in Hagreed.
    pose proof (idle_of_not_loading E es st Hinv Hload) as Hidle.
    unfold LoginFlow.credentialsStart. rewrite Hagreed. cbn [negb].
    change (LoginForm.formData
              (LoginForm.setNotification None
                 (LoginForm.setError "" (LoginForm.setIsLoading true (LoginFlow.form st)))))
      with (LoginForm.formData (LoginFlow.form st)).
    destruct (LoginFlow.findUser E users
                (LoginForm.username (LoginForm.formData (LoginFlow.form st))))
      as [user |] eqn:Hfind;
      [destruct (Js.differs (App.password user)
                   (LoginForm.password (LoginForm.formData (LoginFlow.form st)))) eqn:Hpw |].
    + apply (invariant_idle E es _ st); auto.
    + apply differs_false in Hpw.
      destruct Hinv as (H1 & H2 & H3 & H4 & H5 & H6).
      unfold LoginFlow.invariant. rewrite Hidle.
      cbn [LoginFlow.tasks LoginFlow.form app LoginForm.isLoading LoginForm.matchedUser
           LoginForm.step LoginForm.setMatchedUser LoginForm.setNotification
           LoginForm.setError LoginForm.setIsLoading].
      split; [right; eexists; split; reflexivity |].
      split.
      { intros u [Hu | (c & Hu)]; [| discriminate Hu]. injection Hu as <-.
        split; [reflexivity |].
        exists es, [], users. split; [reflexivity |].
        cbn zeta. fold st. repeat split; assumption. }
      split; [rewrite Hstep; discriminate |].
      split; [intros (u & [Hu | (c & Hu)]); discriminate Hu |].
      split; [rewrite Hstep; intros [? | ?]; discriminate | rewrite Hstep; discriminate].
    + apply (invariant_idle E es _ st); auto.
  - (* TypeOtp *)
    apply (invariant_quiet E es _ st); auto;
      unfold LoginFlow.onForm; cbn [LoginFlow.form LoginFlow.tasks]; unfold LoginForm.handleOtpChange;
      destruct (negb _); reflexivity.
  - (* DismissNotification *)
    apply (invariant_quiet E es _ st); auto.
  - (* SubmitOtp *)
    destruct (LoginForm.step (LoginFlow.form st)) eqn:Hstep; try discriminate Hen.
    unfold LoginFlow.verifyEnabled in Hen. apply andb_true_iff in Hen.
    destruct Hen as [_ Hload]. apply negb_true_iff in Hload.
    pose proof (idle_of_not_loading E es st Hinv Hload) as Hidle.
    apply (invariant_idle E es _ st); auto;
      unfold LoginFlow.onForm; cbn [LoginFlow.form LoginFlow.tasks]; apply login_handleOtpSubmit_frame.
  - (* SubmitForgotVerify *)
    destruct (LoginForm.step (LoginFlow.form st)) eqn:Hstep; try discriminate Hen.
    unfold LoginFlow.onForm; cbn beta. unfold LoginForm.handleForgotVerifySubmit.
    destruct (String.eqb_spec (LoginForm.enteredOtp (LoginFlow.form st))
                (LoginForm.generatedOtp (LoginFlow.form st))) as [Hcode | _];
      [| apply (invariant_quiet E es _ st); auto].
    destruct Hinv as (H1 & H2 & H3 & H4 & H5 & H6).
    unfold LoginFlow.invariant.
    cbn [LoginFlow.tasks LoginFlow.form LoginForm.isLoading LoginForm.matchedUser
         LoginForm.step LoginForm.setStep].
    split; [exact H1 |].
    split; [intros u Hu; destruct (H2 u Hu); split;
            [assumption | apply checked_snoc; assumption] |].
    split; [discriminate |].
    split; [intros Hu; apply requested_snoc, H4, Hu |].
    split; [intros _; apply requested_snoc, H5; left; exact Hstep |].
    intros _. exists es, []. split; [reflexivity |]. cbn zeta. fold st.
    split; assumption.
  - (* Resend *)
    assert (Hload : LoginForm.isLoading (LoginFlow.form st) = false)
      by (destruct (LoginForm.step (LoginFlow.form st)); try discriminate Hen;
          apply negb_true_iff; exact Hen).
    pose proof (idle_of_not_loading E es st Hinv Hload) as Hidle.
    destruct Hinv as (H1 & H2 & H3 & H4 & H5 & H6).
    unfold LoginFlow.invariant, LoginFlow.resendStart. rewrite Hidle.
    cbn [LoginFlow.tasks LoginFlow.form app LoginForm.isLoading LoginForm.matchedUser
         LoginForm.step LoginForm.setIsLoading].
    split; [right; eexists; split; reflexivity |].
    split; [intros u [Hu | (c & Hu)]; discriminate Hu |].
    split; [intros Hs; destruct (H3 Hs) as (u & ? & ?); exists u;
            split; [assumption | apply checked_snoc; assumption] |].
    split; [intros (u & [Hu | (c & Hu)]); discriminate Hu |].
    split; [intros Hs; apply requested_snoc, H5, Hs |].
    intros Hs. apply verified_snoc, H6, Hs.
  - (* Cancel *)
    apply (invariant_leave E es _ st); auto.
  - (* TypeForgotUsername *)
    apply (invariant_quiet E es _ st); auto.
  - (* SubmitForgotRequest *)
    destruct (LoginForm.step (LoginFlow.form st)) eqn:Hstep; try discriminate Hen.
    apply negb_true_iff, orb_false_iff in Hen. destruct Hen as [Hload _].
    pose proof (idle_of_not_loading E es st Hinv Hload) as Hidle.
    unfold LoginFlow.forgotStart.
    change (LoginForm.forgotUsername
              (LoginForm.setNotification None
                 (LoginForm.setError "" (LoginForm.setIsLoading true (LoginFlow.form st)))))
      with (LoginForm.forgotUsername (LoginFlow.form st)).
    destruct (LoginFlow.findUser E users (LoginForm.forgotUsername (LoginFlow.form st)))
      as [user |] eqn:Hfind;
      [| apply (invariant_idle E es _ st); auto].
    destruct Hinv as (H1 & H2 & H3 & H4 & H5 & H6).
    unfold LoginFlow.invariant. rewrite Hidle.
    cbn [LoginFlow.tasks LoginFlow.form app LoginForm.isLoading LoginForm.matchedUser
         LoginForm.step LoginForm.setMatchedUser LoginForm.setNotification
         LoginForm.setError LoginForm.setIsLoading].
    split; [right; eexists; split; reflexivity |].
    split; [intros u [Hu | (c & Hu)]; discriminate Hu |].
    split; [rewrite Hstep; discriminate |].
    split.
    { intros _. exists es, [], users, user. split; [reflexivity |].
      cbn zeta. fold st. split; assumption. }
    split; [rewrite Hstep; intros [? | ?]; discriminate | rewrite Hstep; discriminate].
  - (* BackToLogin *)
    apply (invariant_leave E es _ st); auto.
  - (* TypeNewPassword *)
    apply (invariant_quiet E es _ st); auto.
  - (* TypeConfirmPassword *)
    apply (invariant_quiet E es _ st); auto.
  - (* SubmitPasswordReset *)
    unfold LoginFlow.onForm; cbn beta. unfold LoginFlow.handlePasswordResetSubmit.
    destruct (LoginFlow.validatePassword E _);
      [apply (invariant_quiet E es _ st); auto |].
    destruct (negb _);
      [apply (invariant_quiet E es _ st); auto
      | apply (invariant_leave E es _ st); auto].
  - (* OtpAnswer *)
    unfold LoginFlow.resume.
    destruct (LoginFlow.tasks st !! i) as [t |] eqn:Ht;
      [| apply (invariant_quiet E es _ st); auto].
    destruct Hinv as (H1 & H2 & H3 & H4 & H5 & H6).
    destruct H1 as [H1 | (t0 & H1 & Hload)]; [rewrite H1 in Ht; discriminate Ht |].
    rewrite H1 in Ht. destruct i as [| i]; [| discriminate Ht]. injection Ht as ->.
    unfold LoginFlow.invariant.
    destruct t as [u | u c | u | u c | n | n c]; cbn [LoginFlow.otpResolved];
      rewrite H1;
      cbn [LoginFlow.tasks LoginFlow.form LoginForm.isLoading LoginForm.matchedUser
           LoginForm.step LoginForm.setGeneratedOtp];
      change (<[0%nat := ?x]> [?y]) with [x];
      (split; [right; eexists; split; [reflexivity | exact Hload] |]).
    all: split;
      [intros u' [Hu | (c' & Hu)]; try discriminate Hu; injection Hu as <-;
       try (destruct (H2 u (or_introl H1)); split;
            [assumption | apply checked_snoc; assumption]);
       try (subst; destruct (H2 u (or_intror (ex_intro _ _ H1))); split;
            [assumption | apply checked_snoc; assumption]) |].
    all: split; [intros Hs; destruct (H3 Hs) as (u' & ? & ?); exists u';
                 split; [assumption | apply checked_snoc; assumption] |].
    all: split;
      [intros (u' & [Hu | (c' & Hu)]); try discriminate Hu;
       apply requested_snoc, H4; eexists; first [left; exact H1 | right; eexists; exact H1] |].
    all: split; [intros Hs; apply requested_snoc, H5, Hs
                | intros Hs; apply verified_snoc, H6, Hs].
  - (* MessageAnswer *)
    unfold LoginFlow.resume.
    destruct (LoginFlow.tasks st !! i) as [t |] eqn:Ht;
      [| apply (invariant_quiet E es _ st); auto].
    destruct Hinv as (H1 & H2 & H3 & H4 & H5 & H6).
    destruct H1 as [H1 | (t0 & H1 & Hload)]; [rewrite H1 in Ht; discriminate Ht |].
    rewrite H1 in Ht. destruct i as [| i]; [| discriminate Ht]. injection Ht as ->.
    unfold LoginFlow.invariant.
    destruct t as [u | u c | u | u c | n | n c]; cbn [LoginFlow.messageResolved];
      rewrite H1;
      cbn [LoginFlow.tasks LoginFlow.form LoginForm.isLoading LoginForm.matchedUser
           LoginForm.step LoginForm.setStep LoginForm.setIsLoading LoginForm.setOtp
           LoginForm.showOtpNotification LoginForm.setNotification];
      try change (<[0%nat := ?x]> [?y]) with [x];
      try change (delete 0%nat [?y]) with (@nil LoginFlow.Task).
    + (* still awaiting the code *)
      split; [right; eexists; split; [reflexivity | exact Hload] |].
      split; [intros u' Hu; destruct (H2 u' ltac:(rewrite H1; exact Hu)); split;
              [assumption | apply checked_snoc; assumption] |].
      split; [intros Hs; destruct (H3 Hs) as (u' & ? & ?); exists u';
              split; [assumption | apply checked_snoc; assumption] |].
      split; [intros Hu; apply requested_snoc, H4; rewrite H1; exact Hu |].
      split; [intros Hs; apply requested_snoc, H5, Hs
             | intros Hs; apply verified_snoc, H6, Hs].
    + (* the credentials handler ends *)
      split; [left; reflexivity |].
      split; [intros u' [Hu | (c' & Hu)]; discriminate Hu |].
      split; [intros _; exists u;
              destruct (H2 u (or_intror (ex_intro _ c H1))); split;
              [assumption | apply checked_snoc; assumption] |].
      split; [intros (u' & [Hu | (c' & Hu)]); discriminate Hu |].
      split; [intros [? | ?]; discriminate | discriminate].
    + split; [right; eexists; split; [reflexivity | exact Hload] |].
      split; [intros u' Hu; destruct (H2 u' ltac:(rewrite H1; exact Hu)); split;
              [assumption | apply checked_snoc; assumption] |].
      split; [intros Hs; destruct (H3 Hs) as (u' & ? & ?); exists u';
              split; [assumption | apply checked_snoc; assumption] |].
      split; [intros Hu; apply requested_snoc, H4; rewrite H1; exact Hu |].
      split; [intros Hs; apply requested_snoc, H5, Hs
             | intros Hs; apply verified_snoc, H6, Hs].
    + (* the reset request ends *)
      split; [left; reflexivity |].
      split; [intros u' [Hu | (c' & Hu)]; discriminate Hu |].
      split; [discriminate |].
      split; [intros (u' & [Hu | (c' & Hu)]); discriminate Hu |].
      split; [intros _; apply requested_snoc, H4; exists u; right; exists c; exact H1
             | discriminate].
    + split; [right; eexists; split; [reflexivity | exact Hload] |].
      split; [intros u' Hu; destruct (H2 u' ltac:(rewrite H1; exact Hu)); split;
              [assumption | apply checked_snoc; assumption] |].
      split; [intros Hs; destruct (H3 Hs) as (u' & ? & ?); exists u';
              split; [assumption | apply checked_snoc; assumption] |].
      split; [intros Hu; apply requested_snoc, H4; rewrite H1; exact Hu |].
      split; [intros Hs; apply requested_snoc, H5, Hs
             | intros Hs; apply verified_snoc, H6, Hs].
    + (* a resend ends *)
      split; [left; reflexivity |].
      split; [intros u' [Hu | (c' & Hu)]; discriminate Hu |].
      split; [intros Hs; destruct (H3 Hs) as (u' & ? & ?); exists u';
              split; [assumption | apply checked_snoc; assumption] |].
      split; [intros (u' & [Hu | (c' & Hu)]); discriminate Hu |].
      split; [intros Hs; apply requested_snoc, H5, Hs
             | intros Hs; apply verified_snoc, H6, Hs].
Qed.

Lemma flow_invariant (E : Engine.t) (es : list LoginFlow.Event) :
  LoginFlow.invariant E es (LoginFlow.run E es LoginFlow.initial).
Proof.
  induction es as [| e es IH] using rev_ind.
  - unfold LoginFlow.invariant. cbn.
    split; [left; reflexivity |].
    split; [intros u [Hu | (c & Hu)]; discriminate Hu |].
    split; [discriminate |].
    split; [intros (u & [Hu | (c & Hu)]); discriminate Hu |].
    split; [intros [? | ?]; discriminate | discriminate].
  - rewrite flow_run_snoc. apply flow_step, IH.
Qed.

(** X3. Whatever is typed or clicked on the login form and whenever the
    provider's calls resolve, [onLoginSuccess] is only called by the
    passcode form, when the digits entered equal the code stored, and with a
    record that passed the password check: among the events before there is
    a submission of the credentials form, made with the box ticked, at
    which the lookup of the name typed then found this record and the
    password typed then was the one stored in it. (What the two boxes hold
    when the passcode is entered need not be that pair: they stay editable
    while the code is being generated.) The lookup's case folding is the
    engine's, whatever it is. *)
Theorem login_only_with_checked_password
    (E : Engine.t) (es : list LoginFlow.Event) (e : LoginFlow.Event) (u : App.UserData) :
  let st := LoginFlow.run E es LoginFlow.initial in
  LoginFlow.loginCall E e st = Some u ->
  e = LoginFlow.SubmitOtp
  /\ LoginForm.step (LoginFlow.form st) = LoginForm.StepOtp
  /\ LoginForm.enteredOtp (LoginFlow.form st) = LoginForm.generatedOtp (LoginFlow.form st)
  /\ LoginForm.matchedUser (LoginFlow.form st) = Some u
  /\ LoginFlow.checked E es u.
Proof.
  intros st Hcall.
  destruct e; try discriminate Hcall. cbn [LoginFlow.loginCall] in Hcall.
  destruct (LoginFlow.enabled E (LoginFlow.form st) LoginFlow.SubmitOtp) eqn:Hen;
    [| discriminate Hcall].
  unfold LoginFlow.enabled in Hen.
  destruct (LoginForm.step (LoginFlow.form st)) eqn:Hstep; try discriminate Hen.
  unfold LoginForm.handleOtpSubmit in Hcall.
  change (LoginForm.enteredOtp
            (LoginForm.setError "" (LoginForm.setIsLoading true (LoginFlow.form st))))
    with (LoginForm.enteredOtp (LoginFlow.form st)) in Hcall.
  change (LoginForm.generatedOtp
            (LoginForm.setError "" (LoginForm.setIsLoading true (LoginFlow.form st))))
    with (LoginForm.generatedOtp (LoginFlow.form st)) in Hcall.
  change (LoginForm.matchedUser
            (LoginForm.setError "" (LoginForm.setIsLoading true (LoginFlow.form st))))
    with (LoginForm.matchedUser (LoginFlow.form st)) in Hcall.
  destruct (String.eqb_spec (LoginForm.enteredOtp (LoginFlow.form st))
              (LoginForm.generatedOtp (LoginFlow.form st))) as [Hcode | _];
    [| discriminate Hcall].
  destruct (flow_invariant E es) as (_ & _ & H3 & _). fold st in H3.
  destruct (H3 Hstep) as (v & Hv & Hchecked).
  rewrite Hv in Hcall. cbn in Hcall. injection Hcall as ->.
  repeat split; assumption.
Qed.

Lemma login_only_with_checked_password_witness :
  LoginForm.password
    (LoginForm.formData (LoginFlow.form
       (LoginFlow.run Engine.ascii Demo.loginFlowEvents LoginFlow.initial))) = ""
  /\ LoginForm.matchedUser
       (LoginFlow.form (LoginFlow.run Engine.ascii Demo.loginFlowEvents LoginFlow.initial))
     = Some (Sample.mkUser "alice" None).
Proof.
  split; [reflexivity |].
  refine (proj1 (proj2 (proj2 (proj2
            (login_only_with_checked_password Engine.ascii Demo.loginFlowEvents
               LoginFlow.SubmitOtp (Sample.mkUser "alice" None) _))))).
  reflexivity.
Defined.

Lemma flow_resume_step (E : Engine.t) (i : nat) (st : LoginFlow.State)
    (g : LoginFlow.Task -> LoginForm.State -> LoginForm.State * option LoginFlow.Task) :
  (forall t f, LoginForm.step (fst (g t f)) = LoginForm.StepForgotReset ->
               LoginForm.step f = LoginForm.StepForgotReset) ->
  LoginForm.step (LoginFlow.form (LoginFlow.resume g i st)) = LoginForm.StepForgotReset ->
  LoginForm.step (LoginFlow.form st) = LoginForm.StepForgotReset.
Proof.
  intros Hg. unfold LoginFlow.resume.
  destruct (LoginFlow.tasks st !! i) as [t |]; [| exact id].
  specialize (Hg t (LoginFlow.form st)).
  destruct (g t (LoginFlow.form st)) as [f [t' |]]; cbn in *; exact Hg.
Qed.

(** X4. Whatever is typed or clicked on the login form and whenever the
    provider's calls resolve: the step that asks for a new password is only
    entered by submitting, on the reset passcode step, digits equal to the
    code stored; and [onPasswordReset] is only called from that step, with
    the name and the new password the form holds, a password that passes
    the password rules and equals its confirmation, after a reset code was
    requested for a name that found an account and after the stored code
    was entered. (The name the call carries is the one the form holds when
    the new password is submitted; the name box stays editable while the
    code is being generated.) The engine's [length] and case folding are
    taken as they are. *)
Theorem reset_only_after_code (E : Engine.t) (es : list LoginFlow.Event) :
  let st := LoginFlow.run E es LoginFlow.initial in
  (forall e : LoginFlow.Event,
      LoginForm.step (LoginFlow.form st) <> LoginForm.StepForgotReset ->
      LoginForm.step (LoginFlow.form (LoginFlow.handle E e st)) = LoginForm.StepForgotReset ->
      e = LoginFlow.SubmitForgotVerify
      /\ LoginForm.step (LoginFlow.form st) = LoginForm.StepForgotVerify
      /\ LoginForm.enteredOtp (LoginFlow.form st)
         = LoginForm.generatedOtp (LoginFlow.form st))
  /\ (forall (e : LoginFlow.Event) (name pass : string),
        LoginFlow.resetCall E e st = Some (name, pass) ->
        e = LoginFlow.SubmitPasswordReset
        /\ LoginForm.step (LoginFlow.form st) = LoginForm.StepForgotReset
        /\ name = LoginForm.forgotUsername (LoginFlow.form st)
        /\ pass = LoginForm.newPassword (LoginFlow.form st)
        /\ LoginFlow.validatePassword E pass = None
        /\ pass = LoginForm.confirmPassword (LoginFlow.form st)
        /\ LoginFlow.requested E es
        /\ LoginFlow.verified E es).
Proof.
  intros st. split.
  - intros e Hne Hres. unfold LoginFlow.handle in Hres.
    destruct (LoginFlow.enabled E (LoginFlow.form st) e) eqn:Hen; [| contradiction].
    unfold LoginFlow.enabled in Hen.
    destruct e; destruct (LoginForm.step (LoginFlow.form st)) eqn:Hs;
      try discriminate Hen; try (exfalso; apply Hne; reflexivity);
      unfold LoginFlow.onForm, LoginFlow.credentialsStart, LoginFlow.forgotStart,
        LoginFlow.resendStart in Hres; cbn [LoginFlow.form] in Hres.
    all: try (apply (flow_resume_step E) in Hres;
              [congruence
              | intros t f; destruct t; cbn; first [exact id | discriminate]]).
    all: try (unfold LoginForm.handleChange, LoginForm.handleOtpChange,
                LoginForm.handleOtpSubmit, LoginForm.handleCancel,
                LoginForm.handleBackToLogin, LoginForm.handleForgotClick in Hres;
              repeat match type of Hres with
                     | context [if ?c then _ else _] => destruct c
                     | context [match ?c with _ => _ end] => destruct c
                     end;
              cbn in Hres; congruence).
    unfold LoginForm.handleForgotVerifySubmit in Hres.
    destruct (String.eqb_spec (LoginForm.enteredOtp (LoginFlow.form st))
                (LoginForm.generatedOtp (LoginFlow.form st))) as [Hcode | _];
      [| cbn in Hres; congruence].
    repeat split; assumption.
  - intros e name pass Hcall.
    destruct e; try discriminate Hcall. cbn [LoginFlow.resetCall] in Hcall.
    destruct (LoginFlow.enabled E (LoginFlow.form st) LoginFlow.SubmitPasswordReset) eqn:Hen;
      [| discriminate Hcall].
    unfold LoginFlow.enabled in Hen.
    destruct (LoginForm.step (LoginFlow.form st)) eqn:Hstep; try discriminate Hen.
    unfold LoginFlow.handlePasswordResetSubmit in Hcall.
    change (LoginForm.newPassword (LoginForm.setError "" (LoginFlow.form st)))
      with (LoginForm.newPassword (LoginFlow.form st)) in Hcall.
    change (LoginForm.confirmPassword (LoginForm.setError "" (LoginFlow.form st)))
      with (LoginForm.confirmPassword (LoginFlow.form st)) in Hcall.
    change (LoginForm.forgotUsername (LoginForm.setError "" (LoginFlow.form st)))
      with (LoginForm.forgotUsername (LoginFlow.form st)) in Hcall.
    destruct (LoginFlow.validatePassword E (LoginForm.newPassword (LoginFlow.form st)))
      eqn:Hval; [discriminate Hcall |].
    destruct (String.eqb_spec (LoginForm.newPassword (LoginFlow.form st))
                (LoginForm.confirmPassword (LoginFlow.form st))) as [Hconf | _];
      [| discriminate Hcall].
    cbn in Hcall. injection Hcall as <- <-.
    destruct (flow_invariant E es) as (_ & _ & _ & _ & H5 & H6). fold st in H5, H6.
    repeat split; try assumption; try reflexivity.
    + apply H5. right. exact Hstep.
    + apply H6. exact Hstep.
Qed.

Lemma reset_only_after_code_witness :
  LoginFlow.resetCall Engine.ascii LoginFlow.SubmitPasswordReset
    (LoginFlow.run Engine.ascii Demo.resetFlowEvents LoginFlow.initial)
  = Some ("Alice", "N3wPassword")
  /\ LoginFlow.validatePassword Engine.ascii "N3wPassword" = None.
Proof.
  split; [reflexivity |].
  refine (proj1 (proj2 (proj2 (proj2 (proj2
            (proj2 (reset_only_after_code Engine.ascii Demo.resetFlowEvents)
               LoginFlow.SubmitPasswordReset "Alice" "N3wPassword" _)))))).
  reflexivity.
Defined.

(** Left alone between its awaits, the credentials handler of the
    await-by-await form does what [handleCredentialsSubmit] does in one
    piece; so does the reset request. *)
Lemma flow_credentials_undisturbed
    (users : list App.UserData) (code : string) (message : option string)
    (st : LoginFlow.State) :
  LoginFlow.tasks st = [] ->
  LoginForm.step (LoginFlow.form st) = LoginForm.StepCredentials ->
  LoginForm.isLoading (LoginFlow.form st) = false ->
  LoginFlow.handle Engine.ascii (LoginFlow.MessageAnswer 0 message)
    (LoginFlow.handle Engine.ascii (LoginFlow.OtpAnswer 0 code)
       (LoginFlow.handle Engine.ascii (LoginFlow.SubmitCredentials users) st))
  = {| LoginFlow.form := LoginForm.handleCredentialsSubmit users code message (LoginFlow.form st);
       LoginFlow.tasks := [] |}.
Proof.
  destruct st as [f ts]. cbn [LoginFlow.tasks LoginFlow.form]. intros -> Hstep Hload.
  unfold LoginFlow.handle at 3. unfold LoginFlow.enabled. cbn [LoginFlow.form].
  rewrite Hstep, Hload. unfold LoginForm.handleCredentialsSubmit.
  destruct (LoginForm.agreed f) eqn:Hagreed; cbn [negb orb].
  2: { unfold LoginFlow.handle, LoginFlow.enabled. cbn. destruct (LoginForm.step f); reflexivity. }
  unfold LoginFlow.credentialsStart. cbn [LoginFlow.form LoginFlow.tasks].
  rewrite Hagreed. cbn [negb].
  change (LoginFlow.findUser Engine.ascii) with LoginForm.findUser.
  destruct (LoginForm.findUser users _) as [user |];
    [destruct (Js.differs (App.password user) _) |];
    unfold LoginFlow.handle, LoginFlow.enabled; cbn;
    repeat match goal with |- context [match LoginForm.step ?x with _ => _ end] =>
             destruct (LoginForm.step x) end;
    reflexivity.
Qed.

Lemma flow_forgot_undisturbed
    (users : list App.UserData) (code : string) (message : option string)
    (st : LoginFlow.State) :
  LoginFlow.tasks st = [] ->
  LoginForm.step (LoginFlow.form st) = LoginForm.StepForgotRequest ->
  LoginForm.isLoading (LoginFlow.form st) = false ->
  LoginForm.forgotUsername (LoginFlow.form st) <> "" ->
  LoginFlow.handle Engine.ascii (LoginFlow.MessageAnswer 0 message)
    (LoginFlow.handle Engine.ascii (LoginFlow.OtpAnswer 0 code)
       (LoginFlow.handle Engine.ascii (LoginFlow.SubmitForgotRequest users) st))
  = {| LoginFlow.form :=
         LoginForm.handleForgotRequestSubmit users code message (LoginFlow.form st);
       LoginFlow.tasks := [] |}.
Proof.
  destruct st as [f ts]. cbn [LoginFlow.tasks LoginFlow.form]. intros -> Hstep Hload Hname.
  unfold LoginFlow.handle at 3. unfold LoginFlow.enabled. cbn [LoginFlow.form].
  rewrite Hstep, Hload, (truthy_nonempty _ Hname). cbn [negb orb].
  unfold LoginForm.handleForgotRequestSubmit, LoginFlow.forgotStart.
  cbn [LoginFlow.form LoginFlow.tasks].
  change (LoginFlow.findUser Engine.ascii) with LoginForm.findUser.
  destruct (LoginForm.findUser users _) as [user |];
    unfold LoginFlow.handle, LoginFlow.enabled; cbn;
    repeat match goal with |- context [match LoginForm.step ?x with _ => _ end] =>
             destruct (LoginForm.step x) end;
    reflexivity.
Qed.

(** ** The registration form, await by await *)

Lemma register_run_snoc (E : Engine.t) (es : list RegisterFlow.Event)
    (e : RegisterFlow.Event) (st : RegisterFlow.State) :
  RegisterFlow.run E (es ++ [e]) st = RegisterFlow.handle E e (RegisterFlow.run E es st).
Proof. unfold RegisterFlow.run. rewrite fold_left_app. reflexivity. Qed.

Lemma register_accepted_snoc (E : Engine.t) (es : list RegisterFlow.Event)
    (e : RegisterFlow.Event) :
  RegisterFlow.accepted E es -> RegisterFlow.accepted E (es ++ [e]).
Proof.
  intros (es1 & es2 & users & -> & H). exists es1, (es2 ++ [e]), users.
  split; [rewrite <- app_assoc; reflexivity | exact H].
Qed.

Lemma register_verified_snoc (E : Engine.t) (es : list RegisterFlow.Event)
    (e : RegisterFlow.Event) :
  RegisterFlow.verified E es -> RegisterFlow.verified E (es ++ [e]).
Proof.
  intros (es1 & es2 & -> & H). exists es1, (es2 ++ [e]).
  split; [rewrite <- app_assoc; reflexivity | exact H].
Qed.

(** An event that leaves the pending handlers, the loading flag and the step
    alone keeps the invariant. *)
Lemma register_invariant_quiet (E : Engine.t) (es : list RegisterFlow.Event)
    (e : RegisterFlow.Event) (st st' : RegisterFlow.State) :
  RegisterFlow.tasks st' = RegisterFlow.tasks st ->
  RegisterForm.isLoading (RegisterFlow.form st') = RegisterForm.isLoading (RegisterFlow.form st) ->
  RegisterForm.step (RegisterFlow.form st') = RegisterForm.step (RegisterFlow.form st) ->
  RegisterFlow.invariant E es st -> RegisterFlow.invariant E (es ++ [e]) st'.
Proof.
  intros Ht Hl Hs (H1 & H2 & H3 & H4).
  unfold RegisterFlow.invariant. rewrite Ht, Hl, Hs.
  split; [exact H1 |].
  split; [intros Hn; apply register_accepted_snoc, H2, Hn |].
  split; [intros Hstep; apply register_accepted_snoc, H3, Hstep |].
  intros Hstep. apply register_verified_snoc, H4, Hstep.
Qed.

(** A button that only sends the form back to its first step. *)
Lemma register_invariant_back (E : Engine.t) (es : list RegisterFlow.Event)
    (e : RegisterFlow.Event) (st st' : RegisterFlow.State) :
  RegisterFlow.tasks st' = RegisterFlow.tasks st ->
  RegisterForm.isLoading (RegisterFlow.form st') = RegisterForm.isLoading (RegisterFlow.form st) ->
  RegisterForm.step (RegisterFlow.form st') = RegisterForm.StepDetails ->
  RegisterFlow.invariant E es st -> RegisterFlow.invariant E (es ++ [e]) st'.
Proof.
  intros Ht Hl Hs (H1 & H2 & H3 & H4).
  unfold RegisterFlow.invariant. rewrite Ht, Hl, Hs.
  split; [exact H1 |].
  split; [intros Hn; apply register_accepted_snoc, H2, Hn |].
  split; [intros [Hstep | Hstep]; discriminate Hstep | discriminate].
Qed.

(** With no handler pending, a change of the loading flag keeps the
    invariant. *)
Lemma register_invariant_idle (E : Engine.t) (es : list RegisterFlow.Event)
    (e : RegisterFlow.Event) (st st' : RegisterFlow.State) :
  RegisterFlow.tasks st' = [] ->
  RegisterForm.step (RegisterFlow.form st') = RegisterForm.step (RegisterFlow.form st) ->
  RegisterFlow.invariant E es st -> RegisterFlow.invariant E (es ++ [e]) st'.
Proof.
  intros Ht Hs (H1 & H2 & H3 & H4).
  unfold RegisterFlow.invariant. rewrite Ht, Hs.
  split; [left; reflexivity |].
  split; [intros (n & [Hn | (c & Hn)]); discriminate Hn |].
  split; [intros Hstep; apply register_accepted_snoc, H3, Hstep |].
  intros Hstep. apply register_verified_snoc, H4, Hstep.
Qed.

Lemma register_idle_of_not_loading (E : Engine.t) (es : list RegisterFlow.Event)
    (st : RegisterFlow.State) :
  RegisterFlow.invariant E es st ->
  RegisterForm.isLoading (RegisterFlow.form st) = false ->
  RegisterFlow.tasks st = [].
Proof.
  intros ([H | (t & _ & H)] & _) Hl; [exact H | congruence].
Qed.

Lemma handleInputChange_frame (name : RegisterFlow.Field) (value : string)
    (f : RegisterForm.State) :
  RegisterForm.isLoading (RegisterFlow.handleInputChange name value f)
  = RegisterForm.isLoading f
  /\ RegisterForm.step (RegisterFlow.handleInputChange name value f) = RegisterForm.step f.
Proof.
  unfold RegisterFlow.handleInputChange.
  destruct (match RegisterForm.errors f !! RegisterFlow.key name with
            | Some m => Js.truthy m
            | None => false
            end); split; reflexivity.
Qed.

Lemma register_handleOtpChange_frame (index : nat) (value : string) (f : RegisterForm.State) :
  RegisterForm.isLoading (RegisterForm.handleOtpChange index value f)
  = RegisterForm.isLoading f
  /\ RegisterForm.step (RegisterForm.handleOtpChange index value f) = RegisterForm.step f.
Proof.
  unfold RegisterForm.handleOtpChange.
  destruct (negb (Js.every_char Js.is_digit value)); split; reflexivity.
Qed.

Lemma register_flow_step (E : Engine.t) (es : list RegisterFlow.Event)
    (e : RegisterFlow.Event) :
  let st := RegisterFlow.run E es RegisterFlow.initial in
  RegisterFlow.invariant E es st ->
  RegisterFlow.invariant E (es ++ [e]) (RegisterFlow.handle E e st).
Proof.
  intros st Hinv. unfold RegisterFlow.handle.
  destruct (RegisterFlow.enabled E (RegisterFlow.form st) e) eqn:Hen;
    [| apply (register_invariant_quiet E es e st st); [reflexivity .. | exact Hinv]].
  unfold RegisterFlow.enabled in Hen.
  destruct e as [name value | users | index value | | | | | | | i code | i message].
  - (* Input *)
    destruct (handleInputChange_frame name value (RegisterFlow.form st)) as [Hl Hs].
    apply (register_invariant_quiet E es _ st); [reflexivity | exact Hl | exact Hs | exact Hinv].
  - (* SubmitDetails *)
    destruct (RegisterForm.step (RegisterFlow.form st)) eqn:Hstep; try discriminate Hen.
    apply negb_true_iff in Hen.
    pose proof (register_idle_of_not_loading E es st Hinv Hen) as Hidle.
    unfold RegisterFlow.detailsStart. rewrite Hidle.
    set (f := RegisterForm.setNotification None
                (RegisterForm.setIsLoading true
                   (RegisterForm.setErrors ∅ (RegisterFlow.form st)))).
    assert (Hpass : RegisterFlow.passes E users (RegisterForm.formData (RegisterFlow.form st))
                    = negb (RegisterFlow.exists_ E users
                              (Engine.trim E (RegisterForm.username (RegisterForm.formData f))))
                      && match RegisterFlow.validatePassword E
                                 (RegisterForm.password (RegisterForm.formData f)) with
                         | Some _ => false
                         | None => true
                         end
                      && Js.truthy (RegisterForm.mpesaCode (RegisterForm.formData f))
                      && Js.is_alnum10 (RegisterForm.mpesaCode (RegisterForm.formData f)))
      by reflexivity.
    destruct (RegisterFlow.exists_ E users _);
      [apply (register_invariant_idle E es _ st); [reflexivity | reflexivity | exact Hinv] |].
    destruct (RegisterFlow.validatePassword E _);
      [apply (register_invariant_idle E es _ st); [reflexivity | reflexivity | exact Hinv] |].
    destruct (Js.truthy _); cbn [negb orb];
      [| apply (register_invariant_idle E es _ st); [reflexivity | reflexivity | exact Hinv]].
    destruct (Js.is_alnum10 _); cbn [negb];
      [| apply (register_invariant_idle E es _ st); [reflexivity | reflexivity | exact Hinv]].
    cbn in Hpass.
    assert (Hacc : RegisterFlow.accepted E (es ++ [RegisterFlow.SubmitDetails users])).
    { exists es, [], users. split; [reflexivity |]. fold st. split; assumption. }
    destruct Hinv as (H1 & H2 & H3 & H4).
    unfold RegisterFlow.invariant. cbn [RegisterFlow.tasks RegisterFlow.form List.app].
    split; [right; eexists; split; reflexivity |].
    split; [intros _; exact Hacc |].
    split; [intros _; exact Hacc |].
    change (RegisterForm.step f) with (RegisterForm.step (RegisterFlow.form st)).
    rewrite Hstep. discriminate.
  - (* TypeOtp *)
    destruct (register_handleOtpChange_frame index value (RegisterFlow.form st)) as [Hl Hs].
    apply (register_invariant_quiet E es _ st); [reflexivity | exact Hl | exact Hs | exact Hinv].
  - (* DismissNotification *)
    apply (register_invariant_quiet E es _ st); [reflexivity .. | exact Hinv].
  - (* SubmitOtp *)
    destruct (RegisterForm.step (RegisterFlow.form st)) eqn:Hstep; try discriminate Hen.
    apply andb_true_iff in Hen. destruct Hen as [_ Hen]. apply negb_true_iff in Hen.
    pose proof (register_idle_of_not_loading E es st Hinv Hen) as Hidle.
    unfold RegisterFlow.onForm, RegisterForm.handleOtpSubmit.
    change (RegisterForm.enteredOtp (RegisterForm.setIsLoading true (RegisterFlow.form st)))
      with (RegisterForm.enteredOtp (RegisterFlow.form st)).
    change (RegisterForm.generatedOtp (RegisterForm.setIsLoading true (RegisterFlow.form st)))
      with (RegisterForm.generatedOtp (RegisterFlow.form st)).
    destruct (String.eqb_spec (RegisterForm.enteredOtp (RegisterFlow.form st))
                (RegisterForm.generatedOtp (RegisterFlow.form st))) as [Hcode | _].
    + destruct Hinv as (H1 & H2 & H3 & H4).
      unfold RegisterFlow.invariant. cbn [RegisterFlow.tasks RegisterFlow.form].
      rewrite Hidle.
      split; [left; reflexivity |].
      split; [intros (n & [Hn | (c & Hn)]); discriminate Hn |].
      split; [intros _; apply register_accepted_snoc, H3; left; exact Hstep |].
      intros _. exists es, []. split; [reflexivity |]. fold st. split; assumption.
    + apply (register_invariant_idle E es _ st); [exact Hidle | reflexivity | exact Hinv].
  - (* Resend *)
    destruct (RegisterForm.step (RegisterFlow.form st)) eqn:Hstep; try discriminate Hen.
    apply negb_true_iff in Hen.
    pose proof (register_idle_of_not_loading E es st Hinv Hen) as Hidle.
    unfold RegisterFlow.resendStart. rewrite Hidle.
    destruct Hinv as (H1 & H2 & H3 & H4).
    unfold RegisterFlow.invariant. cbn [RegisterFlow.tasks RegisterFlow.form List.app].
    change (RegisterForm.step (RegisterForm.setIsLoading true (RegisterFlow.form st)))
      with (RegisterForm.step (RegisterFlow.form st)).
    split; [right; eexists; split; reflexivity |].
    split; [intros (n & [Hn | (c & Hn)]); discriminate Hn |].
    split; [intros Hs; apply register_accepted_snoc, H3, Hs |].
    intros Hs. apply register_verified_snoc, H4, Hs.
  - (* ChangeContact *)
    apply (register_invariant_back E es _ st); [reflexivity .. | exact Hinv].
  - (* Confirm *)
    apply (register_invariant_quiet E es _ st); [reflexivity .. | exact Hinv].
  - (* EditDetails *)
    apply (register_invariant_back E es _ st); [reflexivity .. | exact Hinv].
  - (* OtpAnswer *)
    unfold RegisterFlow.resume.
    destruct Hinv as (H1 & H2 & H3 & H4).
    destruct H1 as [H1 | (t & H1 & Hl)]; rewrite H1.
    { rewrite lookup_nil.
      apply (register_invariant_quiet E es _ st); [reflexivity .. |].
      split; [left; exact H1 | repeat split; assumption]. }
    destruct i as [| i]; cbn [lookup list_lookup];
      [| try rewrite lookup_nil;
         apply (register_invariant_quiet E es _ st); [reflexivity .. |];
         split; [right; exists t; split; assumption | repeat split; assumption]].
    destruct t as [n | n c | n | n c]; cbn [RegisterFlow.otpResolved];
      unfold RegisterFlow.invariant;
      cbn [RegisterFlow.tasks RegisterFlow.form insert list_insert];
      change (RegisterForm.step (RegisterForm.setGeneratedOtp code (RegisterFlow.form st)))
        with (RegisterForm.step (RegisterFlow.form st));
      change (RegisterForm.isLoading
                (RegisterForm.setGeneratedOtp code (RegisterFlow.form st)))
        with (RegisterForm.isLoading (RegisterFlow.form st)).
    all: split; [right; eexists; split; [reflexivity | exact Hl] |].
    all: split;
      [| split; [intros Hs; apply register_accepted_snoc, H3, Hs
                | intros Hs; apply register_verified_snoc, H4, Hs]].
    + intros _. apply register_accepted_snoc, H2. exists n. left. exact H1.
    + intros _. apply register_accepted_snoc, H2. exists n. right. exists c. exact H1.
    + intros (m & [Hn | (c & Hn)]); discriminate Hn.
    + intros (m & [Hn | (c' & Hn)]); discriminate Hn.
  - (* MessageAnswer *)
    unfold RegisterFlow.resume.
    destruct Hinv as (H1 & H2 & H3 & H4).
    destruct H1 as [H1 | (t & H1 & Hl)]; rewrite H1.
    { rewrite lookup_nil.
      apply (register_invariant_quiet E es _ st); [reflexivity .. |].
      split; [left; exact H1 | repeat split; assumption]. }
    destruct i as [| i]; cbn [lookup list_lookup];
      [| try rewrite lookup_nil;
         apply (register_invariant_quiet E es _ st); [reflexivity .. |];
         split; [right; exists t; split; assumption | repeat split; assumption]].
    destruct t as [n | n c | n | n c]; cbn [RegisterFlow.messageResolved];
      unfold RegisterFlow.invariant;
      cbn [RegisterFlow.tasks RegisterFlow.form insert list_insert delete list_delete].
    + split; [right; eexists; split; [reflexivity | exact Hl] |].
      split; [intros _; apply register_accepted_snoc, H2; exists n; left; exact H1 |].
      split; [intros Hs; apply register_accepted_snoc, H3, Hs
             | intros Hs; apply register_verified_snoc, H4, Hs].
    + assert (Hacc : RegisterFlow.accepted E (es ++ [RegisterFlow.MessageAnswer 0 message])).
      { apply register_accepted_snoc, H2. exists n. right. exists c. exact H1. }
      split; [left; reflexivity |].
      split; [intros _; exact Hacc |].
      split; [intros _; exact Hacc | discriminate].
    + split; [right; eexists; split; [reflexivity | exact Hl] |].
      split; [intros (m & [Hn | (c & Hn)]); discriminate Hn |].
      split; [intros Hs; apply register_accepted_snoc, H3, Hs
             | intros Hs; apply register_verified_snoc, H4, Hs].
    + split; [left; reflexivity |].
      split; [intros (m & [Hn | (c' & Hn)]); discriminate Hn |].
      split; [intros Hs; apply register_accepted_snoc, H3, Hs
             | intros Hs; apply register_verified_snoc, H4, Hs].
Qed.

Lemma register_flow_invariant (E : Engine.t) (es : list RegisterFlow.Event) :
  RegisterFlow.invariant E es (RegisterFlow.run E es RegisterFlow.initial).
Proof.
  induction es as [| e es IH] using rev_ind.
  - unfold RegisterFlow.invariant. cbn.
    split; [left; reflexivity |].
    split; [intros (n & [Hn | (c & Hn)]); discriminate Hn |].
    split; [intros [? | ?]; discriminate | discriminate].
  - rewrite register_run_snoc. apply register_flow_step, IH.
Qed.

Lemma register_passedBy_snoc (E : Engine.t) (es : list RegisterFlow.Event)
    (e : RegisterFlow.Event) (fd : RegisterForm.FormData) :
  RegisterFlow.passedBy E es fd -> RegisterFlow.passedBy E (es ++ [e]) fd.
Proof.
  intros (es1 & es2 & users & -> & H). exists es1, (es2 ++ [e]), users.
  split; [rewrite <- app_assoc; reflexivity | exact H].
Qed.

Lemma register_undisturbed_prefix (E : Engine.t) (es : list RegisterFlow.Event)
    (e : RegisterFlow.Event) :
  RegisterFlow.undisturbed E (es ++ [e]) -> RegisterFlow.undisturbed E es.
Proof.
  intros H es1 es2 name value ->. apply (H es1 (es2 ++ [e]) name value).
  rewrite <- app_assoc. reflexivity.
Qed.

Lemma register_handleOtpChange_formData (index : nat) (value : string)
    (f : RegisterForm.State) :
  RegisterForm.formData (RegisterForm.handleOtpChange index value f) = RegisterForm.formData f.
Proof.
  unfold RegisterForm.handleOtpChange.
  destruct (negb (Js.every_char Js.is_digit value)); reflexivity.
Qed.

Lemma register_handleOtpSubmit_frame (f : RegisterForm.State) :
  RegisterForm.formData (RegisterForm.handleOtpSubmit f) = RegisterForm.formData f
  /\ (RegisterForm.step (RegisterForm.handleOtpSubmit f) = RegisterForm.step f
      \/ RegisterForm.step (RegisterForm.handleOtpSubmit f) = RegisterForm.StepConfirmation).
Proof.
  unfold RegisterForm.handleOtpSubmit.
  destruct (String.eqb _ _); split; first [reflexivity | right; reflexivity | left; reflexivity].
Qed.

(** While no input is changed under the loading flag, the data the form
    holds on the passcode and confirmation steps, and while the details
    handler is pending, is data that passed the checks of a submission. *)
Lemma register_flow_kept (E : Engine.t) (es : list RegisterFlow.Event) :
  RegisterFlow.undisturbed E es ->
  let st := RegisterFlow.run E es RegisterFlow.initial in
  ((exists n, RegisterFlow.tasks st = [RegisterFlow.DetailsOtp n]
              \/ exists c, RegisterFlow.tasks st = [RegisterFlow.DetailsMessage n c])
   \/ RegisterForm.step (RegisterFlow.form st) = RegisterForm.StepOtp
   \/ RegisterForm.step (RegisterFlow.form st) = RegisterForm.StepConfirmation) ->
  RegisterFlow.passedBy E es (RegisterForm.formData (RegisterFlow.form st)).
Proof.
  induction es as [| e es IH] using rev_ind; intros Hund st Hprem.
  - exfalso. destruct Hprem as [(n & [Hn | (c & Hn)]) | [Hs | Hs]]; discriminate.
  - pose proof (IH (register_undisturbed_prefix E es e Hund)) as IH'. cbn zeta in IH'.
    pose proof (register_flow_invariant E es) as Hinv.
    subst st. rewrite register_run_snoc in *.
    set (st := RegisterFlow.run E es RegisterFlow.initial) in *.
    unfold RegisterFlow.handle in *.
    destruct (RegisterFlow.enabled E (RegisterFlow.form st) e) eqn:Hen;
      [| apply register_passedBy_snoc, IH', Hprem].
    unfold RegisterFlow.enabled in Hen.
    destruct e as [name value | users | index value | | | | | | | i code | i message].
    + (* Input *)
      exfalso.
      destruct (RegisterForm.step (RegisterFlow.form st)) eqn:Hstep; try discriminate Hen.
      assert (Hl : RegisterForm.isLoading (RegisterFlow.form st) = false)
        by (apply (Hund es [] name value); reflexivity).
      pose proof (register_idle_of_not_loading E es st Hinv Hl) as Hidle.
      destruct (handleInputChange_frame name value (RegisterFlow.form st)) as [_ Hs].
      unfold RegisterFlow.onForm in Hprem. cbn [RegisterFlow.tasks RegisterFlow.form] in Hprem.
      rewrite Hs, Hstep, Hidle in Hprem.
      destruct Hprem as [(n & [Hn | (c & Hn)]) | [Hp | Hp]]; discriminate.
    + (* SubmitDetails *)
      destruct (RegisterForm.step (RegisterFlow.form st)) eqn:Hstep; try discriminate Hen.
      apply negb_true_iff in Hen.
      pose proof (register_idle_of_not_loading E es st Hinv Hen) as Hidle.
      unfold RegisterFlow.detailsStart in *. rewrite Hidle in *.
      set (f := RegisterForm.setNotification None
                  (RegisterForm.setIsLoading true
                     (RegisterForm.setErrors ∅ (RegisterFlow.form st)))) in *.
      assert (Hpass : RegisterFlow.passes E users (RegisterForm.formData (RegisterFlow.form st))
                      = negb (RegisterFlow.exists_ E users
                                (Engine.trim E (RegisterForm.username (RegisterForm.formData f))))
                        && match RegisterFlow.validatePassword E
                                   (RegisterForm.password (RegisterForm.formData f)) with
                           | Some _ => false
                           | None => true
                           end
                        && Js.truthy (RegisterForm.mpesaCode (RegisterForm.formData f))
                        && Js.is_alnum10 (RegisterForm.mpesaCode (RegisterForm.formData f)))
        by reflexivity.
      assert (Hrefuse : forall errors,
                 ((exists n, @nil RegisterFlow.Task = [RegisterFlow.DetailsOtp n]
                             \/ exists c, @nil RegisterFlow.Task = [RegisterFlow.DetailsMessage n c])
                  \/ RegisterForm.step
                       (RegisterForm.setIsLoading false (RegisterForm.setErrors errors f))
                     = RegisterForm.StepOtp
                  \/ RegisterForm.step
                       (RegisterForm.setIsLoading false (RegisterForm.setErrors errors f))
                     = RegisterForm.StepConfirmation) -> False).
      { intros errors.
        change (RegisterForm.step
                  (RegisterForm.setIsLoading false (RegisterForm.setErrors errors f)))
          with (RegisterForm.step (RegisterFlow.form st)).
        rewrite Hstep. intros [(n & [Hn | (c & Hn)]) | [Hp | Hp]]; discriminate. }
      destruct (RegisterFlow.exists_ E users _);
        [exfalso; exact (Hrefuse _ Hprem) |].
      destruct (RegisterFlow.validatePassword E _);
        [exfalso; exact (Hrefuse _ Hprem) |].
      destruct (Js.truthy _); cbn [negb orb] in *;
        [| exfalso; exact (Hrefuse _ Hprem)].
      destruct (Js.is_alnum10 _); cbn [negb] in *;
        [| exfalso; exact (Hrefuse _ Hprem)].
      cbn in Hpass. cbn [RegisterFlow.form].
      change (RegisterForm.formData f) with (RegisterForm.formData (RegisterFlow.form st)).
      exists es, [], users. split; [reflexivity | exact Hpass].
    + (* TypeOtp *)
      destruct (register_handleOtpChange_frame index value (RegisterFlow.form st)) as [_ Hs].
      unfold RegisterFlow.onForm in *. cbn [RegisterFlow.tasks RegisterFlow.form] in *.
      rewrite register_handleOtpChange_formData. rewrite Hs in Hprem.
      apply register_passedBy_snoc, IH', Hprem.
    + (* DismissNotification *)
      apply register_passedBy_snoc, IH', Hprem.
    + (* SubmitOtp *)
      destruct (RegisterForm.step (RegisterFlow.form st)) eqn:Hstep; try discriminate Hen.
      unfold RegisterFlow.onForm. cbn [RegisterFlow.form].
      destruct (register_handleOtpSubmit_frame (RegisterFlow.form st)) as [-> _].
      apply register_passedBy_snoc, IH'. right. left. reflexivity.
    + (* Resend *)
      destruct (RegisterForm.step (RegisterFlow.form st)) eqn:Hstep; try discriminate Hen.
      apply register_passedBy_snoc, IH'. right. left. reflexivity.
    + (* ChangeContact *)
      destruct (RegisterForm.step (RegisterFlow.form st)) eqn:Hstep; try discriminate Hen.
      apply register_passedBy_snoc, IH'. right. left. reflexivity.
    + (* Confirm *)
      apply register_passedBy_snoc, IH', Hprem.
    + (* EditDetails *)
      destruct (RegisterForm.step (RegisterFlow.form st)) eqn:Hstep; try discriminate Hen.
      apply register_passedBy_snoc, IH'. right. right. reflexivity.
    + (* OtpAnswer *)
      unfold RegisterFlow.resume in *.
      destruct Hinv as (H1 & _).
      destruct H1 as [H1 | (t & H1 & Hl)]; rewrite H1 in *.
      { try rewrite (lookup_nil i) in Hprem; try rewrite (lookup_nil i). apply register_passedBy_snoc, IH'.
        try rewrite H1 in Hprem. exact Hprem. }
      destruct i as [| i]; [cbn [lookup list_lookup] in * |].
      2: { assert (Hn : [t] !! S i = None) by (destruct i; reflexivity).
           rewrite Hn in Hprem |- *. apply register_passedBy_snoc, IH'.
           try rewrite H1 in Hprem. exact Hprem. }
      destruct t as [n | n c | n | n c]; cbn [RegisterFlow.otpResolved] in *;
        cbn [RegisterFlow.tasks RegisterFlow.form insert list_insert] in *;
        apply register_passedBy_snoc, IH'.
      * left. exists n. left. reflexivity.
      * exact Hprem.
      * destruct Hprem as [(m & [Hn | (c & Hn)]) | Hp]; [discriminate .. | right; exact Hp].
      * exact Hprem.
    + (* MessageAnswer *)
      unfold RegisterFlow.resume in *.
      destruct Hinv as (H1 & _).
      destruct H1 as [H1 | (t & H1 & Hl)]; rewrite H1 in *.
      { try rewrite (lookup_nil i) in Hprem; try rewrite (lookup_nil i). apply register_passedBy_snoc, IH'.
        try rewrite H1 in Hprem. exact Hprem. }
      destruct i as [| i]; [cbn [lookup list_lookup] in * |].
      2: { assert (Hn : [t] !! S i = None) by (destruct i; reflexivity).
           rewrite Hn in Hprem |- *. apply register_passedBy_snoc, IH'.
           try rewrite H1 in Hprem. exact Hprem. }
      destruct t as [n | n c | n | n c]; cbn [RegisterFlow.messageResolved] in *;
        cbn [RegisterFlow.tasks RegisterFlow.form insert list_insert delete list_delete] in *;
        apply register_passedBy_snoc, IH'.
      * exact Hprem.
      * left. exists n. right. exists c. reflexivity.
      * exact Hprem.
      * destruct Hprem as [(m & [Hn | (c' & Hn)]) | Hp]; [discriminate .. | right; exact Hp].
Qed.

(** X7. Whatever is typed or clicked on the registration form and whenever
    the provider's calls resolve, [onRegisterSuccess] is only called by the
    confirmation button, with the name, password and transaction code the
    form holds then, after a submission of the details form at which the
    trimmed name matched no account, the password passed the password rules
    and the transaction code was ten letters or digits, and after the
    stored code was entered on the passcode step. The three inputs stay
    editable while the code is being generated, so what is registered need
    not be what was checked; when no input is changed while the loading
    flag is up, the data registered passes the three checks against the
    accounts of one of the submissions. The engine's [trim], [length] and
    case folding are taken as they are. *)
Theorem register_only_after_checks
    (E : Engine.t) (es : list RegisterFlow.Event) (e : RegisterFlow.Event)
    (c : App.UserData) :
  let st := RegisterFlow.run E es RegisterFlow.initial in
  RegisterFlow.registerCall E e st = Some c ->
  e = RegisterFlow.Confirm
  /\ RegisterForm.step (RegisterFlow.form st) = RegisterForm.StepConfirmation
  /\ c = RegisterForm.candidate (RegisterFlow.form st)
  /\ RegisterFlow.accepted E es
  /\ RegisterFlow.verified E es
  /\ (RegisterFlow.undisturbed E es ->
      RegisterFlow.passedBy E es (RegisterForm.formData (RegisterFlow.form st))).
Proof.
  intros st Hcall.
  destruct e; try discriminate Hcall. cbn [RegisterFlow.registerCall] in Hcall.
  destruct (RegisterFlow.enabled E (RegisterFlow.form st) RegisterFlow.Confirm) eqn:Hen;
    [| discriminate Hcall].
  unfold RegisterFlow.enabled in Hen.
  destruct (RegisterForm.step (RegisterFlow.form st)) eqn:Hstep; try discriminate Hen.
  injection Hcall as <-.
  destruct (register_flow_invariant E es) as (_ & _ & H3 & H4). fold st in H3, H4.
  split; [reflexivity |]. split; [reflexivity |]. split; [reflexivity |].
  split; [apply H3; right; exact Hstep |].
  split; [apply H4; exact Hstep |].
  intros Hund. apply (register_flow_kept E es Hund). right. right. exact Hstep.
Qed.

Lemma register_only_after_checks_witness :
  RegisterFlow.registerCall Engine.ascii RegisterFlow.Confirm
    (RegisterFlow.run Engine.ascii Demo.registerFlowEvents RegisterFlow.initial)
  = Some {| App.username := "carol@mail.com"; App.password := Some "";
            App.mpesaCode := Some "QK54ABCDE1"; App.profile := None; App.stats := None;
            App.earningsHistory := None; App.settings := None |}
  /\ RegisterFlow.validatePassword Engine.ascii ""
     = Some "Password must be at least 8 characters."
  /\ RegisterFlow.accepted Engine.ascii Demo.registerFlowEvents.
Proof.
  split; [vm_compute; reflexivity |]. split; [vm_compute; reflexivity |].
  refine (proj1 (proj2 (proj2 (proj2
            (register_only_after_checks Engine.ascii Demo.registerFlowEvents
               RegisterFlow.Confirm
               {| App.username := "carol@mail.com"; App.password := Some "";
                  App.mpesaCode := Some "QK54ABCDE1"; App.profile := None;
                  App.stats := None; App.earningsHistory := None; App.settings := None |}
               _))))).
  vm_compute. reflexivity.
Defined.

(** Left alone between its awaits, the details handler of the
    await-by-await form does what [handleDetailsSubmit] does in one piece. *)
Lemma register_details_undisturbed
    (users : list App.UserData) (code : string) (message : option string)
    (st : RegisterFlow.State) :
  RegisterFlow.tasks st = [] ->
  RegisterForm.step (RegisterFlow.form st) = RegisterForm.StepDetails ->
  RegisterForm.isLoading (RegisterFlow.form st) = false ->
  RegisterFlow.handle Engine.ascii (RegisterFlow.MessageAnswer 0 message)
    (RegisterFlow.handle Engine.ascii (RegisterFlow.OtpAnswer 0 code)
       (RegisterFlow.handle Engine.ascii (RegisterFlow.SubmitDetails users) st))
  = {| RegisterFlow.form :=
         RegisterForm.handleDetailsSubmit users code message (RegisterFlow.form st);
       RegisterFlow.tasks := [] |}.
Proof.
  destruct st as [f ts]. cbn [RegisterFlow.tasks RegisterFlow.form]. intros -> Hstep Hload.
  unfold RegisterFlow.handle at 3. unfold RegisterFlow.enabled. cbn [RegisterFlow.form].
  rewrite Hstep, Hload. cbn [negb].
  unfold RegisterForm.handleDetailsSubmit, RegisterFlow.detailsStart.
  cbn [RegisterFlow.form RegisterFlow.tasks].
  change (RegisterFlow.exists_ Engine.ascii) with RegisterForm.exists_.
  change (RegisterFlow.validatePassword Engine.ascii) with RegisterForm.validatePassword.
  change (Engine.trim Engine.ascii) with Js.trim.
  destruct (RegisterForm.exists_ users _);
    [| destruct (RegisterForm.validatePassword _);
       [| destruct (negb (Js.truthy _) || negb (Js.is_alnum10 _))]];
    unfold RegisterFlow.handle, RegisterFlow.enabled; cbn;
    repeat match goal with |- context [match RegisterForm.step ?x with _ => _ end] =>
             destruct (RegisterForm.step x) end;
    reflexivity.
Qed.
